(** * RecipeBox: the ingredient scaler and the recipe repository

    A shallow embedding of [recipe_box.py]: the helper
    [_scale_ingredient_line], the class [RecipeRepo] with the dataclass
    [Recipe], and the save action of [RecipeEditor], together with the
    parts of the Python runtime and of the libraries ([re], [json],
    [sqlite3], [csv]) that they call.

    Conventions of the embedding.
    - A Python [str] is a Rocq [string] whose characters are the code points
      U+0000..U+00FF (Latin-1).  All character tables below (white space,
      line boundaries, decimal digits, word characters) are the ones of
      CPython restricted to that range.
    - A Python [float] is a binary64 value, [spec_float] with precision 53
      and maximal exponent 1024, rounded to nearest even.
    - A computation that may raise returns a [Py.result]; [try]/[except
      Exception] is [Py.try_except].  The third outcome [Unmodelled] marks a run
      that leaves the modelled fragment (it is never caught and nothing is
      claimed about it).
    - The interpreter's limit on the number of digits in a conversion
      between [int] and [str] is not modelled. *)

From Stdlib Require Import ZArith List Bool Ascii String Lia.
From Stdlib Require Import Sorted Permutation.
From Stdlib Require Import DecimalString DecimalPos DecimalZ.
From Stdlib Require Floats.SpecFloat.
From stdpp Require Import base gmap strings.
Import ListNotations.
Local Open Scope string_scope.
Local Open Scope list_scope.
Local Open Scope Z_scope.

(* ------------------------------------------------------------------ *)
(** ** Python results and exceptions *)

Module Py.

(** The exception classes that the modelled code can raise; all of them are
    subclasses of [Exception]. *)
Inductive exn : Type :=
  | ValueError
  | TypeError
  | AttributeError
  | ZeroDivisionError
  | OverflowError
  | JSONDecodeError
  | IntegrityError.

Inductive result (A : Type) : Type :=
  | Ok (a : A)
  | Raise (e : exn)
  | Unmodelled.
Arguments Ok {A} a.
Arguments Raise {A} e.
Arguments Unmodelled {A}.

Definition bind {A B} (m : result A) (k : A -> result B) : result B :=
  match m with
  | Ok a => k a
  | Raise e => Raise e
  | Unmodelled => Unmodelled
  end.

(** [try: body  except Exception: handler]. *)
Definition try_except {A} (body : result A) (handler : result A) : result A :=
  match body with
  | Ok a => Ok a
  | Raise _ => handler
  | Unmodelled => Unmodelled
  end.

Definition is_ok {A} (m : result A) : bool :=
  match m with Ok _ => true | _ => false end.

Definition raises {A} (m : result A) : bool :=
  match m with Raise _ => true | _ => false end.

End Py.

Notation "x <- m ;; k" := (Py.bind m (fun x => k))
  (at level 100, m at next level, right associativity,
   format "'[v' x  <-  m  ;;  '/' k ']'").

(* ------------------------------------------------------------------ *)
(** ** Python [str] methods *)

Module Str.

Definition chars (s : string) : list ascii := list_ascii_of_string s.
Definition of_chars (l : list ascii) : string := string_of_list_ascii l.

Definition code (c : ascii) : N := N_of_ascii c.

Definition in_codes (l : list N) (c : ascii) : bool :=
  existsb (N.eqb (code c)) l.

(** [str.isspace] on U+0000..U+00FF; also the class [\s] of [re]. *)
Definition isspace : ascii -> bool :=
  in_codes [9; 10; 11; 12; 13; 28; 29; 30; 31; 32; 133; 160]%N.

(** The line boundaries of [str.splitlines]. *)
Definition islinebreak : ascii -> bool :=
  in_codes [10; 11; 12; 13; 28; 29; 30; 133]%N.

(** ['0'..'9'], the only decimal digits below U+0100; also [\d] of [re]. *)
Definition isdigit (c : ascii) : bool :=
  ((48 <=? code c) && (code c <=? 57))%N.

Definition digit_val (c : ascii) : Z := Z.of_N (code c) - 48.

(** The word characters [\w] of [re] on a [str] pattern: alphanumerics
    ([str.isalnum]) and the underscore. *)
Definition isword (c : ascii) : bool :=
  let n := code c in
  (isdigit c
   || ((65 <=? n) && (n <=? 90)) || ((97 <=? n) && (n <=? 122))
   || (n =? 95)
   || in_codes [170; 178; 179; 181; 185; 186; 188; 189; 190] c
   || ((192 <=? n) && (n <=? 214)) || ((216 <=? n) && (n <=? 246))
   || (248 <=? n))%N.

Fixpoint drop_while (p : ascii -> bool) (l : list ascii) : list ascii :=
  match l with
  | [] => []
  | c :: l' => if p c then drop_while p l' else l
  end.

Definition lstrip_by (p : ascii -> bool) (l : list ascii) : list ascii :=
  drop_while p l.
Definition rstrip_by (p : ascii -> bool) (l : list ascii) : list ascii :=
  rev (drop_while p (rev l)).

(** [s.strip()], [s.rstrip(c)] for a one-character argument. *)
Definition strip (s : string) : string :=
  of_chars (lstrip_by isspace (rstrip_by isspace (chars s))).
Definition rstrip_char (c : ascii) (s : string) : string :=
  of_chars (rstrip_by (Ascii.eqb c) (chars s)).

(** [c in s] for a one-character [c]. *)
Definition contains (c : ascii) (s : string) : bool :=
  existsb (Ascii.eqb c) (chars s).

(** [s.split(sep)] for a one-character separator: never an empty list. *)
Fixpoint split_chars (sep : ascii) (cur : list ascii) (l : list ascii)
  : list (list ascii) :=
  match l with
  | [] => [rev cur]
  | c :: l' =>
      if Ascii.eqb c sep then rev cur :: split_chars sep [] l'
      else split_chars sep (c :: cur) l'
  end.
Definition split (sep : ascii) (s : string) : list string :=
  map of_chars (split_chars sep [] (chars s)).

(** [s.split()]: the maximal runs of characters that are not white space. *)
Fixpoint words_chars (cur : list ascii) (l : list ascii)
  : list (list ascii) :=
  match l with
  | [] => match cur with [] => [] | _ => [rev cur] end
  | c :: l' =>
      if isspace c
      then match cur with
           | [] => words_chars [] l'
           | _ => rev cur :: words_chars [] l'
           end
      else words_chars (c :: cur) l'
  end.
Definition split_ws (s : string) : list string :=
  map of_chars (words_chars [] (chars s)).

(** [s.splitlines()]: a carriage return followed by a line feed is one
    boundary, and no empty last line is produced. *)
Fixpoint lines_chars (cur : list ascii) (l : list ascii)
  : list (list ascii) :=
  match l with
  | [] => match cur with [] => [] | _ => [rev cur] end
  | c :: l' =>
      if islinebreak c then
        match l' with
        | c' :: l'' =>
            if ((code c =? 13) && (code c' =? 10))%N
            then rev cur :: lines_chars [] l''
            else rev cur :: lines_chars [] l'
        | [] => [rev cur]
        end
      else lines_chars (c :: cur) l'
  end.
Definition splitlines (s : string) : list string :=
  map of_chars (lines_chars [] (chars s)).

(** [sep.join(l)]. *)
Fixpoint join (sep : string) (l : list string) : string :=
  match l with
  | [] => ""
  | [x] => x
  | x :: l' => x +:+ sep +:+ join sep l'
  end.

(** Truth value of a [str]: the empty string is false. *)
Definition truthy (s : string) : bool :=
  match s with EmptyString => false | _ => true end.

(** [str(n)] for an [int]. *)
Definition of_int (n : Z) : string := NilZero.string_of_int (Z.to_int n).

(** The white space that [int(s)] and [float(s)] skip at both ends of
    their argument; U+001C..U+001F are not among it. *)
Definition isspace_num : ascii -> bool :=
  in_codes [9; 10; 11; 12; 13; 32; 133; 160]%N.

Definition strip_num (l : list ascii) : list ascii :=
  lstrip_by isspace_num (rstrip_by isspace_num l).

(** A run of decimal digits in which single underscores may separate
    digits ([digitpart] of the language reference).  [digitpart acc seen l]
    reads as many characters as belong to it and returns the digits read
    (most significant first) with the rest, or [None] when the run is
    empty or an underscore is misplaced. *)
Fixpoint digitpart_from (acc : list Z) (l : list ascii)
  : option (list Z * list ascii) :=
  match l with
  | c :: l' =>
      if isdigit c then digitpart_from (digit_val c :: acc) l'
      else if (code c =? 95)%N then
        match l' with
        | c' :: _ => if isdigit c' then digitpart_from acc l' else None
        | [] => None
        end
      else Some (rev acc, l)
  | [] => Some (rev acc, [])
  end.
Definition digitpart (l : list ascii) : option (list Z * list ascii) :=
  match l with
  | c :: _ => if isdigit c then digitpart_from [] l else None
  | [] => None
  end.

Definition value_of_digits (ds : list Z) : Z :=
  fold_left (fun acc d => 10 * acc + d) ds 0.

(** An optional sign: [true] for ['-']. *)
Definition sign (l : list ascii) : bool * list ascii :=
  match l with
  | c :: l' =>
      if (code c =? 45)%N then (true, l')
      else if (code c =? 43)%N then (false, l')
      else (false, l)
  | [] => (false, [])
  end.

(** [int(s)] for a [str], base ten. *)
Definition to_int (s : string) : Py.result Z :=
  let '(neg, l) := sign (strip_num (chars s)) in
  match digitpart l with
  | Some (ds, []) =>
      Py.Ok (if neg then - value_of_digits ds else value_of_digits ds)
  | _ => Py.Raise Py.ValueError
  end.

End Str.

(* ------------------------------------------------------------------ *)
(** ** Python [float]: binary64 arithmetic *)

Module Float.

Import Floats.SpecFloat.

Definition prec : Z := 53.
Definition emax : Z := 1024.

Definition float : Type := spec_float.

Definition is_zero (x : float) : bool :=
  match x with S754_zero _ => true | _ => false end.
Definition is_finite (x : float) : bool :=
  match x with S754_zero _ | S754_finite _ _ _ => true | _ => false end.
Definition is_inf (x : float) : bool :=
  match x with S754_infinity _ => true | _ => false end.

Definition add (x y : float) : float := SFadd prec emax x y.
Definition sub (x y : float) : float := SFsub prec emax x y.
Definition mul (x y : float) : float := SFmul prec emax x y.
Definition abs (x : float) : float := SFabs x.
Definition ltb (x y : float) : bool := SFltb x y.

(** [x / y]: a zero divisor raises. *)
Definition truediv (x y : float) : Py.result float :=
  if is_zero y then Py.Raise Py.ZeroDivisionError
  else Py.Ok (SFdiv prec emax x y).

(** The float nearest to the integer [n] (the conversion applied to an
    [int] operand of a float operation); an [int] beyond the float range
    raises. *)
Definition of_int (n : Z) : Py.result float :=
  let f := binary_normalize prec emax n 0 false in
  if is_inf f then Py.Raise Py.OverflowError else Py.Ok f.

(** The float nearest to [n * 10^e] for a natural number [n]: the value of
    a decimal literal, correctly rounded. *)
Definition of_decimal (neg : bool) (n : Z) (e : Z) : float :=
  match n with
  | Zpos p =>
      if 0 <=? e
      then binary_normalize prec emax
             (if neg then - (n * 10 ^ e) else n * 10 ^ e) 0 false
      else SFdiv prec emax (S754_finite neg p 0)
                           (S754_finite false (Z.to_pos (10 ^ (- e))) 0)
  | _ => S754_zero neg
  end.

(** The literal [1e-6]. *)
Definition lit_1e_6 : float := of_decimal false 1 (-6).

(** [a / b] rounded to the nearest integer, ties to the even one
    ([0 < b]). *)
Definition div_half_even (a b : Z) : Z :=
  let q := a / b in
  let r := a mod b in
  match 2 * r ?= b with
  | Lt => q
  | Gt => q + 1
  | Eq => if Z.even q then q else q + 1
  end.

(** The magnitude [m * 2^e * scale] rounded half-even to an integer. *)
Definition scaled_round (m : positive) (e : Z) (scale : Z) : Z :=
  if 0 <=? e then Zpos m * scale * 2 ^ e
  else div_half_even (Zpos m * scale) (2 ^ (- e)).

(** [round(x)] with one argument: the nearest [int], ties to even. *)
Definition round (x : float) : Py.result Z :=
  match x with
  | S754_zero _ => Py.Ok 0
  | S754_finite s m e =>
      let n := scaled_round m e 1 in Py.Ok (if s then - n else n)
  | S754_infinity _ => Py.Raise Py.OverflowError
  | S754_nan => Py.Raise Py.ValueError
  end.

Definition two_digits (n : Z) : string :=
  Str.of_int (n / 10) +:+ Str.of_int (n mod 10).

(** [f"{x:.2f}"]: the exact value of [x] rounded half-even to two decimal
    places, with the sign of [x]. *)
Definition format_2f (x : float) : string :=
  match x with
  | S754_zero s => (if s then "-" else "") +:+ "0.00"
  | S754_finite s m e =>
      let n := scaled_round m e 100 in
      (if s then "-" else "") +:+ Str.of_int (n / 100) +:+ "."
        +:+ two_digits (n mod 100)
  | S754_infinity s => (if s then "-" else "") +:+ "inf"
  | S754_nan => "nan"
  end.

(** Lower-casing of ASCII letters, for the spellings of [inf] and [nan]. *)
Definition lower (c : ascii) : ascii :=
  let n := Str.code c in
  if ((65 <=? n) && (n <=? 90))%N then ascii_of_N (n + 32) else c.

Definition is_word (w : string) (l : list ascii) : bool :=
  String.eqb (Str.of_chars (map lower l)) w.

(** The mantissa of a [floatnumber]: [digitpart ["." [digitpart]]] or
    ["." digitpart]; returns the integer and fractional digits and the
    rest of the input. *)
Definition mantissa (l : list ascii)
  : option (list Z * list Z * list ascii) :=
  match Str.digitpart l with
  | Some (ip, c :: l1) =>
      if (Str.code c =? 46)%N then
        match Str.digitpart l1 with
        | Some (fp, l2) => Some (ip, fp, l2)
        | None => Some (ip, [], l1)
        end
      else Some (ip, [], c :: l1)
  | Some (ip, []) => Some (ip, [], [])
  | None =>
      match l with
      | c :: l1 =>
          if (Str.code c =? 46)%N then
            match Str.digitpart l1 with
            | Some (fp, l2) => Some ([], fp, l2)
            | None => None
            end
          else None
      | [] => None
      end
  end.

(** The optional exponent part; [None] when an exponent marker is not
    followed by a well-formed exponent. *)
Definition exponent (l : list ascii) : option (Z * list ascii) :=
  match l with
  | c :: l1 =>
      if ((Str.code c =? 101) || (Str.code c =? 69))%N then
        let '(neg, l2) := Str.sign l1 in
        match Str.digitpart l2 with
        | Some (ds, l3) =>
            let x := Str.value_of_digits ds in
            Some (if neg then - x else x, l3)
        | None => None
        end
      else Some (0, l)
  | [] => Some (0, [])
  end.

(** [float(s)] for a [str]. *)
Definition of_str (s : string) : Py.result float :=
  let '(neg, l) := Str.sign (Str.strip_num (Str.chars s)) in
  if is_word "inf" l || is_word "infinity" l
  then Py.Ok (S754_infinity neg)
  else if is_word "nan" l then Py.Ok S754_nan
  else
    match mantissa l with
    | Some (ip, fp, l1) =>
        match exponent l1 with
        | Some (x, []) =>
            Py.Ok (of_decimal neg (Str.value_of_digits (ip ++ fp))
                              (x - Z.of_nat (length fp)))
        | _ => Py.Raise Py.ValueError
        end
    | None => Py.Raise Py.ValueError
    end.

End Float.

(* ------------------------------------------------------------------ *)
(** ** The fragment of [re] used by the scaler

    A backtracking matcher with the priorities of Python's engine: the
    alternatives of [|] are tried from left to right, repetitions are
    greedy and give characters back one at a time.  The repetitions of the
    pattern in the source all range over one character class, so [Star]
    and [Plus] take a class. *)

Module Re.

Inductive regex : Type :=
  | Chr (c : ascii)                      (* a literal character *)
  | Class (p : ascii -> bool)            (* [\d], [\s], [.] *)
  | Star (p : ascii -> bool)             (* [c*] *)
  | Plus (p : ascii -> bool)             (* [c+] *)
  | Seq (r1 r2 : regex)
  | Alt (r1 r2 : regex)                  (* [r1|r2] *)
  | Opt (r : regex)                      (* [(?:r)?] *)
  | Group (n : nat) (r : regex)          (* the [n]-th capturing group *)
  | Bol                                  (* [^] *)
  | Eol                                  (* [$] *)
  | WordBoundary.                        (* [\b] *)

(** A position in the subject: the characters already consumed (nearest
    first), the characters ahead, and the groups captured so far. *)
Record state : Type := State {
  before : list ascii;
  after : list ascii;
  groups : list (nat * string)
}.

Definition digit : ascii -> bool := Str.isdigit.
Definition space : ascii -> bool := Str.isspace.
(** [.] without [DOTALL]: every character but the line feed. *)
Definition dot (c : ascii) : bool := negb (Str.code c =? 10)%N.

Fixpoint star {R} (p : ascii -> bool) (bef aft : list ascii)
  (k : list ascii -> list ascii -> option R) : option R :=
  match aft with
  | c :: aft' =>
      if p c then
        match star p (c :: bef) aft' k with
        | Some r => Some r
        | None => k bef aft
        end
      else k bef aft
  | [] => k bef aft
  end.

Definition at_word (l : list ascii) : bool :=
  match l with c :: _ => Str.isword c | [] => false end.

(** [$] without [MULTILINE]: the end of the subject, or just before a line
    feed that ends it. *)
Definition at_eol (aft : list ascii) : bool :=
  match aft with
  | [] => true
  | [c] => (Str.code c =? 10)%N
  | _ => false
  end.

(** The text consumed between two positions of one run. *)
Definition consumed (st st' : state) : string :=
  Str.of_chars
    (rev (firstn (length (before st') - length (before st)) (before st'))).

Fixpoint run {R} (r : regex) (st : state) (k : state -> option R)
  : option R :=
  match r with
  | Chr c =>
      match after st with
      | c' :: aft' =>
          if Ascii.eqb c' c
          then k (State (c' :: before st) aft' (groups st)) else None
      | [] => None
      end
  | Class p =>
      match after st with
      | c' :: aft' =>
          if p c' then k (State (c' :: before st) aft' (groups st)) else None
      | [] => None
      end
  | Star p =>
      star p (before st) (after st) (fun b a => k (State b a (groups st)))
  | Plus p =>
      match after st with
      | c' :: aft' =>
          if p c'
          then star p (c' :: before st) aft'
                 (fun b a => k (State b a (groups st)))
          else None
      | [] => None
      end
  | Seq r1 r2 => run r1 st (fun st' => run r2 st' k)
  | Alt r1 r2 =>
      match run r1 st k with
      | Some x => Some x
      | None => run r2 st k
      end
  | Opt r1 =>
      match run r1 st k with
      | Some x => Some x
      | None => k st
      end
  | Group n r1 =>
      run r1 st
        (fun st' =>
           k (State (before st') (after st')
                    ((n, consumed st st') :: groups st')))
  | Bol => match before st with [] => k st | _ => None end
  | Eol => if at_eol (after st) then k st else None
  | WordBoundary =>
      if xorb (at_word (before st)) (at_word (after st)) then k st else None
  end.

(** [re.match(r, s)]: the groups of the first successful run from the start
    of [s], or [None]. *)
Definition rmatch (r : regex) (s : string) : option (list (nat * string)) :=
  run r (State [] (Str.chars s) []) (fun st => Some (groups st)).

(** [m.group(n)] for a group that took part in the match. *)
Fixpoint group (n : nat) (m : list (nat * string)) : string :=
  match m with
  | (i, s) :: m' => if Nat.eqb i n then s else group n m'
  | [] => ""
  end.

End Re.

(* ------------------------------------------------------------------ *)
(** ** The scaling helper *)

(** The pattern of [_scale_ingredient_line]: [^(Q)\b(R)$] where the first
    group [Q] is [\d+\s+\d+/\d+|\d+/\d+|\d+(?:\.\d+)?] and the second group
    [R] is the greedy repetition of [.]. *)
Definition quantity_pattern : Re.regex :=
  let d := Re.Plus Re.digit in
  let slash := Re.Chr "/"%char in
  Re.Seq Re.Bol
    (Re.Seq
       (Re.Group 1
          (Re.Alt (Re.Seq d (Re.Seq (Re.Plus Re.space) (Re.Seq d (Re.Seq slash d))))
             (Re.Alt (Re.Seq d (Re.Seq slash d))
                (Re.Seq d (Re.Opt (Re.Seq (Re.Chr "."%char) d))))))
       (Re.Seq Re.WordBoundary
          (Re.Seq (Re.Group 2 (Re.Star Re.dot)) Re.Eol))).

(** [num, den = fr.split("/"); return float(num) / float(den)]. *)
Definition _frac_str_to_float (fr : string) : Py.result Float.float :=
  match Str.split "/"%char fr with
  | [num; den] =>
      n <- Float.of_str num ;;
      d <- Float.of_str den ;;
      Float.truediv n d
  | _ => Py.Raise Py.ValueError
  end.

Definition frac_to_float (q : string) : Py.result Float.float :=
  if Str.contains " "%char q then
    match Str.split_ws q with
    | [a; b] =>
        x <- Float.of_str a ;;
        y <- _frac_str_to_float b ;;
        Py.Ok (Float.add x y)
    | _ => Py.Raise Py.ValueError
    end
  else if Str.contains "/"%char q then _frac_str_to_float q
  else Float.of_str q.

(** The rendering of the scaled quantity: the nearest integer when the
    quantity is within [1e-6] of it, else two decimals without trailing
    zeros and without a trailing point. *)
Definition format_quantity (new_qty : Float.float) : Py.result string :=
  r <- Float.round new_qty ;;
  rf <- Float.of_int r ;;
  if Float.ltb (Float.abs (Float.sub new_qty rf)) Float.lit_1e_6
  then r' <- Float.round new_qty ;; Py.Ok (Str.of_int r')
  else Py.Ok (Str.rstrip_char "."%char (Str.rstrip_char "0"%char
                (Float.format_2f new_qty))).

(** The body of the [try] block once [qty_str] and [rest] are known. *)
Definition scale_body (qty_str rest : string) (ratio : Float.float)
  : Py.result string :=
  qty <- frac_to_float qty_str ;;
  let new_qty := Float.mul qty ratio in
  qty_fmt <- format_quantity new_qty ;;
  Py.Ok (qty_fmt +:+ " " +:+ rest).

Definition _scale_ingredient_line (line : string) (ratio : Float.float)
  : Py.result string :=
  let s := Str.strip line in
  match Re.rmatch quantity_pattern s with
  | None => Py.Ok s
  | Some m =>
      let qty_str := Str.strip (Re.group 1 m) in
      let rest := Str.strip (Re.group 2 m) in
      Py.try_except (scale_body qty_str rest ratio) (Py.Ok s)
  end.

(* ------------------------------------------------------------------ *)
(** ** Python values and the [json] module *)

#[local] Set Warnings "-register-all".

(** The values that [json.loads] can return. A [dict] keeps its keys in
    insertion order. *)
Inductive pyval : Type :=
  | PyNone
  | PyBool (b : bool)
  | PyInt (n : Z)
  | PyFloat (x : Float.float)
  | PyStr (s : string)
  | PyList (l : list pyval)
  | PyDict (kvs : list (string * pyval)).

(** A [list] of [str]. *)
Definition py_strs (l : list string) : pyval := PyList (map PyStr l).

Module Json.

Definition err {A} : Py.result A := Py.Raise Py.JSONDecodeError.

Definition is_chr (n : N) (c : ascii) : bool := (Str.code c =? n)%N.

(** The white space of JSON: space, tab, line feed, carriage return. *)
Definition ws : ascii -> bool := Str.in_codes [32; 9; 10; 13]%N.
Definition skip_ws (l : list ascii) : list ascii := Str.drop_while ws l.

Definition hex_val (c : ascii) : option N :=
  let n := Str.code c in
  if ((48 <=? n) && (n <=? 57))%N then Some (n - 48)%N
  else if ((97 <=? n) && (n <=? 102))%N then Some (n - 87)%N
  else if ((65 <=? n) && (n <=? 70))%N then Some (n - 55)%N
  else None.

Definition hex4 (h1 h2 h3 h4 : ascii) : option N :=
  match hex_val h1, hex_val h2, hex_val h3, hex_val h4 with
  | Some a, Some b, Some c, Some d => Some (((a * 16 + b) * 16 + c) * 16 + d)%N
  | _, _, _, _ => None
  end.

(** The character denoted by a one-letter escape. *)
Definition unescape (c : ascii) : option ascii :=
  let n := Str.code c in
  if (n =? 34)%N then Some c            (* the quote *)
  else if (n =? 92)%N then Some c       (* the backslash *)
  else if (n =? 47)%N then Some c       (* the slash *)
  else if (n =? 98)%N then Some (ascii_of_N 8)    (* \b *)
  else if (n =? 102)%N then Some (ascii_of_N 12)  (* \f *)
  else if (n =? 110)%N then Some (ascii_of_N 10)  (* \n *)
  else if (n =? 114)%N then Some (ascii_of_N 13)  (* \r *)
  else if (n =? 116)%N then Some (ascii_of_N 9)   (* \t *)
  else None.

(** The body of a string literal, after its opening quote (strict mode: a
    raw control character is an error).  An escape [\uXXXX] above U+00FF
    denotes a character outside the modelled range. *)
Fixpoint parse_string (l : list ascii) (acc : list ascii)
  : Py.result (string * list ascii) :=
  match l with
  | [] => err
  | c :: l' =>
      if is_chr 34 c then Py.Ok (Str.of_chars (rev acc), l')
      else if is_chr 92 c then
        match l' with
        | [] => err
        | e :: l'' =>
            if is_chr 117 e then
              match l'' with
              | h1 :: h2 :: h3 :: h4 :: l5 =>
                  match hex4 h1 h2 h3 h4 with
                  | Some n =>
                      if (n <? 256)%N
                      then parse_string l5 (ascii_of_N n :: acc)
                      else Py.Unmodelled
                  | None => err
                  end
              | _ => err
              end
            else
              match unescape e with
              | Some ch => parse_string l'' (ch :: acc)
              | None => err
              end
        end
      else if (Str.code c <? 32)%N then err
      else parse_string l' (c :: acc)
  end.

(** The longest prefix of decimal digits. *)
Fixpoint digits (l : list ascii) : list Z * list ascii :=
  match l with
  | c :: l' =>
      if Str.isdigit c
      then let '(ds, r) := digits l' in (Str.digit_val c :: ds, r)
      else ([], l)
  | [] => ([], [])
  end.

(** The integer part of a number: [0], or a non-zero digit followed by
    digits. *)
Definition int_part (l : list ascii) : option (list Z * list ascii) :=
  match l with
  | c :: l' =>
      if is_chr 48 c then Some ([0], l')
      else if Str.isdigit c then Some (digits l)
      else None
  | [] => None
  end.

(** The fraction: a point followed by at least one digit, else nothing. *)
Definition frac_part (l : list ascii) : option (list Z * list ascii) :=
  match l with
  | p :: d :: _ =>
      if is_chr 46 p && Str.isdigit d
      then match l with _ :: l' => Some (digits l') | [] => None end
      else None
  | _ => None
  end.

(** The exponent: [e] or [E], an optional sign and at least one digit, else
    nothing. *)
Definition exp_part (l : list ascii) : option (Z * list ascii) :=
  match l with
  | e :: l1 =>
      if is_chr 101 e || is_chr 69 e then
        let '(neg, l2) :=
          match l1 with
          | s :: l2 =>
              if is_chr 45 s then (true, l2)
              else if is_chr 43 s then (false, l2)
              else (false, l1)
          | [] => (false, l1)
          end in
        match digits l2 with
        | ([], _) => None
        | (ds, r) =>
            let x := Str.value_of_digits ds in
            Some (if neg then - x else x, r)
        end
      else None
  | [] => None
  end.

(** A number: an [int] when it has neither fraction nor exponent, a
    [float] otherwise. *)
Definition parse_number (l : list ascii) : option (pyval * list ascii) :=
  let '(neg, l0) :=
    match l with
    | c :: l' => if is_chr 45 c then (true, l') else (false, l)
    | [] => (false, l)
    end in
  match int_part l0 with
  | None => None
  | Some (ip, l1) =>
      let '(fp, l2, has_frac) :=
        match frac_part l1 with
        | Some (fp, l2) => (fp, l2, true)
        | None => ([], l1, false)
        end in
      let '(x, l3, has_exp) :=
        match exp_part l2 with
        | Some (x, l3) => (x, l3, true)
        | None => (0, l2, false)
        end in
      if has_frac || has_exp then
        Some (PyFloat (Float.of_decimal neg (Str.value_of_digits (ip ++ fp))
                         (x - Z.of_nat (length fp))), l3)
      else
        let n := Str.value_of_digits ip in
        Some (PyInt (if neg then - n else n), l3)
  end.

(** [l] starts with the characters of [w]: the rest of [l], if so. *)
Fixpoint starts_with (w : list ascii) (l : list ascii) : option (list ascii) :=
  match w, l with
  | [], _ => Some l
  | a :: w', c :: l' => if Ascii.eqb a c then starts_with w' l' else None
  | _ :: _, [] => None
  end.

Definition keyword (w : string) (v : pyval) (l : list ascii)
  : option (pyval * list ascii) :=
  match starts_with (Str.chars w) l with
  | Some r => Some (v, r)
  | None => None
  end.

Definition first_of {A} (x y : option A) : option A :=
  match x with Some _ => x | None => y end.

(** The scalars other than strings. *)
Definition parse_scalar (l : list ascii) : Py.result (pyval * list ascii) :=
  let candidates :=
    first_of (keyword "null" PyNone l)
   (first_of (keyword "true" (PyBool true) l)
   (first_of (keyword "false" (PyBool false) l)
   (first_of (parse_number l)
   (first_of (keyword "NaN" (PyFloat SpecFloat.S754_nan) l)
   (first_of (keyword "Infinity" (PyFloat (SpecFloat.S754_infinity false)) l)
             (keyword "-Infinity" (PyFloat (SpecFloat.S754_infinity true)) l))))))
  in
  match candidates with
  | Some r => Py.Ok r
  | None => err
  end.

(** [d[k] = v] on an insertion-ordered [dict]. *)
Fixpoint dict_set (k : string) (v : pyval) (d : list (string * pyval))
  : list (string * pyval) :=
  match d with
  | [] => [(k, v)]
  | (k', v') :: d' =>
      if String.eqb k' k then (k', v) :: d' else (k', v') :: dict_set k v d'
  end.

Definition dict_of (pairs : list (string * pyval)) : list (string * pyval) :=
  fold_left (fun d kv => dict_set (fst kv) (snd kv) d) pairs [].

(** The scanner: [scan_once] of the decoder with its array and object
    loops.  [fuel] bounds the number of nested calls; a run that exhausts
    it is [Unmodelled]. *)
Fixpoint scan (fuel : nat) (l : list ascii) {struct fuel}
  : Py.result (pyval * list ascii) :=
  match fuel with
  | O => Py.Unmodelled
  | S f =>
      match l with
      | [] => err
      | c :: l' =>
          if is_chr 34 c then
            sr <- parse_string l' [] ;; Py.Ok (PyStr (fst sr), snd sr)
          else if is_chr 123 c then
            match skip_ws l' with
            | c1 :: r =>
                if is_chr 125 c1 then Py.Ok (PyDict [], r)
                else members f (c1 :: r) []
            | [] => err
            end
          else if is_chr 91 c then
            match skip_ws l' with
            | c1 :: r =>
                if is_chr 93 c1 then Py.Ok (PyList [], r)
                else items f (c1 :: r) []
            | [] => err
            end
          else parse_scalar l
      end
  end
with items (fuel : nat) (l : list ascii) (acc : list pyval) {struct fuel}
  : Py.result (pyval * list ascii) :=
  match fuel with
  | O => Py.Unmodelled
  | S f =>
      vr <- scan f l ;;
      match skip_ws (snd vr) with
      | c :: r =>
          if is_chr 93 c then Py.Ok (PyList (rev (fst vr :: acc)), r)
          else if is_chr 44 c then items f (skip_ws r) (fst vr :: acc)
          else err
      | [] => err
      end
  end
with members (fuel : nat) (l : list ascii) (acc : list (string * pyval))
  {struct fuel} : Py.result (pyval * list ascii) :=
  match fuel with
  | O => Py.Unmodelled
  | S f =>
      match l with
      | q :: l1 =>
          if is_chr 34 q then
            kr <- parse_string l1 [] ;;
            match skip_ws (snd kr) with
            | colon :: r2 =>
                if is_chr 58 colon then
                  vr <- scan f (skip_ws r2) ;;
                  let acc' := (fst kr, fst vr) :: acc in
                  match skip_ws (snd vr) with
                  | c :: r4 =>
                      if is_chr 125 c
                      then Py.Ok (PyDict (dict_of (rev acc')), r4)
                      else if is_chr 44 c then members f (skip_ws r4) acc'
                      else err
                  | [] => err
                  end
                else err
            | [] => err
            end
          else err
      | [] => err
      end
  end.

(** [json.loads(s)]: one value between optional white space.  The
    interpreter's limit on the nesting depth is not modelled. *)
Definition loads (s : string) : Py.result pyval :=
  let l := Str.chars s in
  vr <- scan (2 * length l + 2) (skip_ws l) ;;
  match skip_ws (snd vr) with
  | [] => Py.Ok (fst vr)
  | _ => err
  end.

Definition hex_digit (n : N) : ascii :=
  if (n <? 10)%N then ascii_of_N (48 + n) else ascii_of_N (87 + n).

(** The escape of one character by [encode_basestring]. *)
Definition escape (c : ascii) : list ascii :=
  let n := Str.code c in
  let bs := ascii_of_N 92 in
  if (n =? 34)%N then [bs; c]
  else if (n =? 92)%N then [bs; c]
  else if (n =? 10)%N then [bs; "n"%char]
  else if (n =? 13)%N then [bs; "r"%char]
  else if (n =? 9)%N then [bs; "t"%char]
  else if (n =? 8)%N then [bs; "b"%char]
  else if (n =? 12)%N then [bs; "f"%char]
  else if (n <? 32)%N
       then [bs; "u"%char; "0"%char; "0"%char;
             hex_digit (n / 16); hex_digit (n mod 16)]
  else [c].

Definition quote : ascii := ascii_of_N 34.

Definition encode_chars (l : list ascii) : list ascii :=
  quote :: flat_map escape l ++ [quote].

Definition encode_basestring (s : string) : string :=
  Str.of_chars (encode_chars (Str.chars s)).

(** [json.dumps(v, ensure_ascii=False)] with the default separators.  The
    [repr] of a [float] is not modelled. *)
Fixpoint dumps (v : pyval) : Py.result string :=
  match v with
  | PyNone => Py.Ok "null"
  | PyBool b => Py.Ok (if b then "true" else "false")
  | PyInt n => Py.Ok (Str.of_int n)
  | PyFloat _ => Py.Unmodelled
  | PyStr s => Py.Ok (encode_basestring s)
  | PyList l =>
      xs <- (fix go (l : list pyval) : Py.result (list string) :=
               match l with
               | [] => Py.Ok []
               | x :: l' => a <- dumps x ;; b <- go l' ;; Py.Ok (a :: b)
               end) l ;;
      Py.Ok ("[" +:+ Str.join ", " xs +:+ "]")
  | PyDict kvs =>
      xs <- (fix go (l : list (string * pyval)) : Py.result (list string) :=
               match l with
               | [] => Py.Ok []
               | (k, x) :: l' =>
                   a <- dumps x ;; b <- go l' ;;
                   Py.Ok ((encode_basestring k +:+ ": " +:+ a) :: b)
               end) kvs ;;
      Py.Ok ("{" +:+ Str.join ", " xs +:+ "}")
  end.

End Json.

(* ------------------------------------------------------------------ *)
(** ** The [sqlite3] store

    The table [recipes] of [_ensure_schema].  The INTEGER column
    [servings] holds a value of any storage class: NULL, an integer, a
    real (a number that is not an integer of 64 bits, the infinities
    included), a text that is not a number, or a blob.  The columns of TEXT
    affinity are modelled with NULL or a text in them; a BLOB in one of
    these columns is outside the model, and what is stated below about the
    decode of a row is stated for rows without one.  The NOT NULL
    constraints are those of rows written by [add]; the decoder below also
    reads rows that lack them. *)

Module Sqlite.

(** The value of a column as the cursor returns it: [None], an [int], a
    [float], a [str], or [bytes] (one character per byte). *)
Inductive value : Type :=
  | Null
  | Integer (n : Z)
  | Real (x : Float.float)
  | Text (s : string)
  | Blob (b : list ascii).

Definition fits_int64 (n : Z) : bool :=
  (- 2 ^ 63 <=? n) && (n <=? 2 ^ 63 - 1).

(** The text as the string functions of SQLite see it: up to the first
    NUL character. *)
Fixpoint c_str (l : list ascii) : list ascii :=
  match l with
  | c :: l' => if (Str.code c =? 0)%N then [] else c :: c_str l'
  | [] => []
  end.

(** Case folding of LIKE: the ASCII letters only. *)
Definition lower (c : ascii) : ascii :=
  let n := Str.code c in
  if ((65 <=? n) && (n <=? 90))%N then ascii_of_N (n + 32) else c.

(** The pattern matcher of LIKE: [%] stands for any run of characters and
    [_] for one character. *)
Fixpoint like_chars (pat txt : list ascii) {struct pat} : bool :=
  match pat with
  | [] => match txt with [] => true | _ => false end
  | p :: pat' =>
      if (Str.code p =? 37)%N then
        (fix any (t : list ascii) : bool :=
           like_chars pat' t
           || match t with [] => false | _ :: t' => any t' end) txt
      else
        match txt with
        | [] => false
        | c :: txt' =>
            ((Str.code p =? 95)%N || Ascii.eqb (lower p) (lower c))
            && like_chars pat' txt'
        end
  end.

Definition like (pat txt : string) : bool :=
  like_chars (c_str (Str.chars pat)) (c_str (Str.chars txt)).

(** [column LIKE pat] in three-valued logic: NULL on a NULL column. *)
Definition like_op (column : option string) (pat : string) : option bool :=
  match column with
  | Some txt => Some (like pat txt)
  | None => None
  end.

(** [a OR b] in three-valued logic. *)
Definition or3 (a b : option bool) : option bool :=
  match a, b with
  | Some true, _ | _, Some true => Some true
  | Some false, Some false => Some false
  | _, _ => None
  end.

(** A WHERE clause keeps the rows on which it is true. *)
Definition holds (c : option bool) : bool :=
  match c with Some true => true | _ => false end.

(** The length of a text in UTF-8. *)
Definition utf8_length (s : string) : Z :=
  fold_right (fun c n => (if (Str.code c <? 128)%N then 1 else 2) + n) 0
             (Str.chars s).

(** The longest LIKE pattern that the engine accepts. *)
Definition max_like_pattern : Z := 50000.

(** The order of two texts under the collation BINARY. *)
Fixpoint compare_chars (a b : list ascii) : comparison :=
  match a, b with
  | [], [] => Eq
  | [], _ :: _ => Lt
  | _ :: _, [] => Gt
  | x :: a', y :: b' =>
      match (Str.code x ?= Str.code y)%N with
      | Eq => compare_chars a' b'
      | c => c
      end
  end.

(** The order of two column values: NULL sorts before every text. *)
Definition compare_text (a b : option string) : comparison :=
  match a, b with
  | None, None => Eq
  | None, Some _ => Lt
  | Some _, None => Gt
  | Some x, Some y => compare_chars (Str.chars x) (Str.chars y)
  end.

End Sqlite.

(** A row of the table, as the cursor returns it ([sqlite3.Row]). *)
Module Row.
Record t : Type := Make {
  id : Z;
  title : string;
  ingredients : option string;
  instructions : option string;
  tags : option string;
  servings : Sqlite.value;
  created_at : option string
}.
End Row.

(** The connection: the rows of the table in rowid order, and the largest
    rowid handed out so far (AUTOINCREMENT). *)
Record Conn : Type := MkConn {
  table : list Row.t;
  sequence : Z
}.

(* ------------------------------------------------------------------ *)
(** ** The domain model *)

Module Recipe.

(** The dataclass.  [ingredients] is annotated [List[str]], but a decoded
    record holds whatever [json.loads] returned. *)
Record t : Type := Make {
  id : option Z;
  title : string;
  ingredients : pyval;
  instructions : string;
  tags : list string;
  servings : Z;
  created_at : string
}.

(** The parameters of the INSERT, in column order. *)
Record db_tuple : Type := DbTuple {
  db_title : string;
  db_ingredients : string;
  db_instructions : string;
  db_tags : string;
  db_servings : Z;
  db_created_at : string
}.

Definition to_db_tuple (self : t) : Py.result db_tuple :=
  ing <- Json.dumps (ingredients self) ;;
  Py.Ok (DbTuple (title self) ing (instructions self)
           (Str.join "," (tags self)) (servings self) (created_at self)).

End Recipe.

(* ------------------------------------------------------------------ *)
(** ** The repository *)

(** The readings of the clock, [dt.datetime.utcnow().isoformat()], in the
    order in which an operation takes them. *)
Definition Clock : Type := nat -> string.

(** [[x.strip() for x in s.split(sep) if x.strip()]]. *)
Definition split_strip (sep : ascii) (s : string) : list string :=
  map Str.strip
    (List.filter (fun x => Str.truthy (Str.strip x)) (Str.split sep s)).

(** [[x.strip() for x in s.splitlines() if x.strip()]]. *)
Definition lines_strip (s : string) : list string :=
  map Str.strip
    (List.filter (fun x => Str.truthy (Str.strip x)) (Str.splitlines s)).

(** [v or d] for a text column. *)
Definition text_or (v : option string) (d : string) : string :=
  match v with
  | Some s => if Str.truthy s then s else d
  | None => d
  end.

Definition is_falsy (v : option string) : bool :=
  match v with
  | Some s => negb (Str.truthy s)
  | None => true
  end.

(** [int(x)] for a [float]: the integer part, towards zero; an infinity
    and a NaN raise. *)
Definition int_of_float (x : Float.float) : Py.result Z :=
  match x with
  | SpecFloat.S754_zero _ => Py.Ok 0
  | SpecFloat.S754_finite s m e =>
      let n := if 0 <=? e then Zpos m * 2 ^ e else Zpos m / 2 ^ (- e) in
      Py.Ok (if s then - n else n)
  | SpecFloat.S754_infinity _ => Py.Raise Py.OverflowError
  | SpecFloat.S754_nan => Py.Raise Py.ValueError
  end.

(** The white space that [int(b)] skips at both ends of a [bytes]
    argument: the ASCII white space only. *)
Definition isspace_bytes : ascii -> bool :=
  Str.in_codes [9; 10; 11; 12; 13; 32]%N.

(** [int(b)] for [bytes], base ten. *)
Definition int_of_bytes (b : list ascii) : Py.result Z :=
  let '(neg, l) :=
    Str.sign (Str.lstrip_by isspace_bytes (Str.rstrip_by isspace_bytes b)) in
  match Str.digitpart l with
  | Some (ds, []) =>
      Py.Ok (if neg then - Str.value_of_digits ds else Str.value_of_digits ds)
  | _ => Py.Raise Py.ValueError
  end.

(** [int(row["servings"] or 1)]: [None], [0], [0.0], the empty [str] and
    the empty [bytes] are false. *)
Definition decode_servings (v : Sqlite.value) : Py.result Z :=
  match v with
  | Sqlite.Null => Py.Ok 1
  | Sqlite.Integer n => Py.Ok (if n =? 0 then 1 else n)
  | Sqlite.Real x => if Float.is_zero x then Py.Ok 1 else int_of_float x
  | Sqlite.Text s => if Str.truthy s then Str.to_int s else Py.Ok 1
  | Sqlite.Blob b => match b with [] => Py.Ok 1 | _ => int_of_bytes b end
  end.

(** The ingredients of a row: the JSON value, or on any failure of the
    decoder the non-blank lines of the stored text. *)
Definition decode_ingredients (stored : option string) : Py.result pyval :=
  let ing_json := text_or stored "[]" in
  Py.try_except (Json.loads ing_json)
                (Py.Ok (py_strs (lines_strip ing_json))).

Definition _row_to_recipe (now : string) (row : option Row.t)
  : Py.result Recipe.t :=
  match row with
  | None => Py.Raise Py.ValueError
  | Some row =>
      ingredients <- decode_ingredients (Row.ingredients row) ;;
      let tags := split_strip ","%char (text_or (Row.tags row) "") in
      servings <- decode_servings (Row.servings row) ;;
      Py.Ok (Recipe.Make (Some (Row.id row)) (Row.title row) ingredients
               (text_or (Row.instructions row) "") tags servings
               (text_or (Row.created_at row) now))
  end.

(** [[self._row_to_recipe(r) for r in rows]]: the [k]-th reading of the
    clock is taken by the [k]-th row that has no creation time. *)
Fixpoint decode_rows (clock : Clock) (k : nat) (rows : list Row.t)
  : Py.result (list Recipe.t) :=
  match rows with
  | [] => Py.Ok []
  | r :: rows' =>
      x <- _row_to_recipe (clock k) (Some r) ;;
      xs <- decode_rows clock
              (if is_falsy (Row.created_at r) then S k else k) rows' ;;
      Py.Ok (x :: xs)
  end.

(** ORDER BY created_at DESC: rows with equal keys stay in rowid order. *)
Fixpoint insert_desc (r : Row.t) (sorted : list Row.t) : list Row.t :=
  match sorted with
  | [] => [r]
  | y :: ys =>
      match Sqlite.compare_text (Row.created_at y) (Row.created_at r) with
      | Gt => y :: insert_desc r ys
      | _ => r :: y :: ys
      end
  end.

Definition order_by_created_at_desc (rows : list Row.t) : list Row.t :=
  fold_right insert_desc [] rows.

Definition max_id (rows : list Row.t) : Z :=
  fold_right (fun r m => Z.max (Row.id r) m) 0 rows.

(** [add]: the INSERT and its commit; returns the new rowid. *)
Definition add (r : Recipe.t) (db : Conn) : Conn * Py.result Z :=
  match Recipe.to_db_tuple r with
  | Py.Ok t =>
      if Sqlite.fits_int64 (Recipe.db_servings t) then
        let rid := Z.max (sequence db) (max_id (table db)) + 1 in
        if Sqlite.fits_int64 rid then
          (MkConn
             (table db ++
              [Row.Make rid (Recipe.db_title t)
                 (Some (Recipe.db_ingredients t))
                 (Some (Recipe.db_instructions t))
                 (Some (Recipe.db_tags t))
                 (Sqlite.Integer (Recipe.db_servings t))
                 (Some (Recipe.db_created_at t))])
             rid,
           Py.Ok rid)
        else (db, Py.Unmodelled)
      else (db, Py.Raise Py.OverflowError)
  | Py.Raise e => (db, Py.Raise e)
  | Py.Unmodelled => (db, Py.Unmodelled)
  end.

Definition list_all (clock : Clock) (db : Conn) : Py.result (list Recipe.t) :=
  decode_rows clock 0 (order_by_created_at_desc (table db)).

(** The WHERE clause of [search]. *)
Definition search_where (q_like : string) (r : Row.t) : bool :=
  Sqlite.holds
    (Sqlite.or3
       (Sqlite.or3 (Sqlite.like_op (Some (Row.title r)) q_like)
                   (Sqlite.like_op (Row.tags r) q_like))
       (Sqlite.like_op (Row.ingredients r) q_like)).

Definition search (q : string) (clock : Clock) (db : Conn)
  : Py.result (list Recipe.t) :=
  let q_like := "%" +:+ q +:+ "%" in
  if Sqlite.max_like_pattern <? Sqlite.utf8_length q_like
  then Py.Unmodelled
  else decode_rows clock 0
         (order_by_created_at_desc (List.filter (search_where q_like) (table db))).

(** [get]: the row with the identity [recipe_id], decoded, or [None] when
    there is none.  An [int] outside the 64-bit range cannot be bound to
    the statement. *)
Definition get (recipe_id : Z) (clock : Clock) (db : Conn)
  : Py.result (option Recipe.t) :=
  if Sqlite.fits_int64 recipe_id then
    match List.find (fun row => Row.id row =? recipe_id) (table db) with
    | Some row =>
        r <- _row_to_recipe (clock 0%nat) (Some row) ;; Py.Ok (Some r)
    | None => Py.Ok None
    end
  else Py.Raise Py.OverflowError.

(** The row after the UPDATE of [update]: the identity and the creation
    time stay. *)
Definition updated_row (row : Row.t) (title ing instructions tags : string)
  (servings : Z) : Row.t :=
  Row.Make (Row.id row) title (Some ing) (Some instructions) (Some tags)
           (Sqlite.Integer servings) (Row.created_at row).

(** [update]: a record without identity is refused; otherwise the UPDATE
    and its commit. *)
Definition update (r : Recipe.t) (db : Conn) : Conn * Py.result unit :=
  match Recipe.id r with
  | None => (db, Py.Raise Py.ValueError)
  | Some rid =>
      match Json.dumps (Recipe.ingredients r) with
      | Py.Ok ing =>
          if Sqlite.fits_int64 (Recipe.servings r) && Sqlite.fits_int64 rid
          then
            (MkConn
               (map (fun row =>
                       if Row.id row =? rid
                       then updated_row row (Recipe.title r) ing
                              (Recipe.instructions r)
                              (Str.join "," (Recipe.tags r))
                              (Recipe.servings r)
                       else row)
                    (table db))
               (sequence db),
             Py.Ok tt)
          else (db, Py.Raise Py.OverflowError)
      | Py.Raise e => (db, Py.Raise e)
      | Py.Unmodelled => (db, Py.Unmodelled)
      end
  end.

(** [delete]: the DELETE and its commit; the rowids handed out so far are
    not forgotten. *)
Definition delete (recipe_id : Z) (db : Conn) : Conn * Py.result unit :=
  if Sqlite.fits_int64 recipe_id then
    (MkConn
       (List.filter (fun row => negb (Row.id row =? recipe_id)) (table db))
       (sequence db),
     Py.Ok tt)
  else (db, Py.Raise Py.OverflowError).

(* ------------------------------------------------------------------ *)
(** ** CSV transfer *)

(** A row of [csv.DictReader]: a field is a [str], or [None] when the line
    is shorter than the header. *)
Abbreviation csv_row := (gmap string (option string)).

(** [row.get(key, default)]. *)
Definition row_get (row : csv_row) (key default : string) : option string :=
  match row !! key with
  | Some v => v
  | None => Some default
  end.

(** [v.strip()] where [v] may be [None]. *)
Definition strip_field (v : option string) : Py.result string :=
  match v with
  | Some s => Py.Ok (Str.strip s)
  | None => Py.Raise Py.AttributeError
  end.

(** [[x.strip() for x in v.split(sep) if x.strip()]] where [v] may be
    [None]. *)
Definition split_field (sep : ascii) (v : option string)
  : Py.result (list string) :=
  match v with
  | Some s => Py.Ok (split_strip sep s)
  | None => Py.Raise Py.AttributeError
  end.

(** [int(row.get("servings", "1") or 1)]. *)
Definition import_servings (v : option string) : Py.result Z :=
  match v with
  | Some s => if Str.truthy s then Str.to_int s else Py.Ok 1
  | None => Py.Ok 1
  end.

(** The body of the loop of [import_csv] up to the construction of the
    record; [None] when the row is skipped. *)
Definition import_row (now : string) (row : csv_row)
  : Py.result (option Recipe.t) :=
  title <- strip_field (row_get row "title" "") ;;
  if negb (Str.truthy title) then Py.Ok None
  else
    ingredients <- split_field "|"%char (row_get row "ingredients" "") ;;
    instructions <- strip_field (row_get row "instructions" "") ;;
    tags <- split_field ","%char (row_get row "tags" "") ;;
    servings <- import_servings (row_get row "servings" "1") ;;
    Py.Ok (Some (Recipe.Make None title (py_strs ingredients) instructions
                   tags servings now)).

(** The loop of [import_csv] over the rows of the reader; [added] counts
    the rows created so far and indexes the clock.  Every [add] is
    committed, so the rows created before an exception stay. *)
Fixpoint import_loop (clock : Clock) (rows : list csv_row) (added : nat)
  (db : Conn) : Conn * Py.result Z :=
  match rows with
  | [] => (db, Py.Ok (Z.of_nat added))
  | row :: rows' =>
      match import_row (clock added) row with
      | Py.Ok None => import_loop clock rows' added db
      | Py.Ok (Some recipe) =>
          match add recipe db with
          | (db', Py.Ok _) => import_loop clock rows' (S added) db'
          | (db', Py.Raise e) => (db', Py.Raise e)
          | (db', Py.Unmodelled) => (db', Py.Unmodelled)
          end
      | Py.Raise e => (db, Py.Raise e)
      | Py.Unmodelled => (db, Py.Unmodelled)
      end
  end.

Definition import_csv (clock : Clock) (rows : list csv_row) (db : Conn)
  : Conn * Py.result Z :=
  import_loop clock rows 0 db.

(** A value handed to [csv.DictWriter.writerow]. *)
Inductive cell : Type :=
  | CNone
  | CInt (n : Z)
  | CStr (s : string).

(** [sep.join(v)] for a value [v]: an iterable of [str] is required. *)
Definition join_value (sep : string) (v : pyval) : Py.result string :=
  match v with
  | PyList l =>
      xs <- (fix go (l : list pyval) : Py.result (list string) :=
               match l with
               | [] => Py.Ok []
               | PyStr s :: l' => b <- go l' ;; Py.Ok (s :: b)
               | _ :: _ => Py.Raise Py.TypeError
               end) l ;;
      Py.Ok (Str.join sep xs)
  | PyStr s =>
      Py.Ok (Str.join sep (map (fun c => String c EmptyString) (Str.chars s)))
  | PyDict kvs => Py.Ok (Str.join sep (map fst kvs))
  | _ => Py.Raise Py.TypeError
  end.

(** The dictionary that [export_csv] writes for one record. *)
Definition export_row (r : Recipe.t) : Py.result (gmap string cell) :=
  ing <- join_value "|" (Recipe.ingredients r) ;;
  Py.Ok (<["id" := match Recipe.id r with Some n => CInt n | None => CNone end]>
        (<["title" := CStr (Recipe.title r)]>
        (<["ingredients" := CStr ing]>
        (<["instructions" := CStr (Recipe.instructions r)]>
        (<["tags" := CStr (Str.join "," (Recipe.tags r))]>
        (<["servings" := CInt (Recipe.servings r)]>
        (<["created_at" := CStr (Recipe.created_at r)]> ∅))))))).

(** [export_csv]: the dictionaries written after the header, in order. *)
Fixpoint export_csv (recipes : list Recipe.t)
  : Py.result (list (gmap string cell)) :=
  match recipes with
  | [] => Py.Ok []
  | r :: rs => x <- export_row r ;; xs <- export_csv rs ;; Py.Ok (x :: xs)
  end.

(** The text of a field as the writer puts it in the file: [None] is the
    empty field, any other value its [str()]. *)
Definition written (c : cell) : string :=
  match c with
  | CNone => ""
  | CInt n => Str.of_int n
  | CStr s => s
  end.

(** What [csv.DictReader] yields for a row of the file that [export_csv]
    wrote: the header is the list of field names, and the [csv] module
    reads every field back as it was written. *)
Definition read_back_row (row : gmap string cell) : csv_row :=
  (fun c => Some (written c)) <$> row.


(* ------------------------------------------------------------------ *)
(** ** The editor

    [RecipeEditor._validate] and [RecipeEditor._on_save].  The contents of
    the widgets are the input, the message box shown is part of the
    result. *)

(** The contents of the widgets of [RecipeEditor] when Save is pressed:
    the three entries and the two text boxes ([get("1.0", tk.END)]). *)
Record editor_form : Type := Form {
  title_var : string;
  servings_var : string;
  tags_var : string;
  ing_text : string;
  inst_text : string
}.

(** A message box: [showerror(title, message)], [showinfo(title, message)],
    and [showerror("Error", str(e))] for a caught exception [e]. *)
Inductive dialog : Type :=
  | ShowError (title message : string)
  | ShowInfo (title message : string)
  | ShowException (e : Py.exn).

(** [RecipeEditor._validate]; only [ValueError] is caught. *)
Definition _validate (f : editor_form) : Py.result (bool * option string) :=
  let title := Str.strip (title_var f) in
  if negb (Str.truthy title)
  then Py.Ok (false, Some "Title cannot be empty.")
  else
    match Str.to_int (servings_var f) with
    | Py.Ok s =>
        if s <? 1 then Py.Ok (false, Some "Servings must be >= 1")
        else Py.Ok (true, None)
    | Py.Raise Py.ValueError => Py.Ok (false, Some "Servings must be an integer.")
    | Py.Raise e => Py.Raise e
    | Py.Unmodelled => Py.Unmodelled
    end.

(** [try: op  except Exception as e: showerror("Error", str(e))  else:
    showinfo("Saved", done)]. *)
Definition saved {A} (out : Conn * Py.result A) (done : string)
  : Py.result (Conn * dialog) :=
  match out with
  | (db', Py.Ok _) => Py.Ok (db', ShowInfo "Saved" done)
  | (db', Py.Raise e) => Py.Ok (db', ShowException e)
  | (_, Py.Unmodelled) => Py.Unmodelled
  end.

(** [RecipeEditor._on_save] for the editor opened on [recipe] ([None] for
    a new record): the store afterwards, the message box shown, and
    whether the window was closed. *)
Definition _on_save (recipe : option Recipe.t) (f : editor_form)
  (now : string) (db : Conn) : Py.result (Conn * dialog * bool) :=
  v <- _validate f ;;
  if negb (fst v) then
    Py.Ok (db,
           ShowError "Validation error"
             (match snd v with Some err => err | None => "None" end),
           false)
  else
    let title := Str.strip (title_var f) in
    servings <- Str.to_int (servings_var f) ;;
    let tags := split_strip ","%char (tags_var f) in
    let ingredients := lines_strip (ing_text f) in
    let instructions := Str.strip (inst_text f) in
    match recipe with
    | Some old =>
        let updated :=
          Recipe.Make (Recipe.id old) title (py_strs ingredients) instructions
                      tags servings (Recipe.created_at old) in
        out <- saved (update updated db) "Recipe updated." ;;
        Py.Ok (out, true)
    | None =>
        let new :=
          Recipe.Make None title (py_strs ingredients) instructions tags
                      servings now in
        out <- saved (add new db) "Recipe added." ;;
        Py.Ok (out, true)
    end.

(* ------------------------------------------------------------------ *)
(** ** Predicates of the statements *)

(** [l] is empty or starts with a character outside the class [p]. *)
Definition stops (p : ascii -> bool) (l : list ascii) : Prop :=
  match l with c :: _ => p c = false | [] => True end.

Definition head_is (c : ascii) (l : list ascii) : bool :=
  match l with x :: _ => Ascii.eqb x c | [] => false end.

(** A remainder before which the word boundary holds and that the second
    group takes whole. *)
Definition boundary_remainder (rest : list ascii) : bool :=
  negb (Re.at_word rest) && forallb Re.dot rest.

(** A remainder after which a run of digits is matched as an integer: the
    boundary holds, and neither a fraction, a decimal part nor the
    fraction of a mixed number follows. *)
Definition plain_remainder (rest : list ascii) : bool :=
  negb (Re.at_word rest)
  && negb (head_is "/" rest) && negb (head_is "." rest)
  && match Str.drop_while Str.isspace rest with
     | c :: _ => negb (Str.isdigit c)
     | [] => true
     end
  && forallb Re.dot rest.

(** The value of a string of decimal digits. *)
Definition digits_value (ds : list ascii) : Z :=
  Str.value_of_digits (map Str.digit_val ds).

(** The run stays inside the modelled fragment. *)
Definition modelled {A} (m : Py.result A) : Prop := m <> Py.Unmodelled.

(** A text that ends with a point and two digits and has no other point. *)
Definition two_decimals (s : string) : bool :=
  match rev (Str.chars s) with
  | d2 :: d1 :: p :: ip =>
      Str.isdigit d2 && Str.isdigit d1 && Ascii.eqb p "."
      && negb (existsb (Ascii.eqb ".") ip)
  | _ => false
  end.

(** The characters of a decimal numeral. *)
Definition uint_chars (d : Decimal.uint) : list ascii :=
  Str.chars (NilEmpty.string_of_uint d).

Definition digit_or_minus (c : ascii) : bool :=
  Str.isdigit c || Ascii.eqb c "-".

(** An item that [x.strip()] and the filter of [split_strip] leave as it is
    and that a split on [sep] does not cut. *)
Definition clean_item (sep : ascii) (x : string) : bool :=
  String.eqb (Str.strip x) x && Str.truthy x && negb (Str.contains sep x).

Definition trimmed (s : string) : bool := String.eqb (Str.strip s) s.

(** The line feed, as a character and as a string. *)
Definition nl : ascii := ascii_of_N 10.
Definition newline : string := String nl EmptyString.

(** A non-blank, trimmed line without a line boundary inside. *)
Definition clean_line (x : string) : bool :=
  String.eqb (Str.strip x) x && Str.truthy x
  && forallb (fun c => negb (Str.islinebreak c)) (Str.chars x).

(** The characters between the brackets of [json.dumps] of a list of
    strings. *)
Fixpoint encoded_items (l : list string) : list ascii :=
  match l with
  | [] => []
  | [x] => Json.encode_chars (Str.chars x)
  | x :: l' =>
      Json.encode_chars (Str.chars x) ++ ","%char :: " "%char :: encoded_items l'
  end.

(** The row with another stored text of the ingredients. *)
Definition with_ingredients (row : Row.t) (stored : option string) : Row.t :=
  Row.Make (Row.id row) (Row.title row) stored (Row.instructions row)
           (Row.tags row) (Row.servings row) (Row.created_at row).

(** The stored values of [servings] that are false for [or]: NULL, zero
    (the integer or the real), the empty text and the empty blob. *)
Definition servings_defaults (v : Sqlite.value) : bool :=
  match v with
  | Sqlite.Null => true
  | Sqlite.Integer n => n =? 0
  | Sqlite.Real x => Float.is_zero x
  | Sqlite.Text s => negb (Str.truthy s)
  | Sqlite.Blob b => match b with [] => true | _ => false end
  end.

(** A non-empty stored text or blob that [int] refuses. *)
Definition servings_unparsable (v : Sqlite.value) : bool :=
  match v with
  | Sqlite.Text s =>
      Str.truthy s
      && match Str.to_int s with Py.Raise Py.ValueError => true | _ => false end
  | Sqlite.Blob (c :: b) =>
      match int_of_bytes (c :: b) with
      | Py.Raise Py.ValueError => true
      | _ => false
      end
  | _ => false
  end.

(** The text with its ASCII letters in lower case: two texts are equal up
    to ASCII letter case when their folds are equal. *)
Definition ascii_fold (s : string) : string :=
  Str.of_chars (map Sqlite.lower (Str.chars s)).

Definition not_letter (n : N) : bool :=
  negb (((65 <=? n) && (n <=? 90)) || ((97 <=? n) && (n <=? 122)))%N.

(** The items of a value that is a list of strings. *)
Fixpoint str_items_of (l : list pyval) : option (list string) :=
  match l with
  | [] => Some []
  | PyStr s :: l' =>
      match str_items_of l' with Some r => Some (s :: r) | None => None end
  | _ :: _ => None
  end.

Definition str_items (v : pyval) : option (list string) :=
  match v with PyList l => str_items_of l | _ => None end.

(** The records that the bulk format carries without loss: a non-empty,
    trimmed title, trimmed instructions, ingredient lines that are
    non-empty, trimmed and free of the pipe, tags that are non-empty,
    trimmed and free of the comma. *)
Definition exportable (r : Recipe.t) : bool :=
  match str_items (Recipe.ingredients r) with
  | Some ings =>
      trimmed (Recipe.title r) && Str.truthy (Recipe.title r)
      && forallb (clean_item "|") ings
      && trimmed (Recipe.instructions r)
      && forallb (clean_item ",") (Recipe.tags r)
  | None => false
  end.

(** The record that [import_csv] builds from the exported row of [r]: no
    identity yet, a fresh creation time, the other fields of [r]. *)
Definition imported (r : Recipe.t) (now : string) : Recipe.t :=
  Recipe.Make None (Recipe.title r) (Recipe.ingredients r)
    (Recipe.instructions r) (Recipe.tags r) (Recipe.servings r) now.


(** A row that reaches the conversion of [servings] with a non-empty text
    that [int] refuses. *)
Definition servings_unparsable_row (row : csv_row) : bool :=
  match row_get row "title" "", row_get row "ingredients" "",
        row_get row "instructions" "", row_get row "tags" "",
        row_get row "servings" "1" with
  | Some t, Some _, Some _, Some _, Some s =>
      Str.truthy (Str.strip t) && Str.truthy s
      && match Str.to_int s with Py.Raise Py.ValueError => true | _ => false end
  | _, _, _, _, _ => false
  end.

(** The record with the identity that the store gave it. *)
Definition with_id (r : Recipe.t) (rid : Z) : Recipe.t :=
  Recipe.Make (Some rid) (Recipe.title r) (Recipe.ingredients r)
    (Recipe.instructions r) (Recipe.tags r) (Recipe.servings r)
    (Recipe.created_at r).

(** The records that the store returns as they were written: a list of
    strings as ingredients, tags that are non-empty, trimmed and free of
    the comma, a number of servings other than zero and within the 64-bit
    range. *)
Definition stored_as_is (r : Recipe.t) : bool :=
  match str_items (Recipe.ingredients r) with
  | Some _ =>
      forallb (clean_item ",") (Recipe.tags r)
      && negb (Recipe.servings r =? 0)
      && Sqlite.fits_int64 (Recipe.servings r)
  | None => false
  end.

(** The rowid that the next INSERT takes. *)
Definition next_id (db : Conn) : Z :=
  Z.max (sequence db) (max_id (table db)) + 1.

Definition ids (db : Conn) : list Z := map Row.id (table db).

(** One operation of the repository on the store. *)
Inductive step : Conn -> Conn -> Prop :=
  | step_add r db : step db (fst (add r db))
  | step_update r db : step db (fst (update r db))
  | step_delete rid db : step db (fst (delete rid db))
  | step_import clock rows db : step db (fst (import_csv clock rows db)).

(** [a] does not sort before [b]: the order of ORDER BY ... DESC. *)
Definition not_before (a b : option string) : Prop :=
  Sqlite.compare_text a b <> Lt.

Definition rows_desc (a b : Row.t) : Prop :=
  not_before (Row.created_at a) (Row.created_at b).

Definition recipes_desc (a b : Recipe.t) : Prop :=
  not_before (Some (Recipe.created_at a)) (Some (Recipe.created_at b)).

(** The row has a creation time (the column is NOT NULL, and the editor
    and the import write a time stamp). *)
Definition has_created_at (row : Row.t) : bool :=
  negb (is_falsy (Row.created_at row)).

(** The text holds no NUL character. *)
Definition no_nul (s : string) : bool :=
  forallb (fun c => negb (Str.code c =? 0)%N) (Str.chars s).

(* ------------------------------------------------------------------ *)
(** ** Sample data *)

Definition two : Float.float := Float.of_decimal false 2 0.
Definition three : Float.float := Float.of_decimal false 3 0.
Definition ten : Float.float := Float.of_decimal false 10 0.

Definition zeros (n : nat) : list ascii := repeat "0"%char n.

(** A line whose quantity has 309 digits, [1e308]. *)
Definition big_line : string :=
  Str.of_chars ("1"%char :: zeros 308 ++ Str.chars " cups").

Definition clock0 : Clock := fun _ => "2024-05-01T12:00:00".

Definition empty_db : Conn := MkConn [] 0.

(** The sample record with which [main] seeds an empty store. *)
Definition pancakes : Recipe.t :=
  Recipe.Make None "Pancakes"
    (py_strs ["1 1/2 cups all-purpose flour"; "3 1/2 tsp baking powder";
              "1 tsp salt"; "1 tbsp sugar"; "1 1/4 cups milk"; "1 egg";
              "3 tbsp butter, melted"])
    "Mix dry ingredients. Add milk and egg. Cook on hot griddle."
    ["breakfast"; "easy"] 4 "2024-05-01T12:00:00".

Definition one_recipe_db : Conn := fst (add pancakes empty_db).

Definition make_csv_row (title ingredients instructions tags servings : string)
  : csv_row :=
  list_to_map [("title", Some title); ("ingredients", Some ingredients);
               ("instructions", Some instructions); ("tags", Some tags);
               ("servings", Some servings)].

Definition toast_row : csv_row :=
  make_csv_row "Toast" "bread|butter" "Toast the bread." "quick" "2".
Definition soup_row : csv_row :=
  make_csv_row "Soup" "water|salt" "Boil." "dinner" "two".
Definition salad_row : csv_row :=
  make_csv_row "Salad" "lettuce" "Toss." "" "".

Definition toast : Recipe.t :=
  Recipe.Make None "Toast" (py_strs ["bread"; "butter"]) "Toast the bread."
    ["quick"] 2 "2024-05-01T12:00:00".

Definition soup_stored : Row.t :=
  Row.Make 1 "Soup" (Some "[]") None None (Sqlite.Text "two")
    (Some "2024-05-01T12:00:00").

Definition tea_stored : Row.t :=
  Row.Make 2 "Tea" (Some "[]") None None Sqlite.Null
    (Some "2024-05-01T12:00:00").

Definition syrup : Recipe.t :=
  Recipe.Make (Some 7) "Syrup" (py_strs ["sugar, 1 tbsp"; "water"]) "Simmer."
    ["sweet"; "easy"] 2 "2023-01-01T00:00:00".

Definition syrup_vat : Recipe.t :=
  Recipe.Make (Some 7) "Syrup" (py_strs ["sugar, 1 tbsp"; "water"]) "Simmer."
    ["sweet"; "easy"] (2 ^ 63) "2023-01-01T00:00:00".


Definition untidy : Recipe.t :=
  Recipe.Make None "Broth" (py_strs ["water"]) "" [" clear "; ""] 0 "".

Definition two_recipe_db : Conn := fst (add toast one_recipe_db).

Definition toast_edited : Recipe.t :=
  Recipe.Make (Some 2) "French toast" (py_strs ["bread"; "egg"]) "Fry."
    ["quick"] 3 "1999-01-01T00:00:00".

Definition blank_tags_row : Row.t :=
  Row.Make 3 "Stew" (Some "[]") None (Some " slow ,, winter,") (Sqlite.Integer 6)
    (Some "2024-01-01T00:00:00").

Definition odd_record : Recipe.t :=
  Recipe.Make (Some 9) "Odd" (PyInt 12) "" [] 1 "2024-01-01T00:00:00".

(* ================================================================== *)
(** * Properties *)

(** ** Facts on strings and characters *)
Lemma chars_of_chars (l : list ascii) : Str.chars (Str.of_chars l) = l.
Proof. apply list_ascii_of_string_of_list_ascii. Qed.

Lemma of_chars_chars (s : string) : Str.of_chars (Str.chars s) = s.
Proof. apply string_of_list_ascii_of_string. Qed.

Ltac each_char c :=
  destruct c as [[] [] [] [] [] [] [] []]; vm_compute; try reflexivity;
  try discriminate; auto.

Lemma digit_is_word c : Str.isdigit c = true -> Str.isword c = true.
Proof. unfold Str.isword. intros ->. reflexivity. Qed.

Lemma word_not_space c : Str.isword c = true -> Str.isspace c = false.
Proof. each_char c. Qed.

Lemma word_not_slash c : Str.isword c = true -> Ascii.eqb c "/" = false.
Proof. each_char c. Qed.

Lemma word_not_point c : Str.isword c = true -> Ascii.eqb c "." = false.
Proof. each_char c. Qed.

(** ** The greedy repetition *)
Lemma star_fail {R} p (k : list ascii -> list ascii -> option R) aft :
  forall bef,
    (forall pre post, aft = pre ++ post -> forallb p pre = true ->
                      k (rev pre ++ bef) post = None) ->
    Re.star p bef aft k = None.
Proof.
  induction aft as [|a aft IH]; intros bef H; simpl.
  - apply (H [] []); reflexivity.
  - destruct (p a) eqn:E.
    + rewrite IH.
      * apply (H [] (a :: aft)); reflexivity.
      * intros pre post -> Hp.
        specialize (H (a :: pre) post). simpl in H.
        rewrite E, <- app_assoc in H. apply H; auto.
    + apply (H [] (a :: aft)); reflexivity.
Qed.

Lemma star_greedy {R} p (k : list ascii -> list ascii -> option R) pre :
  forall bef post r,
    forallb p pre = true -> stops p post ->
    k (rev pre ++ bef) post = Some r ->
    Re.star p bef (pre ++ post) k = Some r.
Proof.
  induction pre as [|a pre IH]; intros bef post r Hp Hs Hk; simpl in *.
  - destruct post as [|c post]; simpl in *; [assumption|].
    rewrite Hs. assumption.
  - apply andb_prop in Hp as [-> Hp].
    rewrite (IH (a :: bef) post r); auto.
    rewrite <- app_assoc in Hk. exact Hk.
Qed.

Lemma star_all {R} p (k : list ascii -> list ascii -> option R) l bef r :
  forallb p l = true -> k (rev l ++ bef) [] = Some r ->
  Re.star p bef l k = Some r.
Proof.
  intros Hp Hk. rewrite <- (app_nil_r l). now apply star_greedy.
Qed.

Lemma split_run (p : ascii -> bool) (ds : list ascii) rest :
  forall pre post,
    forallb p ds = true -> stops p rest ->
    ds ++ rest = pre ++ post -> forallb p pre = true ->
    exists suf, ds = pre ++ suf /\ post = suf ++ rest.
Proof.
  induction ds as [|d ds IH]; intros pre post Hds Hc E Hpre; simpl in *.
  - destruct pre as [|x pre]; simpl in *.
    + exists (@nil ascii). subst. auto.
    + subst rest. simpl in Hc, Hpre. rewrite Hc in Hpre. discriminate.
  - apply andb_prop in Hds as [Hd Hds].
    destruct pre as [|x pre]; simpl in *.
    + exists (d :: ds). subst. auto.
    + injection E as <- E. apply andb_prop in Hpre as [_ Hpre].
      destruct (IH pre post Hds Hc E Hpre) as (suf & -> & ->).
      exists suf. auto.
Qed.

Lemma plus_fail {R} p bef ds rest g (K : Re.state -> option R) :
  forallb p ds = true -> stops p rest ->
  (forall pre suf, ds = pre ++ suf -> pre <> [] ->
     K (Re.State (rev pre ++ bef) (suf ++ rest) g) = None) ->
  Re.run (Re.Plus p) (Re.State bef (ds ++ rest) g) K = None.
Proof.
  intros Hds Hc HK. destruct ds as [|d ds]; simpl in *.
  - destruct rest as [|c rest]; [reflexivity|]. simpl in Hc. now rewrite Hc.
  - apply andb_prop in Hds as [-> Hds].
    apply star_fail. intros pre post E Hpre.
    destruct (split_run p ds rest pre post Hds Hc E Hpre) as (suf & -> & ->).
    specialize (HK (d :: pre) suf). simpl in HK.
    rewrite <- app_assoc in HK. apply HK; [reflexivity | discriminate].
Qed.

Lemma plus_greedy {R} p bef ds rest g (K : Re.state -> option R) r :
  forallb p ds = true -> ds <> [] -> stops p rest ->
  K (Re.State (rev ds ++ bef) rest g) = Some r ->
  Re.run (Re.Plus p) (Re.State bef (ds ++ rest) g) K = Some r.
Proof.
  intros Hds Hne Hc HK. destruct ds as [|d ds]; [congruence|]. simpl in *.
  apply andb_prop in Hds as [-> Hds].
  apply star_greedy; auto. rewrite <- app_assoc in HK. exact HK.
Qed.

Lemma plus_stop {R} p st (K : Re.state -> option R) :
  stops p (Re.after st) -> Re.run (Re.Plus p) st K = None.
Proof.
  destruct st as [b a g]. simpl. destruct a as [|c a]; [reflexivity|].
  simpl. now intros ->.
Qed.

Lemma stops_app (p q : ascii -> bool) (suf rest : list ascii) :
  forallb q suf = true -> (forall x, q x = true -> p x = false) ->
  stops p rest -> stops p (suf ++ rest).
Proof.
  destruct suf as [|x suf]; simpl; [auto|].
  intros H Hq _. apply andb_prop in H as [H _]. auto.
Qed.

Lemma span_run (p : ascii -> bool) (l : list ascii) :
  exists ws r, l = ws ++ r /\ forallb p ws = true /\ stops p r
               /\ Str.drop_while p l = r.
Proof.
  induction l as [|c l (ws & r & -> & Hws & Hr & E)].
  - exists [], []. simpl. auto.
  - destruct (p c) eqn:Hc.
    + exists (c :: ws), r. simpl. rewrite Hc, Hws. auto.
    + exists [], (c :: ws ++ r). simpl. rewrite Hc. auto.
Qed.

Lemma at_word_rev_digits (pre bef : list ascii) :
  pre <> [] -> forallb Str.isdigit pre = true ->
  Re.at_word (rev pre ++ bef) = true.
Proof.
  intros Hne H. destruct (rev pre) as [|x l] eqn:E.
  - apply (f_equal (@rev ascii)) in E. rewrite rev_involutive in E.
    simpl in E. congruence.
  - simpl. apply digit_is_word.
    rewrite forallb_forall in H. apply H, in_rev. rewrite E. now left.
Qed.

Lemma consumed_app b a g x a' g' :
  Re.consumed (Re.State b a g) (Re.State (rev x ++ b) a' g') = Str.of_chars x.
Proof.
  unfold Re.consumed. simpl. f_equal.
  rewrite length_app, Nat.add_sub.
  rewrite firstn_app, firstn_all, Nat.sub_diag. simpl.
  rewrite app_nil_r. apply rev_involutive.
Qed.

Lemma digit_not_space c : Str.isdigit c = true -> Str.isspace c = false.
Proof. intros H. apply word_not_space, digit_is_word, H. Qed.

Lemma space_not_digit c : Str.isspace c = true -> Str.isdigit c = false.
Proof. each_char c. Qed.

Lemma no_boundary_no_match ds c tail :
  forallb Str.isdigit ds = true -> Str.isdigit c = false ->
  Str.isword c = true ->
  Re.rmatch quantity_pattern (Str.of_chars (ds ++ c :: tail)) = None.
Proof.
  intros Hds Hc Hw.
  assert (Hsuf : forall pre suf, ds = pre ++ suf ->
                                 forallb Str.isdigit suf = true).
  { intros pre suf ->. rewrite forallb_app in Hds.
    apply andb_prop in Hds. tauto. }
  assert (Hpre : forall pre suf, ds = pre ++ suf ->
                                 forallb Str.isdigit pre = true).
  { intros pre suf ->. rewrite forallb_app in Hds.
    apply andb_prop in Hds. tauto. }
  unfold Re.rmatch, quantity_pattern. rewrite chars_of_chars.
  set (d := Re.Plus Re.digit). set (sp := Re.Plus Re.space).
  cbn [Re.run Re.before Re.after Re.groups]. subst d sp.
  rewrite plus_fail; [ | exact Hds | exact Hc | ].
  2:{ intros pre suf E _. apply plus_stop. simpl.
      apply (stops_app _ Str.isdigit); eauto using digit_not_space.
      simpl. now apply word_not_space. }
  rewrite plus_fail; [ | exact Hds | exact Hc | ].
  2:{ intros pre suf E _. simpl.
      destruct suf as [|x suf]; simpl.
      - now rewrite word_not_slash.
      - specialize (Hsuf _ _ E). simpl in Hsuf.
        apply andb_prop in Hsuf as [Hx _].
        now rewrite word_not_slash by now apply digit_is_word. }
  apply plus_fail; [exact Hds | exact Hc | ].
  intros pre suf E Hne. simpl.
  assert (Hw' : Re.at_word (suf ++ c :: tail) = true).
  { destruct suf as [|x suf]; simpl; [exact Hw|].
    specialize (Hsuf _ _ E). simpl in Hsuf.
    apply andb_prop in Hsuf as [Hx _]. now apply digit_is_word. }
  assert (Hp : match suf ++ c :: tail with
               | [] => false | x :: _ => Ascii.eqb x "." end = false).
  { destruct suf as [|x suf]; simpl; [now apply word_not_point|].
    specialize (Hsuf _ _ E). simpl in Hsuf.
    apply andb_prop in Hsuf as [Hx _].
    now apply word_not_point, digit_is_word. }
  destruct (suf ++ c :: tail) as [|x l] eqn:El.
  - destruct suf; discriminate.
  - rewrite Hp. rewrite at_word_rev_digits by eauto.
    simpl in Hw'. simpl. now rewrite Hw'.
Qed.

Lemma plain_remainder_match ds rest :
  ds <> [] -> forallb Str.isdigit ds = true -> plain_remainder rest = true ->
  Re.rmatch quantity_pattern (Str.of_chars (ds ++ rest))
  = Some [(2%nat, Str.of_chars rest); (1%nat, Str.of_chars ds)].
Proof.
  intros Hne Hds Hplain.
  unfold plain_remainder in Hplain.
  apply andb_prop in Hplain as [Hplain Hdot].
  apply andb_prop in Hplain as [Hplain Hnum].
  apply andb_prop in Hplain as [Hplain Hpoint].
  apply andb_prop in Hplain as [Hword Hslash].
  apply negb_true_iff in Hword, Hslash, Hpoint.
  assert (Hstop : stops Str.isdigit rest).
  { destruct rest as [|x rest]; simpl in *; [exact I|].
    destruct (Str.isdigit x) eqn:Hx; [|reflexivity].
    apply digit_is_word in Hx. congruence. }
  assert (Hsuf : forall pre suf, ds = pre ++ suf ->
                                 forallb Str.isdigit suf = true).
  { intros pre suf ->. rewrite forallb_app in Hds.
    apply andb_prop in Hds. tauto. }
  unfold Re.rmatch, quantity_pattern. rewrite chars_of_chars.
  set (d := Re.Plus Re.digit). set (sp := Re.Plus Re.space).
  cbn [Re.run Re.before Re.after Re.groups]. subst d sp.
  (* the mixed number fails *)
  rewrite plus_fail; [ | exact Hds | exact Hstop | ].
  2:{ intros pre suf E _.
      destruct suf as [|x suf].
      - simpl app.
        destruct (span_run Str.isspace rest) as (ws & r & -> & Hws & Hr & Er).
        apply plus_fail; [exact Hws | exact Hr | ].
        intros pre2 suf2 -> _. apply plus_stop. simpl.
        apply (stops_app _ Str.isspace).
        + rewrite forallb_app in Hws. apply andb_prop in Hws. tauto.
        + apply space_not_digit.
        + rewrite Er in Hnum. destruct r as [|y r]; simpl; [exact I|].
          now apply negb_true_iff in Hnum.
      - apply plus_stop. simpl. specialize (Hsuf _ _ E). simpl in Hsuf.
        apply andb_prop in Hsuf as [Hx _]. now apply digit_not_space. }
  (* the fraction fails *)
  rewrite plus_fail; [ | exact Hds | exact Hstop | ].
  2:{ intros pre suf E _. simpl.
      destruct suf as [|x suf]; simpl.
      - destruct rest as [|y rest]; [reflexivity|]. simpl in Hslash.
        now rewrite Hslash.
      - specialize (Hsuf _ _ E). simpl in Hsuf.
        apply andb_prop in Hsuf as [Hx _].
        now rewrite word_not_slash by now apply digit_is_word. }
  (* the integer takes all digits *)
  apply plus_greedy; [exact Hds | exact Hne | exact Hstop | ].
  cbn [Re.before Re.after Re.groups].
  destruct rest as [|y rest].
  - rewrite at_word_rev_digits by assumption. simpl.
    rewrite (consumed_app [] _ [] ds).
    unfold Re.consumed. simpl. rewrite Nat.sub_diag. reflexivity.
  - simpl in Hpoint. rewrite Hpoint.
    rewrite at_word_rev_digits by assumption. rewrite Hword.
    cbn [xorb].
    apply star_all; [exact Hdot | ].
    simpl Re.at_eol. cbn iota.
    rewrite (consumed_app [] _ [] ds).
    rewrite (consumed_app (rev ds ++ []) _ _ (y :: rest)).
    reflexivity.
Qed.

Lemma drop_while_stops p (l : list ascii) :
  stops p l -> Str.drop_while p l = l.
Proof. destruct l as [|c l]; simpl; [reflexivity|]. now intros ->. Qed.

Lemma stops_rev (p q : ascii -> bool) (l : list ascii) :
  forallb q l = true -> (forall x, q x = true -> p x = false) ->
  stops p (rev l).
Proof.
  intros H Hq. destruct (rev l) as [|x r] eqn:E; simpl; [exact I|].
  apply Hq. rewrite forallb_forall in H. apply H, in_rev. rewrite E. now left.
Qed.

Lemma strip_by_fixed (p q : ascii -> bool) (l : list ascii) :
  forallb q l = true -> (forall x, q x = true -> p x = false) ->
  Str.lstrip_by p (Str.rstrip_by p l) = l.
Proof.
  intros H Hq. unfold Str.lstrip_by, Str.rstrip_by.
  rewrite (drop_while_stops p (rev l)) by now apply (stops_rev p q).
  rewrite rev_involutive. apply drop_while_stops.
  destruct l as [|x l]; simpl in *; [exact I|].
  apply andb_prop in H as [H _]. auto.
Qed.

Lemma digit_not_space_num c : Str.isdigit c = true -> Str.isspace_num c = false.
Proof. each_char c. Qed.

Lemma digit_not_sign c :
  Str.isdigit c = true -> (Str.code c =? 45)%N = false /\ (Str.code c =? 43)%N = false.
Proof. each_char c. Qed.

Lemma digit_lower c : Str.isdigit c = true -> Float.lower c = c.
Proof. each_char c. Qed.

Lemma digit_not_i c : Str.isdigit c = true -> Ascii.eqb c "i" = false /\ Ascii.eqb c "n" = false.
Proof. each_char c. Qed.

Lemma digitpart_from_digits ds :
  forall acc, forallb Str.isdigit ds = true ->
    Str.digitpart_from acc ds = Some (rev acc ++ map Str.digit_val ds, []).
Proof.
  induction ds as [|d ds IH]; intros acc H; simpl in *.
  - now rewrite app_nil_r.
  - apply andb_prop in H as [Hd H]. rewrite Hd, IH by assumption.
    simpl. now rewrite <- app_assoc.
Qed.

Lemma digitpart_digits ds :
  ds <> [] -> forallb Str.isdigit ds = true ->
  Str.digitpart ds = Some (map Str.digit_val ds, []).
Proof.
  intros Hne H. unfold Str.digitpart. destruct ds as [|d ds]; [congruence|].
  pose proof H as H'. simpl in H'. apply andb_prop in H' as [-> _].
  now rewrite digitpart_from_digits.
Qed.

Lemma float_of_digits ds :
  ds <> [] -> forallb Str.isdigit ds = true ->
  Float.of_str (Str.of_chars ds)
  = Py.Ok (Float.of_decimal false (digits_value ds) 0).
Proof.
  intros Hne H. unfold Float.of_str. rewrite chars_of_chars.
  unfold Str.strip_num.
  rewrite (strip_by_fixed _ Str.isdigit) by auto using digit_not_space_num.
  destruct ds as [|d ds]; [congruence|].
  pose proof H as H'. simpl in H'. apply andb_prop in H' as [Hd Hds].
  unfold Str.sign. destruct (digit_not_sign d Hd) as [-> ->].
  unfold Float.is_word. simpl map.
  rewrite (digit_lower d Hd). destruct (digit_not_i d Hd) as [Hi Hn].
  unfold Str.of_chars. simpl string_of_list_ascii.
  simpl String.eqb. rewrite Hi, Hn. simpl.
  unfold Float.mantissa. rewrite digitpart_digits by (auto; discriminate).
  simpl. rewrite app_nil_r. reflexivity.
Qed.

Lemma split_chars_none sep (l : list ascii) :
  forall cur, forallb (fun c => negb (Ascii.eqb c sep)) l = true ->
    Str.split_chars sep cur l = [rev cur ++ l].
Proof.
  induction l as [|c l IH]; intros cur H; simpl in *.
  - now rewrite app_nil_r.
  - apply andb_prop in H as [Hc H]. apply negb_true_iff in Hc.
    rewrite Hc, IH by assumption. simpl. now rewrite <- app_assoc.
Qed.

Lemma split_chars_app sep (a b : list ascii) :
  forall cur, forallb (fun c => negb (Ascii.eqb c sep)) a = true ->
    Str.split_chars sep cur (a ++ sep :: b)
    = (rev cur ++ a) :: Str.split_chars sep [] b.
Proof.
  induction a as [|c a IH]; intros cur H; simpl in *.
  - rewrite Ascii.eqb_refl. now rewrite app_nil_r.
  - apply andb_prop in H as [Hc H]. apply negb_true_iff in Hc.
    rewrite Hc, IH by assumption. simpl. now rewrite <- app_assoc.
Qed.

Lemma digits_no_sep (sep : ascii) ds :
  Str.isdigit sep = false -> forallb Str.isdigit ds = true ->
  forallb (fun c => negb (Ascii.eqb c sep)) ds = true.
Proof.
  intros Hs H. rewrite forallb_forall in *. intros x Hx.
  apply negb_true_iff. destruct (Ascii.eqb_spec x sep); [|reflexivity].
  subst. rewrite H in Hs by assumption. discriminate.
Qed.

Lemma existsb_digits (sep : ascii) ds :
  Str.isdigit sep = false -> forallb Str.isdigit ds = true ->
  existsb (Ascii.eqb sep) ds = false.
Proof.
  intros Hs H. induction ds as [|d ds IH]; simpl in *; [reflexivity|].
  apply andb_prop in H as [Hd H]. rewrite IH by assumption.
  destruct (Ascii.eqb_spec sep d); [|reflexivity].
  subst. congruence.
Qed.

(** [num/den] for two strings of digits. *)
Lemma fraction_value num den :
  num <> [] -> den <> [] ->
  forallb Str.isdigit num = true -> forallb Str.isdigit den = true ->
  _frac_str_to_float (Str.of_chars (num ++ "/"%char :: den))
  = Float.truediv (Float.of_decimal false (digits_value num) 0)
                  (Float.of_decimal false (digits_value den) 0).
Proof.
  intros Hn Hd Hnum Hden. unfold _frac_str_to_float, Str.split.
  rewrite chars_of_chars.
  rewrite split_chars_app by now apply digits_no_sep.
  rewrite split_chars_none by now apply digits_no_sep.
  simpl. rewrite !float_of_digits by assumption. reflexivity.
Qed.

Lemma fraction_zero_denominator num den :
  num <> [] -> den <> [] ->
  forallb Str.isdigit num = true -> forallb Str.isdigit den = true ->
  digits_value den = 0 ->
  frac_to_float (Str.of_chars (num ++ "/"%char :: den))
  = Py.Raise Py.ZeroDivisionError.
Proof.
  intros Hn Hd Hnum Hden Hz. unfold frac_to_float, Str.contains.
  rewrite chars_of_chars, !existsb_app. simpl existsb.
  rewrite !existsb_digits by (assumption || reflexivity). simpl.
  rewrite fraction_value by assumption. rewrite Hz. reflexivity.
Qed.

Lemma words_chars_word (a : list ascii) :
  forall cur rest, forallb Str.isdigit a = true ->
    Str.words_chars cur (a ++ rest) = Str.words_chars (rev a ++ cur) rest.
Proof.
  induction a as [|c a IH]; intros cur rest H; simpl in *; [reflexivity|].
  apply andb_prop in H as [Hc H]. rewrite (digit_not_space c Hc).
  rewrite IH by assumption. now rewrite <- app_assoc.
Qed.

Lemma digits_or_slash_word (b : list ascii) :
  forall cur, forallb (fun c => Str.isdigit c || Ascii.eqb c "/") b = true ->
    Str.words_chars cur b
    = match rev cur ++ b with [] => [] | w => [w] end.
Proof.
  induction b as [|c b IH]; intros cur H; simpl in *.
  - rewrite app_nil_r. destruct cur; simpl; [reflexivity|].
    destruct (rev cur ++ [a]) eqn:E; [|reflexivity].
    destruct (rev cur); discriminate.
  - apply andb_prop in H as [Hc H].
    assert (Hs : Str.isspace c = false).
    { apply orb_prop in Hc as [Hc|Hc]; [now apply digit_not_space|].
      apply Ascii.eqb_eq in Hc. now subst. }
    rewrite Hs, IH by assumption. simpl. now rewrite <- app_assoc.
Qed.

(** [a num/den] for three strings of digits. *)
Lemma mixed_zero_denominator a num den :
  a <> [] -> num <> [] -> den <> [] ->
  forallb Str.isdigit a = true ->
  forallb Str.isdigit num = true -> forallb Str.isdigit den = true ->
  digits_value den = 0 ->
  frac_to_float (Str.of_chars (a ++ " "%char :: num ++ "/"%char :: den))
  = Py.Raise Py.ZeroDivisionError.
Proof.
  intros Ha Hn Hd Hda Hnum Hden Hz. unfold frac_to_float, Str.contains.
  rewrite chars_of_chars, existsb_app. simpl existsb.
  rewrite orb_true_r. unfold Str.split_ws. rewrite chars_of_chars.
  rewrite words_chars_word by assumption. simpl Str.words_chars.
  rewrite app_nil_r.
  destruct (rev a) as [|x ra] eqn:Era.
  { apply (f_equal (@rev ascii)) in Era. rewrite rev_involutive in Era.
    simpl in Era. congruence. }
  rewrite digits_or_slash_word.
  2:{ rewrite forallb_app. cbn [forallb].
      apply andb_true_intro; split;
        [ | apply andb_true_intro; split; [reflexivity|] ];
        rewrite forallb_forall in *;
        intros y Hy; apply orb_true_intro; left; auto. }
  change (rev [] ++ num ++ "/"%char :: den) with (num ++ "/"%char :: den).
  change (rev ra ++ [x]) with (rev (x :: ra)).
  rewrite <- Era, rev_involutive.
  destruct (num ++ "/"%char :: den) as [|y l] eqn:E.
  { destruct num; discriminate. }
  rewrite <- E.
  cbn [map]. rewrite float_of_digits by assumption.
  cbn [Py.bind]. change (String.string_of_list_ascii (num ++ "/"%char :: den))
    with (Str.of_chars (num ++ "/"%char :: den)).
  rewrite fraction_value by assumption. rewrite Hz. reflexivity.
Qed.

Ltac break_match :=
  repeat match goal with
         | |- context [match ?x with _ => _ end] => destruct x
         | |- context [if ?x then _ else _] => destruct x
         end.

Lemma bind_modelled {A B} (m : Py.result A) (k : A -> Py.result B) :
  modelled m -> (forall a, modelled (k a)) -> modelled (Py.bind m k).
Proof.
  unfold modelled. destruct m; simpl; intros Hm Hk; auto; discriminate.
Qed.

Lemma of_str_modelled s : modelled (Float.of_str s).
Proof. unfold modelled, Float.of_str. break_match; discriminate. Qed.

Lemma truediv_modelled x y : modelled (Float.truediv x y).
Proof. unfold modelled, Float.truediv. break_match; discriminate. Qed.

Lemma round_modelled x : modelled (Float.round x).
Proof. unfold modelled, Float.round. break_match; discriminate. Qed.

Lemma of_int_modelled n : modelled (Float.of_int n).
Proof. unfold modelled, Float.of_int. break_match; discriminate. Qed.

Lemma frac_str_modelled s : modelled (_frac_str_to_float s).
Proof.
  unfold _frac_str_to_float.
  destruct (Str.split "/" s) as [|a [|b [|c l]]]; try discriminate.
  repeat (apply bind_modelled; [apply of_str_modelled|intros]).
  apply truediv_modelled.
Qed.

Lemma frac_to_float_modelled q : modelled (frac_to_float q).
Proof.
  unfold frac_to_float.
  destruct (Str.contains " " q).
  - destruct (Str.split_ws q) as [|a [|b [|c l]]]; try discriminate.
    apply bind_modelled; [apply of_str_modelled|intros].
    apply bind_modelled; [apply frac_str_modelled|intros]. discriminate.
  - destruct (Str.contains "/" q);
      [apply frac_str_modelled | apply of_str_modelled].
Qed.

Lemma format_quantity_modelled x : modelled (format_quantity x).
Proof.
  unfold format_quantity.
  apply bind_modelled; [apply round_modelled|intros].
  apply bind_modelled; [apply of_int_modelled|intros].
  destruct (Float.ltb _ _); [|discriminate].
  apply bind_modelled; [apply round_modelled|intros]. discriminate.
Qed.

Lemma scale_body_modelled q rest ratio : modelled (scale_body q rest ratio).
Proof.
  unfold scale_body.
  apply bind_modelled; [apply frac_to_float_modelled|intros].
  apply bind_modelled; [apply format_quantity_modelled|intros]. discriminate.
Qed.

Lemma scale_total line ratio :
  exists out, _scale_ingredient_line line ratio = Py.Ok out.
Proof.
  unfold _scale_ingredient_line.
  destruct (Re.rmatch quantity_pattern (Str.strip line)) as [m|]; [|eauto].
  pose proof (scale_body_modelled (Str.strip (Re.group 1 m))
                (Str.strip (Re.group 2 m)) ratio) as H.
  destruct (scale_body _ _ _); simpl; eauto. now elim H.
Qed.

Lemma scale_caught line ratio m :
  Re.rmatch quantity_pattern (Str.strip line) = Some m ->
  Py.raises (frac_to_float (Str.strip (Re.group 1 m))) = true ->
  _scale_ingredient_line line ratio = Py.Ok (Str.strip line).
Proof.
  intros Hm Hr. unfold _scale_ingredient_line. rewrite Hm.
  unfold scale_body. destruct (frac_to_float _); try discriminate.
  reflexivity.
Qed.

Lemma scale_rendered line ratio m q f :
  Re.rmatch quantity_pattern (Str.strip line) = Some m ->
  frac_to_float (Str.strip (Re.group 1 m)) = Py.Ok q ->
  format_quantity (Float.mul q ratio) = Py.Ok f ->
  _scale_ingredient_line line ratio
  = Py.Ok (f +:+ " " +:+ Str.strip (Re.group 2 m)).
Proof.
  intros Hm Hq Hf. unfold _scale_ingredient_line. rewrite Hm.
  unfold scale_body. rewrite Hq. simpl. rewrite Hf. reflexivity.
Qed.

Lemma scale_not_rendered line ratio m q :
  Re.rmatch quantity_pattern (Str.strip line) = Some m ->
  frac_to_float (Str.strip (Re.group 1 m)) = Py.Ok q ->
  Py.raises (format_quantity (Float.mul q ratio)) = true ->
  _scale_ingredient_line line ratio = Py.Ok (Str.strip line).
Proof.
  intros Hm Hq Hf. unfold _scale_ingredient_line. rewrite Hm.
  unfold scale_body. rewrite Hq. simpl.
  destruct (format_quantity _); try discriminate. reflexivity.
Qed.

Lemma uint_chars_digits d : forallb Str.isdigit (uint_chars d) = true.
Proof. induction d; unfold uint_chars in *; simpl; auto. Qed.

Lemma uint_chars_nonnil d : d <> Decimal.Nil -> uint_chars d <> [].
Proof. destruct d; unfold uint_chars; simpl; congruence. Qed.

Lemma fold_digits d :
  forall acc,
    fold_left (fun a x => 10 * a + x) (map Str.digit_val (uint_chars d)) acc
    = acc * 10 ^ Z.of_N (Unsigned.usize d)
      + Z.of_N (Unsigned.of_lu (Decimal.rev d)).
Proof.
  induction d; intros acc;
    [ simpl; lia | .. ];
    unfold uint_chars in *; simpl NilEmpty.string_of_uint; simpl Str.chars;
    simpl map; simpl fold_left; rewrite IHd;
    unfold Decimal.rev; simpl Decimal.revapp;
    match goal with
    | |- context [Decimal.revapp d (?f Decimal.Nil)] =>
        rewrite (Unsigned.of_lu_revapp d (f Decimal.Nil))
    end; simpl Unsigned.of_lu;
    simpl Unsigned.usize; rewrite N2Z.inj_succ, Z.pow_succ_r by lia;
    unfold Decimal.rev; rewrite ?N2Z.inj_add, ?N2Z.inj_mul, ?N2Z.inj_pow;
    change (Str.digit_val _) with 0 || change (Str.digit_val _) with 1
    || change (Str.digit_val _) with 2 || change (Str.digit_val _) with 3
    || change (Str.digit_val _) with 4 || change (Str.digit_val _) with 5
    || change (Str.digit_val _) with 6 || change (Str.digit_val _) with 7
    || change (Str.digit_val _) with 8 || change (Str.digit_val _) with 9;
    simpl Z.of_N; ring.
Qed.

Lemma uint_chars_value d :
  digits_value (uint_chars d) = Z.of_uint d.
Proof.
  unfold digits_value, Str.value_of_digits. rewrite fold_digits.
  unfold Z.of_uint. rewrite Unsigned.of_uint_alt. lia.
Qed.

Lemma of_int_chars n :
  Str.chars (Str.of_int n)
  = match n with
    | Z0 => ["0"%char]
    | Zpos p => uint_chars (Pos.to_uint p)
    | Zneg p => "-"%char :: uint_chars (Pos.to_uint p)
    end.
Proof.
  unfold Str.of_int. destruct n as [|p|p]; simpl; [reflexivity | |].
  - pose proof (Unsigned.to_uint_nonnil p). unfold uint_chars.
    destruct (Pos.to_uint p); simpl; congruence.
  - pose proof (Unsigned.to_uint_nonnil p). unfold uint_chars.
    destruct (Pos.to_uint p); simpl; congruence.
Qed.

Lemma pos_uint_value p : digits_value (uint_chars (Pos.to_uint p)) = Zpos p.
Proof.
  rewrite uint_chars_value. unfold Z.of_uint.
  now rewrite Unsigned.of_to.
Qed.

Lemma digit_or_minus_not_space c :
  digit_or_minus c = true -> Str.isspace_num c = false.
Proof. each_char c. Qed.

Lemma int_of_digits ds :
  ds <> [] -> forallb Str.isdigit ds = true ->
  Str.to_int (Str.of_chars ds) = Py.Ok (digits_value ds).
Proof.
  intros Hne H. unfold Str.to_int. rewrite chars_of_chars.
  unfold Str.strip_num.
  rewrite (strip_by_fixed _ Str.isdigit) by auto using digit_not_space_num.
  destruct ds as [|d ds]; [congruence|].
  pose proof H as H'. simpl in H'. apply andb_prop in H' as [Hd Hds].
  unfold Str.sign. destruct (digit_not_sign d Hd) as [-> ->].
  rewrite digitpart_digits by (auto; discriminate). reflexivity.
Qed.

(** [int(str(n)) == n]. *)
Lemma int_of_str_of_int n : Str.to_int (Str.of_int n) = Py.Ok n.
Proof.
  rewrite <- (of_chars_chars (Str.of_int n)), of_int_chars.
  destruct n as [|p|p].
  - reflexivity.
  - rewrite int_of_digits, pos_uint_value;
      auto using uint_chars_digits, uint_chars_nonnil, Unsigned.to_uint_nonnil.
  - unfold Str.to_int. rewrite chars_of_chars. unfold Str.strip_num.
    rewrite (strip_by_fixed _ digit_or_minus)
      by (auto using digit_or_minus_not_space; simpl;
          rewrite forallb_forall; intros x Hx; unfold digit_or_minus;
          pose proof (uint_chars_digits (Pos.to_uint p)) as Hd;
          rewrite forallb_forall in Hd; now rewrite Hd).
    simpl Str.sign. cbv beta iota zeta.
    rewrite digitpart_digits
      by auto using uint_chars_digits, uint_chars_nonnil, Unsigned.to_uint_nonnil.
    fold (digits_value (uint_chars (Pos.to_uint p))).
    now rewrite pos_uint_value.
Qed.

Lemma str_of_int_truthy n : Str.truthy (Str.of_int n) = true.
Proof.
  rewrite <- (of_chars_chars (Str.of_int n)), of_int_chars.
  destruct n as [|p|p]; try reflexivity.
  pose proof (uint_chars_nonnil (Pos.to_uint p) (Unsigned.to_uint_nonnil p)).
  destruct (uint_chars (Pos.to_uint p)); [congruence | reflexivity].
Qed.

(** The text of an [int] has no decimal point. *)
Lemma str_of_int_no_point n : Str.contains "." (Str.of_int n) = false.
Proof.
  unfold Str.contains. rewrite of_int_chars.
  destruct n as [|p|p]; [reflexivity | |]; simpl;
    apply existsb_digits; auto using uint_chars_digits.
Qed.

(** ** Joining and splitting *)
Lemma chars_app (s t : string) :
  Str.chars (s +:+ t) = Str.chars s ++ Str.chars t.
Proof. induction s as [|c s IH]; simpl; [reflexivity|]. now rewrite IH. Qed.

Lemma chars_inj (s t : string) : Str.chars s = Str.chars t -> s = t.
Proof.
  intros H. rewrite <- (of_chars_chars s), <- (of_chars_chars t). now rewrite H.
Qed.

Lemma truthy_chars s : Str.truthy s = true <-> Str.chars s <> [].
Proof. destruct s; simpl; split; congruence. Qed.

Lemma clean_item_spec sep x :
  clean_item sep x = true ->
  Str.strip x = x /\ Str.truthy x = true
  /\ forallb (fun c => negb (Ascii.eqb c sep)) (Str.chars x) = true.
Proof.
  unfold clean_item, Str.contains. intros H.
  apply andb_prop in H as [H Hc]. apply andb_prop in H as [Hs Ht].
  apply String.eqb_eq in Hs. apply negb_true_iff in Hc.
  repeat split; auto.
  rewrite forallb_forall. intros c Hin. apply negb_true_iff.
  destruct (Ascii.eqb_spec c sep) as [->|]; [|reflexivity].
  assert (existsb (Ascii.eqb sep) (Str.chars x) = true); [|congruence].
  apply existsb_exists. exists sep. split; [assumption|apply Ascii.eqb_refl].
Qed.

Lemma split_join sep (l : list string) :
  l <> [] ->
  forallb (fun x => forallb (fun c => negb (Ascii.eqb c sep)) (Str.chars x)) l
  = true ->
  Str.split sep (Str.join (String sep EmptyString) l) = l.
Proof.
  intros Hne H. unfold Str.split.
  induction l as [|x l IH]; [congruence|].
  simpl in H. apply andb_prop in H as [Hx Hl].
  destruct l as [|y l].
  - simpl. rewrite split_chars_none by assumption. simpl.
    now rewrite of_chars_chars.
  - change (Str.join (String sep "") (x :: y :: l))
      with (x +:+ String sep "" +:+ Str.join (String sep "") (y :: l)).
    rewrite !chars_app. simpl Str.chars at 2. simpl app at 2.
    rewrite split_chars_app by assumption. simpl map at 1.
    rewrite of_chars_chars. f_equal. apply IH; [discriminate|assumption].
Qed.

Lemma strip_filter_fixed (l : list string) :
  (forall y, In y l -> Str.strip y = y /\ Str.truthy y = true) ->
  map Str.strip (List.filter (fun x => Str.truthy (Str.strip x)) l) = l.
Proof.
  induction l as [|y l IH]; intros H; [reflexivity|].
  destruct (H y (or_introl eq_refl)) as [Hs Ht].
  cbn [List.filter]. rewrite Hs, Ht. cbn [map]. rewrite Hs. f_equal.
  apply IH. intros z Hz. apply H. now right.
Qed.

Lemma split_strip_join sep (l : list string) :
  forallb (clean_item sep) l = true ->
  split_strip sep (Str.join (String sep EmptyString) l) = l.
Proof.
  intros H. unfold split_strip.
  destruct l as [|x l]; [reflexivity|].
  rewrite split_join.
  - apply strip_filter_fixed. rewrite forallb_forall in H.
    intros y Hy. apply H in Hy. apply clean_item_spec in Hy. tauto.
  - discriminate.
  - rewrite forallb_forall in *. intros y Hy.
    apply H in Hy. apply clean_item_spec in Hy. tauto.
Qed.

Lemma lines_chars_last (x : list ascii) :
  forall cur, forallb (fun c => negb (Str.islinebreak c)) x = true ->
    rev cur ++ x <> [] ->
    Str.lines_chars cur x = [rev cur ++ x].
Proof.
  induction x as [|c x IH]; intros cur H Hne; simpl in *.
  - rewrite app_nil_r in *. destruct cur; [simpl in Hne; congruence|reflexivity].
  - apply andb_prop in H as [Hc H]. apply negb_true_iff in Hc.
    rewrite Hc, IH by (auto; simpl; rewrite <- app_assoc; exact Hne).
    simpl. now rewrite <- app_assoc.
Qed.

Lemma lines_chars_app (x rest : list ascii) :
  forall cur, forallb (fun c => negb (Str.islinebreak c)) x = true ->
    rest <> [] ->
    Str.lines_chars cur (x ++ nl :: rest)
    = (rev cur ++ x) :: Str.lines_chars [] rest.
Proof.
  induction x as [|c x IH]; intros cur H Hne; simpl in *.
  - rewrite app_nil_r. destruct rest; [congruence|reflexivity].
  - apply andb_prop in H as [Hc H]. apply negb_true_iff in Hc.
    rewrite Hc, IH by assumption. simpl. now rewrite <- app_assoc.
Qed.

Lemma clean_line_spec x :
  clean_line x = true ->
  Str.strip x = x /\ Str.truthy x = true
  /\ forallb (fun c => negb (Str.islinebreak c)) (Str.chars x) = true.
Proof.
  unfold clean_line. intros H.
  apply andb_prop in H as [H Hc]. apply andb_prop in H as [Hs Ht].
  apply String.eqb_eq in Hs. auto.
Qed.

Lemma join_nonempty sep x l :
  Str.truthy x = true -> Str.chars (Str.join sep (x :: l)) <> [].
Proof.
  intros Hx. apply truthy_chars in Hx.
  destruct l; simpl; [assumption|]. rewrite chars_app.
  destruct (Str.chars x); [congruence|discriminate].
Qed.

Lemma splitlines_join (l : list string) :
  forallb clean_line l = true ->
  Str.splitlines (Str.join (String nl EmptyString) l) = l.
Proof.
  intros H. unfold Str.splitlines.
  induction l as [|x l IH]; [reflexivity|].
  simpl in H. apply andb_prop in H as [Hx Hl].
  apply clean_line_spec in Hx as (Hs & Ht & Hb).
  destruct l as [|y l].
  - simpl. rewrite lines_chars_last; auto.
    + simpl. now rewrite of_chars_chars.
    + simpl. now apply truthy_chars.
  - change (Str.join (String nl "") (x :: y :: l))
      with (x +:+ String nl "" +:+ Str.join (String nl "") (y :: l)).
    rewrite !chars_app. simpl Str.chars at 2. simpl app at 2.
    rewrite lines_chars_app; auto.
    + simpl map at 1. rewrite of_chars_chars. f_equal. now apply IH.
    + apply join_nonempty. simpl in Hl. apply andb_prop in Hl as [Hy _].
      now apply clean_line_spec in Hy.
Qed.

Lemma lines_strip_join (l : list string) :
  forallb clean_line l = true ->
  lines_strip (Str.join (String nl EmptyString) l) = l.
Proof.
  intros H. unfold lines_strip. rewrite splitlines_join by assumption.
  apply strip_filter_fixed. rewrite forallb_forall in H.
  intros y Hy. apply H in Hy. apply clean_line_spec in Hy. tauto.
Qed.

(** ** Decoding what [json.dumps] wrote for a list of strings *)
Lemma parse_escape c l acc :
  Json.parse_string (Json.escape c ++ l) acc = Json.parse_string l (c :: acc).
Proof. destruct c as [[] [] [] [] [] [] [] []]; reflexivity. Qed.

Lemma parse_encoded s :
  forall l acc,
    Json.parse_string (flat_map Json.escape s ++ Json.quote :: l) acc
    = Py.Ok (Str.of_chars (rev acc ++ s), l).
Proof.
  induction s as [|c s IH]; intros l acc.
  - simpl. now rewrite app_nil_r.
  - simpl flat_map. rewrite <- app_assoc, parse_escape, IH.
    simpl. now rewrite <- app_assoc.
Qed.

Lemma dumps_strs (l : list string) :
  Json.dumps (py_strs l)
  = Py.Ok (Str.of_chars ("["%char :: encoded_items l ++ ["]"%char])).
Proof.
  unfold py_strs. cbn [Json.dumps].
  assert (E : forall l : list string,
             (fix go (l : list pyval) : Py.result (list string) :=
                match l with
                | [] => Py.Ok []
                | x :: l' => a <- Json.dumps x ;; b <- go l' ;; Py.Ok (a :: b)
                end) (map PyStr l)
             = Py.Ok (map Json.encode_basestring l)).
  { clear l. induction l as [|x l IH]; [reflexivity|].
    cbn [map Json.dumps Py.bind]. rewrite IH. reflexivity. }
  rewrite E. cbn [Py.bind]. f_equal. apply chars_inj.
  rewrite chars_of_chars, !chars_app. simpl Str.chars at 1 3.
  simpl app at 1. f_equal. f_equal.
  clear E. induction l as [|x l IH]; [reflexivity|].
  destruct l as [|y l].
  - simpl. unfold Json.encode_basestring. now rewrite chars_of_chars.
  - change (Str.join ", " (map Json.encode_basestring (x :: y :: l)))
      with (Json.encode_basestring x +:+ ", "
            +:+ Str.join ", " (map Json.encode_basestring (y :: l))).
    rewrite !chars_app, IH. unfold Json.encode_basestring at 1.
    rewrite chars_of_chars. reflexivity.
Qed.

Lemma scan_encoded f x rest :
  Json.scan (S f) (Json.encode_chars (Str.chars x) ++ rest)
  = Py.Ok (PyStr x, rest).
Proof.
  unfold Json.encode_chars. cbn [Json.scan app].
  change (Json.is_chr 34 Json.quote) with true. cbn iota.
  rewrite <- app_assoc. simpl app. rewrite parse_encoded.
  simpl. now rewrite of_chars_chars.
Qed.

Lemma items_eq f l acc :
  Json.items (S f) l acc
  = (vr <- Json.scan f l ;;
     match Json.skip_ws (snd vr) with
     | c :: r =>
         if Json.is_chr 93 c then Py.Ok (PyList (rev (fst vr :: acc)), r)
         else if Json.is_chr 44 c
              then Json.items f (Json.skip_ws r) (fst vr :: acc)
              else Json.err
     | [] => Json.err
     end).
Proof. reflexivity. Qed.

Lemma encoded_items_quote y l :
  exists t, encoded_items (y :: l) = Json.quote :: t.
Proof. destruct l; eexists; reflexivity. Qed.

Lemma encoded_items_cons x y l :
  encoded_items (x :: y :: l)
  = Json.encode_chars (Str.chars x)
    ++ ","%char :: " "%char :: encoded_items (y :: l).
Proof. reflexivity. Qed.

Lemma items_encoded (l : list string) :
  forall f acc rest,
    l <> [] -> (length l <= f)%nat ->
    Json.items (S f) (encoded_items l ++ "]"%char :: rest) acc
    = Py.Ok (PyList (rev acc ++ map PyStr l), rest).
Proof.
  induction l as [|x l IH]; intros f acc rest Hne Hf; [congruence|].
  destruct f as [|f]; [simpl in Hf; lia|].
  destruct l as [|y l].
  - cbn [encoded_items]. rewrite items_eq, scan_encoded.
    cbn [Py.bind fst snd]. simpl. reflexivity.
  - rewrite encoded_items_cons.
    specialize (IH f (PyStr x :: acc) rest).
    destruct (encoded_items_quote y l) as (t & Et).
    remember (encoded_items (y :: l)) as E.
    rewrite <- app_assoc. rewrite items_eq, scan_encoded.
    cbn [Py.bind fst snd].
    change (Json.skip_ws ((","%char :: " "%char :: E) ++ "]"%char :: rest))
      with (","%char :: " "%char :: E ++ "]"%char :: rest).
    change (Json.is_chr 93 ",") with false.
    change (Json.is_chr 44 ",") with true. cbn iota.
    replace (Json.skip_ws (" "%char :: E ++ "]"%char :: rest))
      with (E ++ "]"%char :: rest) by (rewrite Et; reflexivity).
    rewrite IH; [ | discriminate | simpl in *; lia].
    simpl. now rewrite <- app_assoc.
Qed.

Lemma length_encoded_items (l : list string) :
  (2 * length l <= length (encoded_items l))%nat.
Proof.
  induction l as [|x l IH]; [simpl; lia|].
  destruct l as [|y l].
  - simpl. rewrite length_app. simpl. lia.
  - rewrite encoded_items_cons, length_app.
    remember (encoded_items (y :: l)) as E. simpl length in *. lia.
Qed.

(** [json.loads(json.dumps(l, ensure_ascii=False)) == l] for a list of
    strings. *)
Lemma loads_dumps_strs (l : list string) :
  Py.bind (Json.dumps (py_strs l)) Json.loads = Py.Ok (py_strs l).
Proof.
  rewrite dumps_strs. cbn [Py.bind]. unfold Json.loads.
  rewrite chars_of_chars.
  set (n := (2 * length ("["%char :: encoded_items l ++ ["]"%char]) + 2)%nat).
  assert (Hn : (2 * length l + 4 <= n)%nat).
  { subst n. pose proof (length_encoded_items l). simpl length.
    rewrite length_app. simpl. lia. }
  destruct n as [|n]; [lia|].
  change (Json.skip_ws ("["%char :: encoded_items l ++ ["]"%char]))
    with ("["%char :: encoded_items l ++ ["]"%char]).
  destruct l as [|x l].
  - reflexivity.
  - cbn [Json.scan]. change (Json.is_chr 34 "[") with false.
    change (Json.is_chr 123 "[") with false.
    change (Json.is_chr 91 "[") with true. cbn iota.
    assert (Hs : Json.skip_ws (encoded_items (x :: l) ++ ["]"%char])
                 = Json.quote :: tl (encoded_items (x :: l) ++ ["]"%char])).
    { destruct l; reflexivity. }
    rewrite Hs. change (Json.is_chr 93 Json.quote) with false. cbn iota.
    replace (Json.quote :: tl (encoded_items (x :: l) ++ ["]"%char]))
      with (encoded_items (x :: l) ++ ["]"%char]) by (destruct l; reflexivity).
    destruct n as [|n]; [simpl in Hn; lia|].
    rewrite items_encoded; [ | discriminate | simpl in *; lia].
    reflexivity.
Qed.

Lemma decode_ingredients_no_raise stored :
  Py.raises (decode_ingredients stored) = false.
Proof.
  unfold decode_ingredients. destruct (Json.loads _); reflexivity.
Qed.

Lemma decode_structured (l : list string) json :
  Json.dumps (py_strs l) = Py.Ok json ->
  decode_ingredients (Some json) = Py.Ok (py_strs l).
Proof.
  intros Hd. pose proof (loads_dumps_strs l) as H. rewrite Hd in H.
  cbn [Py.bind] in H. unfold decode_ingredients.
  assert (Ht : text_or (Some json) "[]" = json).
  { rewrite dumps_strs in Hd. injection Hd as <-. reflexivity. }
  rewrite Ht, H. reflexivity.
Qed.

Lemma decode_legacy (l : list string) :
  forallb clean_line l = true ->
  Py.raises (Json.loads (Str.join newline l)) = true ->
  decode_ingredients (Some (Str.join newline l)) = Py.Ok (py_strs l).
Proof.
  intros Hl Hr. unfold decode_ingredients.
  destruct l as [|x l]; [reflexivity|].
  assert (Ht : text_or (Some (Str.join newline (x :: l))) "[]"
               = Str.join newline (x :: l)).
  { unfold text_or.
    assert (Hx : Str.truthy x = true).
    { simpl in Hl. apply andb_prop in Hl as [Hx _].
      now apply clean_line_spec in Hx. }
    pose proof (join_nonempty newline x l Hx) as Hj.
    apply truthy_chars in Hj. now rewrite Hj. }
  rewrite Ht. destruct (Json.loads _); try discriminate.
  cbn [Py.try_except]. unfold newline. now rewrite lines_strip_join.
Qed.

Lemma lower_code_eq (n : N) c :
  not_letter n = true ->
  (Str.code (Sqlite.lower c) =? n)%N = (Str.code c =? n)%N.
Proof.
  intros Hn.
  assert (H : (Str.code c =? n)%N = true \/ (Str.code (Sqlite.lower c) =? n)%N = true
              -> Sqlite.lower c = c).
  { intros [H|H]; apply N.eqb_eq in H; subst n; revert Hn;
      destruct c as [[] [] [] [] [] [] [] []]; vm_compute; congruence. }
  destruct (Str.code c =? n)%N eqn:E1.
  - rewrite H by auto. exact E1.
  - destruct (Str.code (Sqlite.lower c) =? n)%N eqn:E2; [|reflexivity].
    rewrite H in E2 by auto. congruence.
Qed.

Lemma lower_small c :
  (Str.code (Sqlite.lower c) <? 128)%N = (Str.code c <? 128)%N.
Proof. destruct c as [[] [] [] [] [] [] [] []]; reflexivity. Qed.

Lemma same_fold_code (n : N) a b :
  not_letter n = true ->
  Sqlite.lower a = Sqlite.lower b ->
  (Str.code a =? n)%N = (Str.code b =? n)%N.
Proof.
  intros Hn E. rewrite <- (lower_code_eq n a), <- (lower_code_eq n b) by assumption.
  now rewrite E.
Qed.

Lemma like_chars_fold p1 :
  forall p2 t, map Sqlite.lower p1 = map Sqlite.lower p2 ->
    Sqlite.like_chars p1 t = Sqlite.like_chars p2 t.
Proof.
  induction p1 as [|a p1 IH]; intros [|b p2] t E; try discriminate;
    [reflexivity|].
  injection E as Eab E.
  cbn [Sqlite.like_chars].
  rewrite (same_fold_code 37 a b) by (auto; reflexivity).
  rewrite (same_fold_code 95 a b) by (auto; reflexivity).
  rewrite Eab.
  destruct (Str.code b =? 37)%N.
  - induction t as [|c t IHt].
    + now rewrite (IH p2 []).
    + rewrite (IH p2 (c :: t)) by assumption. now rewrite IHt.
  - destruct t as [|c t]; [reflexivity|]. now rewrite (IH p2 t).
Qed.

Lemma c_str_fold l :
  map Sqlite.lower (Sqlite.c_str l) = Sqlite.c_str (map Sqlite.lower l).
Proof.
  induction l as [|c l IH]; [reflexivity|]. cbn [Sqlite.c_str map].
  rewrite (lower_code_eq 0 c) by reflexivity.
  destruct (Str.code c =? 0)%N; [reflexivity|]. cbn [map]. now rewrite IH.
Qed.

Lemma like_fold p1 p2 t :
  ascii_fold p1 = ascii_fold p2 -> Sqlite.like p1 t = Sqlite.like p2 t.
Proof.
  intros E. unfold Sqlite.like. apply like_chars_fold.
  rewrite !c_str_fold. f_equal.
  unfold ascii_fold in E. apply (f_equal Str.chars) in E.
  now rewrite !chars_of_chars in E.
Qed.

Lemma utf8_length_fold p1 p2 :
  ascii_fold p1 = ascii_fold p2 -> Sqlite.utf8_length p1 = Sqlite.utf8_length p2.
Proof.
  intros E. unfold ascii_fold in E. apply (f_equal Str.chars) in E.
  rewrite !chars_of_chars in E. unfold Sqlite.utf8_length.
  revert E. generalize (Str.chars p2). generalize (Str.chars p1).
  induction l as [|a l IH]; intros [|b l2] E; try discriminate; [reflexivity|].
  injection E as Eab E. cbn [fold_right].
  rewrite <- (lower_small a), <- (lower_small b), Eab. f_equal. now apply IH.
Qed.

Lemma fold_pattern q1 q2 :
  ascii_fold q1 = ascii_fold q2 ->
  ascii_fold ("%" +:+ q1 +:+ "%") = ascii_fold ("%" +:+ q2 +:+ "%").
Proof.
  intros E. unfold ascii_fold in *. apply (f_equal Str.chars) in E.
  rewrite !chars_of_chars in E. f_equal.
  rewrite !chars_app, !map_app. now rewrite E.
Qed.

Lemma like_percent_eq p t :
  Sqlite.like_chars ("%"%char :: p) t
  = Sqlite.like_chars p t
    || match t with
       | [] => false
       | _ :: t' => Sqlite.like_chars ("%"%char :: p) t'
       end.
Proof. destruct t; reflexivity. Qed.

Lemma like_percent t : Sqlite.like_chars ["%"%char] t = true.
Proof.
  induction t as [|c t IH]; [reflexivity|].
  rewrite like_percent_eq, IH. apply orb_true_r.
Qed.

Lemma like_everything t : Sqlite.like "%%" t = true.
Proof.
  unfold Sqlite.like.
  change (Sqlite.c_str (Str.chars "%%")) with ["%"%char; "%"%char].
  now rewrite like_percent_eq, like_percent.
Qed.

Lemma filter_all {A} (f : A -> bool) (l : list A) :
  (forall x, f x = true) -> List.filter f l = l.
Proof.
  intros H. induction l as [|x l IH]; [reflexivity|]. simpl. now rewrite H, IH.
Qed.

Lemma str_items_of_spec l : forall ings,
  str_items_of l = Some ings -> l = map PyStr ings.
Proof.
  induction l as [|v l IH]; intros ings H; simpl in H.
  - now injection H as <-.
  - destruct v; try discriminate.
    destruct (str_items_of l) as [r|]; [|discriminate].
    injection H as <-. simpl. f_equal. now apply IH.
Qed.

Lemma str_items_spec v ings : str_items v = Some ings -> v = py_strs ings.
Proof.
  destruct v; simpl; try discriminate. intros H.
  unfold py_strs. f_equal. now apply str_items_of_spec.
Qed.

Lemma join_value_strs sep ings :
  join_value sep (py_strs ings) = Py.Ok (Str.join sep ings).
Proof.
  unfold join_value, py_strs.
  assert (E : (fix go (l : list pyval) : Py.result (list string) :=
                 match l with
                 | [] => Py.Ok []
                 | PyStr s :: l' => b <- go l' ;; Py.Ok (s :: b)
                 | _ :: _ => Py.Raise Py.TypeError
                 end) (map PyStr ings) = Py.Ok ings).
  { induction ings as [|x l IH]; [reflexivity|]. cbn [map]. now rewrite IH. }
  now rewrite E.
Qed.

Lemma export_import_row r now :
  exportable r = true ->
  exists row, export_row r = Py.Ok row
    /\ import_row now (read_back_row row) = Py.Ok (Some (imported r now)).
Proof.
  unfold exportable. intros H.
  destruct (str_items (Recipe.ingredients r)) as [ings|] eqn:Ei; [|discriminate].
  apply str_items_spec in Ei.
  apply andb_prop in H as [H Htags]. apply andb_prop in H as [H Hinstr].
  apply andb_prop in H as [H Hings]. apply andb_prop in H as [Htitle Hne].
  apply String.eqb_eq in Htitle, Hinstr.
  unfold export_row. rewrite Ei, join_value_strs. cbn [Py.bind].
  eexists. split; [reflexivity|].
  unfold import_row, row_get, read_back_row.
  rewrite !lookup_fmap.
  repeat (rewrite lookup_insert_ne by discriminate).
  rewrite lookup_insert_eq. cbn [fmap option_fmap option_map written strip_field Py.bind].
  rewrite Htitle, Hne. cbn [negb].
  repeat (rewrite lookup_insert_ne by discriminate).
  rewrite lookup_insert_eq. cbn [fmap option_fmap option_map written split_field Py.bind].
  rewrite (split_strip_join "|" ings Hings).
  repeat (rewrite lookup_insert_ne by discriminate).
  rewrite lookup_insert_eq. cbn [fmap option_fmap option_map written strip_field Py.bind].
  rewrite Hinstr.
  repeat (rewrite lookup_insert_ne by discriminate).
  rewrite lookup_insert_eq. cbn [fmap option_fmap option_map written split_field Py.bind].
  rewrite (split_strip_join "," _ Htags).
  repeat (rewrite lookup_insert_ne by discriminate).
  rewrite lookup_insert_eq. cbn [fmap option_fmap option_map written import_servings].
  rewrite str_of_int_truthy, int_of_str_of_int. cbn [Py.bind].
  unfold imported. now rewrite Ei.
Qed.

Lemma import_loop_count clock rows :
  forall k db db' n,
    import_loop clock rows k db = (db', Py.Ok n) -> exists k', n = Z.of_nat k'.
Proof.
  induction rows as [|row rows IH]; intros k db db' n H; cbn [import_loop] in H.
  - injection H as _ <-. eauto.
  - destruct (import_row (clock k) row) as [[recipe|]|e|]; try discriminate.
    + destruct (add recipe db) as [db1 [rid|e|]]; try discriminate. eauto.
    + eauto.
Qed.

Lemma import_loop_app clock pre rest :
  forall k db db' k',
    import_loop clock pre k db = (db', Py.Ok (Z.of_nat k')) ->
    import_loop clock (pre ++ rest) k db = import_loop clock rest k' db'.
Proof.
  induction pre as [|row pre IH]; intros k db db' k' H;
    cbn [import_loop app] in *.
  - injection H as <- E. apply Nat2Z.inj in E. now subst.
  - destruct (import_row (clock k) row) as [[recipe|]|e|]; try discriminate.
    + destruct (add recipe db) as [db1 [rid|e|]]; try discriminate. eauto.
    + eauto.
Qed.

Lemma unparsable_row_raises now row :
  servings_unparsable_row row = true ->
  import_row now row = Py.Raise Py.ValueError.
Proof.
  unfold servings_unparsable_row, import_row.
  destruct (row_get row "title" "") as [t|]; [|discriminate].
  destruct (row_get row "ingredients" "") as [i|]; [|discriminate].
  destruct (row_get row "instructions" "") as [ins|]; [|discriminate].
  destruct (row_get row "tags" "") as [tg|]; [|discriminate].
  destruct (row_get row "servings" "1") as [s|]; [|discriminate].
  intros H. apply andb_prop in H as [H Hs]. apply andb_prop in H as [Ht Hts].
  cbn [strip_field Py.bind]. rewrite Ht. cbn [negb split_field Py.bind import_servings].
  rewrite Hts. destruct (Str.to_int s) as [|[]|]; try discriminate. reflexivity.
Qed.

Lemma digits_tail (ds pre suf : list ascii) :
  forallb Str.isdigit ds = true -> ds = pre ++ suf ->
  forallb Str.isdigit suf = true.
Proof.
  intros H ->. rewrite forallb_app in H. apply andb_prop in H. tauto.
Qed.

Lemma not_word_stops rest : Re.at_word rest = false -> stops Str.isdigit rest.
Proof.
  destruct rest as [|x rest]; simpl; [auto|]. intros H.
  destruct (Str.isdigit x) eqn:E; [|reflexivity].
  apply digit_is_word in E. congruence.
Qed.

Lemma fraction_match num den rest :
  num <> [] -> den <> [] ->
  forallb Str.isdigit num = true -> forallb Str.isdigit den = true ->
  boundary_remainder rest = true ->
  Re.rmatch quantity_pattern (Str.of_chars (num ++ "/"%char :: den ++ rest))
  = Some [(2%nat, Str.of_chars rest);
          (1%nat, Str.of_chars (num ++ "/"%char :: den))].
Proof.
  intros Hn Hd Hnum Hden Hrest.
  apply andb_prop in Hrest as [Hword Hdot]. apply negb_true_iff in Hword.
  unfold Re.rmatch, quantity_pattern. rewrite chars_of_chars.
  set (d := Re.Plus Re.digit). set (sp := Re.Plus Re.space).
  cbn [Re.run Re.before Re.after Re.groups]. subst d sp.
  rewrite plus_fail; [ | exact Hnum | reflexivity | ].
  2:{ intros pre suf E _. apply plus_stop. simpl.
      apply (stops_app _ Str.isdigit);
        eauto using digit_not_space, digits_tail. reflexivity. }
  erewrite plus_greedy; [ reflexivity | exact Hnum | exact Hn | reflexivity | ].
  cbn [Re.before Re.after Re.groups]. cbn [Ascii.eqb Bool.eqb]. cbn iota.
  apply plus_greedy; [exact Hden | exact Hd | now apply not_word_stops | ].
  cbn [Re.before Re.after Re.groups].
  rewrite at_word_rev_digits by assumption. rewrite Hword. cbn [xorb].
  apply star_all; [exact Hdot|]. cbn [Re.at_eol].
  f_equal. f_equal.
  - f_equal. rewrite (consumed_app _ _ _ rest). reflexivity.
  - f_equal. f_equal.
    replace (rev den ++ "/"%char :: rev num ++ [])
      with (rev (num ++ "/"%char :: den) ++ []).
    + apply (consumed_app [] _ []).
    + rewrite rev_app_distr. simpl. now rewrite <- !app_assoc, !app_nil_r.
Qed.

Lemma mixed_match a num den rest :
  a <> [] -> num <> [] -> den <> [] ->
  forallb Str.isdigit a = true ->
  forallb Str.isdigit num = true -> forallb Str.isdigit den = true ->
  boundary_remainder rest = true ->
  Re.rmatch quantity_pattern
    (Str.of_chars (a ++ " "%char :: num ++ "/"%char :: den ++ rest))
  = Some [(2%nat, Str.of_chars rest);
          (1%nat, Str.of_chars (a ++ " "%char :: num ++ "/"%char :: den))].
Proof.
  intros Ha Hn Hd Hda Hnum Hden Hrest.
  apply andb_prop in Hrest as [Hword Hdot]. apply negb_true_iff in Hword.
  unfold Re.rmatch, quantity_pattern. rewrite chars_of_chars.
  set (d := Re.Plus Re.digit). set (sp := Re.Plus Re.space).
  cbn [Re.run Re.before Re.after Re.groups]. subst d sp.
  erewrite plus_greedy; [ reflexivity | exact Hda | exact Ha | reflexivity | ].
  cbn [Re.before Re.after Re.groups].
  change (" "%char :: num ++ "/"%char :: den ++ rest)
    with ([" "%char] ++ num ++ "/"%char :: den ++ rest).
  apply plus_greedy; [reflexivity | discriminate | | ].
  { destruct num as [|x num]; [congruence|]. simpl in *.
    apply andb_prop in Hnum as [Hx _]. now apply digit_not_space. }
  cbn [Re.before Re.after Re.groups].
  apply plus_greedy; [exact Hnum | exact Hn | reflexivity | ].
  cbn [Re.before Re.after Re.groups]. cbn [Ascii.eqb Bool.eqb]. cbn iota.
  apply plus_greedy; [exact Hden | exact Hd | now apply not_word_stops | ].
  cbn [Re.before Re.after Re.groups].
  rewrite at_word_rev_digits by assumption. rewrite Hword. cbn [xorb].
  apply star_all; [exact Hdot|]. cbn [Re.at_eol].
  f_equal. f_equal.
  - f_equal. rewrite (consumed_app _ _ _ rest). reflexivity.
  - f_equal. f_equal.
    replace (rev den ++ "/"%char :: rev num ++ rev [" "%char] ++ rev a ++ [])
      with (rev (a ++ " "%char :: num ++ "/"%char :: den) ++ []).
    + apply (consumed_app [] _ []).
    + rewrite !rev_app_distr. simpl. rewrite !rev_app_distr. simpl.
      now rewrite <- !app_assoc, !app_nil_r.
Qed.

Lemma strip_digits ds :
  forallb Str.isdigit ds = true -> Str.strip (Str.of_chars ds) = Str.of_chars ds.
Proof.
  intros H. unfold Str.strip. rewrite chars_of_chars.
  now rewrite (strip_by_fixed _ Str.isdigit) by auto using digit_not_space.
Qed.

(** Stripping a text that starts and ends with a digit. *)
Lemma strip_digit_ends (l : list ascii) d1 d2 mid :
  l = d1 :: mid ++ [d2] -> Str.isdigit d1 = true -> Str.isdigit d2 = true ->
  Str.strip (Str.of_chars l) = Str.of_chars l.
Proof.
  intros -> H1 H2. unfold Str.strip. rewrite chars_of_chars. f_equal.
  unfold Str.lstrip_by, Str.rstrip_by.
  change (d1 :: mid ++ [d2]) with ((d1 :: mid) ++ [d2]).
  assert (E : rev ((d1 :: mid) ++ [d2]) = d2 :: rev (d1 :: mid))
    by (rewrite rev_app_distr; reflexivity).
  rewrite E.
  rewrite (drop_while_stops Str.isspace (d2 :: rev (d1 :: mid)))
    by (simpl; now apply digit_not_space).
  rewrite <- E, rev_involutive. apply drop_while_stops.
  simpl. now apply digit_not_space.
Qed.

Lemma last_digit (ds : list ascii) :
  ds <> [] -> forallb Str.isdigit ds = true ->
  exists init d, ds = init ++ [d] /\ Str.isdigit d = true.
Proof.
  intros Hne H. destruct (exists_last Hne) as (init & d & ->).
  exists init, d. split; [reflexivity|].
  rewrite forallb_app in H. apply andb_prop in H as [_ H]. simpl in H.
  now apply andb_prop in H as [H _].
Qed.

Lemma strip_fraction num den :
  num <> [] -> den <> [] ->
  forallb Str.isdigit num = true -> forallb Str.isdigit den = true ->
  Str.strip (Str.of_chars (num ++ "/"%char :: den))
  = Str.of_chars (num ++ "/"%char :: den).
Proof.
  intros Hn Hd Hnum Hden.
  destruct num as [|d1 num]; [congruence|].
  destruct (last_digit den Hd Hden) as (init & d2 & -> & H2).
  simpl in Hnum. apply andb_prop in Hnum as [H1 _].
  apply (strip_digit_ends _ d1 d2 (num ++ "/"%char :: init)); auto.
  simpl. now rewrite <- app_assoc.
Qed.

Lemma strip_mixed a num den :
  a <> [] -> den <> [] ->
  forallb Str.isdigit a = true -> forallb Str.isdigit den = true ->
  Str.strip (Str.of_chars (a ++ " "%char :: num ++ "/"%char :: den))
  = Str.of_chars (a ++ " "%char :: num ++ "/"%char :: den).
Proof.
  intros Ha Hd Hda Hden.
  destruct a as [|d1 a]; [congruence|].
  destruct (last_digit den Hd Hden) as (init & d2 & -> & H2).
  simpl in Hda. apply andb_prop in Hda as [H1 _].
  apply (strip_digit_ends _ d1 d2 (a ++ " "%char :: num ++ "/"%char :: init)); auto.
  simpl. rewrite <- !app_assoc. simpl. now rewrite <- !app_assoc.
Qed.

Lemma single_digit k :
  0 <= k < 10 ->
  exists c, Str.of_int k = String c EmptyString /\ Str.isdigit c = true.
Proof.
  intros H.
  assert (E : k = 0 \/ k = 1 \/ k = 2 \/ k = 3 \/ k = 4 \/ k = 5 \/ k = 6
              \/ k = 7 \/ k = 8 \/ k = 9) by lia.
  repeat (destruct E as [->|E]; [eexists; split; reflexivity|]).
  subst. eexists; split; reflexivity.
Qed.

Lemma scaled_round_nonneg m e s : 0 < s -> 0 <= Float.scaled_round m e s.
Proof.
  intros Hs. unfold Float.scaled_round. destruct (0 <=? e) eqn:E.
  - apply Z.leb_le in E. assert (0 < 2 ^ e) by (apply Z.pow_pos_nonneg; lia). nia.
  - apply Z.leb_gt in E. unfold Float.div_half_even.
    assert (Hb : 0 < 2 ^ (- e)) by (apply Z.pow_pos_nonneg; lia).
    assert (Hq : 0 <= Z.pos m * s / 2 ^ (- e)) by (apply Z.div_pos; lia).
    destruct (_ ?= _); [destruct (Z.even _)| |]; lia.
Qed.

Lemma existsb_rev {A} (f : A -> bool) (l : list A) :
  existsb f (rev l) = existsb f l.
Proof.
  induction l as [|x l IH]; [reflexivity|]. simpl.
  rewrite existsb_app, IH. simpl. rewrite orb_false_r. apply orb_comm.
Qed.

Lemma format_2f_shape x :
  Float.is_finite x = true -> two_decimals (Float.format_2f x) = true.
Proof.
  destruct x as [s| | |s m e]; try discriminate; intros _.
  - destruct s; reflexivity.
  - unfold Float.format_2f.
    set (n := Float.scaled_round m e 100).
    assert (Hn : 0 <= n) by (apply scaled_round_nonneg; lia).
    assert (H1 : 0 <= (n mod 100) / 10 < 10).
    { pose proof (Z.mod_pos_bound n 100 ltac:(lia)).
      split; [apply Z.div_pos; lia | apply Z.div_lt_upper_bound; lia]. }
    assert (H2 : 0 <= (n mod 100) mod 10 < 10) by (apply Z.mod_pos_bound; lia).
    destruct (single_digit _ H1) as (c1 & E1 & D1).
    destruct (single_digit _ H2) as (c2 & E2 & D2).
    unfold two_decimals, Float.two_digits. rewrite E1, E2.
    rewrite !chars_app. cbn [Str.chars list_ascii_of_string app].
    rewrite !rev_app_distr. cbn [rev app]. rewrite D1, D2.
    cbn [andb Ascii.eqb Bool.eqb]. rewrite existsb_app, !existsb_rev.
    fold (Str.contains "." (Str.of_int (n / 100))).
    rewrite str_of_int_no_point. destruct s; reflexivity.
Qed.

(** ** The range of binary64 values

    The result of a rounding has a mantissa below [2^53] and an exponent of
    at most 971; the nearest integer of such a value is a multiple of a
    power of two that converts back to a float without rounding, so the
    conversion of [round(x)] to a float does not overflow. *)
Section Binary64.
Import SpecFloat.

Lemma digits2_pos_bounds p :
  2 ^ (Zpos (digits2_pos p) - 1) <= Zpos p < 2 ^ Zpos (digits2_pos p).
Proof.
  induction p as [p IH|p IH|]; cbn [digits2_pos].
  - rewrite Pos2Z.inj_succ, Z.pow_succ_r by lia.
    replace (Z.succ (Zpos (digits2_pos p)) - 1)
      with (Z.succ (Zpos (digits2_pos p) - 1)) by lia.
    rewrite Z.pow_succ_r by lia. lia.
  - rewrite Pos2Z.inj_succ, Z.pow_succ_r by lia.
    replace (Z.succ (Zpos (digits2_pos p)) - 1)
      with (Z.succ (Zpos (digits2_pos p) - 1)) by lia.
    rewrite Z.pow_succ_r by lia. lia.
  - simpl. lia.
Qed.

Lemma Zdigits2_upper m : 0 <= m -> m < 2 ^ Zdigits2 m.
Proof.
  destruct m as [|p|p]; intros H; simpl; try lia.
  apply digits2_pos_bounds.
Qed.

Lemma Zdigits2_lower p : 2 ^ (Zdigits2 (Zpos p) - 1) <= Zpos p.
Proof. apply digits2_pos_bounds. Qed.

Lemma iter_pos_nat {A} (f : A -> A) p :
  forall x, iter_pos f p x = Nat.iter (Pos.to_nat p) f x.
Proof.
  induction p as [p IH|p IH|]; intros x; cbn [iter_pos].
  - rewrite !IH, Pos2Nat.inj_xI.
    replace (S (2 * Pos.to_nat p))%nat
      with (Pos.to_nat p + (Pos.to_nat p + 1))%nat by lia.
    rewrite !Nat.iter_add. reflexivity.
  - rewrite !IH, Pos2Nat.inj_xO.
    replace (2 * Pos.to_nat p)%nat
      with (Pos.to_nat p + Pos.to_nat p)%nat by lia.
    rewrite Nat.iter_add. reflexivity.
  - reflexivity.
Qed.

Lemma shr_1_m mrs : 0 <= shr_m mrs -> shr_m (shr_1 mrs) = shr_m mrs / 2.
Proof.
  destruct mrs as [m r s]. cbn [shr_m shr_1]. intros H.
  destruct m as [|[p|p|]|p]; cbn [shr_m]; [reflexivity| | |reflexivity|lia].
  - apply (Z.div_unique _ _ _ 1); lia.
  - apply (Z.div_unique _ _ _ 0); lia.
Qed.

Lemma shr_iter_m k :
  forall mrs, 0 <= shr_m mrs ->
    shr_m (Nat.iter k shr_1 mrs) = shr_m mrs / 2 ^ Z.of_nat k.
Proof.
  induction k as [|k IH]; intros mrs H.
  - simpl. now rewrite Z.div_1_r.
  - change (Nat.iter (S k) shr_1 mrs) with (shr_1 (Nat.iter k shr_1 mrs)).
    rewrite shr_1_m.
    + rewrite IH by assumption. rewrite Nat2Z.inj_succ, Z.pow_succ_r by lia.
      rewrite Z.div_div by lia. f_equal. lia.
    + rewrite IH by assumption. apply Z.div_pos; lia.
Qed.

Lemma shr_1_exact m :
  0 <= m -> m mod 2 = 0 ->
  shr_1 (Build_shr_record m false false) = Build_shr_record (m / 2) false false.
Proof.
  intros H E. destruct m as [|[p|p|]|p]; cbn [shr_1 orb];
    [reflexivity| | |discriminate|lia].
  - exfalso. pose proof (Z.div_mod (Zpos p~1) 2). lia.
  - f_equal. apply (Z.div_unique _ _ _ 0); lia.
Qed.

Lemma shr_iter_exact k m :
  0 <= m -> m mod 2 ^ Z.of_nat k = 0 ->
  Nat.iter k shr_1 (Build_shr_record m false false)
  = Build_shr_record (m / 2 ^ Z.of_nat k) false false.
Proof.
  intros Hm. induction k as [|k IH]; intros E.
  - simpl. now rewrite Z.div_1_r.
  - change (Nat.iter (S k) shr_1 ?x) with (shr_1 (Nat.iter k shr_1 x)).
    rewrite Nat2Z.inj_succ, Z.pow_succ_r in * by lia.
    assert (P : 0 < 2 ^ Z.of_nat k) by (apply Z.pow_pos_nonneg; lia).
    apply Z.mod_divide in E; [|lia]. destruct E as [c E].
    rewrite IH.
    2:{ apply Z.mod_divide; [lia|]. exists (c * 2). lia. }
    assert (Q : m / 2 ^ Z.of_nat k = c * 2).
    { subst m. replace (c * (2 * 2 ^ Z.of_nat k)) with (c * 2 * 2 ^ Z.of_nat k) by lia.
      apply Z.div_mul. lia. }
    rewrite shr_1_exact.
    + f_equal. rewrite Q, Z.div_mul by lia. subst m.
      symmetry. apply Z.div_mul. lia.
    + apply Z.div_pos; lia.
    + rewrite Q. apply Z.mod_mul. lia.
Qed.

Lemma shr_record_of_loc_m m l : shr_m (shr_record_of_loc m l) = m.
Proof. destruct l as [|[]]; reflexivity. Qed.

Lemma shr_spec mrs e n mrs' e' :
  0 <= shr_m mrs -> shr mrs e n = (mrs', e') ->
  e' = e + Z.max 0 n /\ shr_m mrs' = shr_m mrs / 2 ^ Z.max 0 n.
Proof.
  intros H. unfold shr. destruct n as [|p|p]; intros [= <- <-].
  - simpl. rewrite Z.div_1_r. lia.
  - rewrite iter_pos_nat, shr_iter_m by assumption.
    rewrite positive_nat_Z. split; [lia|]. f_equal.
  - simpl. rewrite Z.div_1_r. lia.
Qed.

Lemma shr_exact m e n :
  0 <= m -> m mod 2 ^ Z.max 0 n = 0 ->
  shr (Build_shr_record m false false) e n
  = (Build_shr_record (m / 2 ^ Z.max 0 n) false false, e + Z.max 0 n).
Proof.
  intros H E. unfold shr. destruct n as [|p|p].
  - simpl. rewrite Z.div_1_r. do 2 f_equal. lia.
  - rewrite iter_pos_nat, shr_iter_exact; rewrite ?positive_nat_Z; auto.
  - simpl. rewrite Z.div_1_r. do 2 f_equal. lia.
Qed.

Lemma shr_fexp_spec m e l mrs e' :
  0 <= m -> shr_fexp Float.prec Float.emax m e l = (mrs, e') ->
  e' = Z.max e (fexp Float.prec Float.emax (Zdigits2 m + e))
  /\ shr_m mrs = m / 2 ^ (e' - e)
  /\ 0 <= shr_m mrs < 2 ^ Float.prec.
Proof.
  intros H E. unfold shr_fexp in E.
  apply shr_spec in E; rewrite shr_record_of_loc_m in *; [|assumption].
  destruct E as [-> E].
  set (n := fexp _ _ _ - e) in *.
  assert (K : Z.max e (fexp Float.prec Float.emax (Zdigits2 m + e)) = e + Z.max 0 n)
    by (subst n; lia).
  rewrite <- K in *. split; [reflexivity|].
  replace (Z.max e (fexp Float.prec Float.emax (Zdigits2 m + e)) - e)
    with (Z.max 0 n) by lia.
  split; [exact E|]. rewrite E.
  assert (P : 0 < 2 ^ Z.max 0 n) by (apply Z.pow_pos_nonneg; lia).
  split; [apply Z.div_pos; lia|].
  apply Z.div_lt_upper_bound; [lia|].
  rewrite <- Z.pow_add_r by (unfold Float.prec; lia).
  pose proof (Zdigits2_upper m H) as U.
  eapply Z.lt_le_trans; [exact U|].
  apply Z.pow_le_mono_r; [lia|].
  subst n. unfold fexp, Float.prec. lia.
Qed.

Lemma round_nearest_even_bounds m l :
  0 <= m -> m <= round_nearest_even m l <= m + 1.
Proof.
  intros H. destruct l as [|[]]; simpl; try lia.
  destruct (Z.even m); lia.
Qed.

Lemma binary_round_aux_bounds s mx ex lx s' m e :
  0 <= mx ->
  binary_round_aux Float.prec Float.emax s mx ex lx = S754_finite s' m e ->
  Zpos m < 2 ^ Float.prec /\ e <= Float.emax - Float.prec.
Proof.
  intros H. unfold binary_round_aux.
  destruct (shr_fexp _ _ mx ex lx) as [mrs1 e1] eqn:E1.
  destruct (shr_fexp _ _ (round_nearest_even _ _) e1 loc_Exact) as [mrs2 e2] eqn:E2.
  apply shr_fexp_spec in E1; [|assumption]. destruct E1 as (_ & _ & B1).
  apply shr_fexp_spec in E2.
  2:{ pose proof (round_nearest_even_bounds (shr_m mrs1)
                    (loc_of_shr_record mrs1)). lia. }
  destruct E2 as (_ & _ & B2).
  destruct (shr_m mrs2) as [|p|p]; try discriminate.
  destruct (e2 <=? _) eqn:L; intros [= <- <- <-].
  apply Z.leb_le in L. lia.
Qed.

Lemma mul_bounds x y s m e :
  Float.mul x y = S754_finite s m e ->
  Zpos m < 2 ^ Float.prec /\ e <= Float.emax - Float.prec.
Proof.
  unfold Float.mul, SFmul.
  destruct x as [sx|sx| |sx mx ex], y as [sy|sy| |sy my ey]; try discriminate.
  apply binary_round_aux_bounds. lia.
Qed.

Lemma Zdigits2_unique p n :
  2 ^ (n - 1) <= Zpos p < 2 ^ n -> Zdigits2 (Zpos p) = n.
Proof.
  intros [L U]. pose proof (digits2_pos_bounds p) as [L' U']. simpl.
  assert (0 < n).
  { destruct (Z.ltb_spec 0 n); [assumption|].
    rewrite (Z.pow_neg_r 2 (n - 1)) in L by lia.
    destruct (Z.eqb_spec n 0) as [->|]; [simpl in U; lia|].
    rewrite Z.pow_neg_r in U by lia. lia. }
  assert (Zpos (digits2_pos p) - 1 < n).
  { apply (Z.pow_lt_mono_r_iff 2); lia. }
  assert (n - 1 < Zpos (digits2_pos p)).
  { apply (Z.pow_lt_mono_r_iff 2); lia. }
  lia.
Qed.

Lemma iter_xO p k : Zpos (Pos.iter xO p k) = Zpos p * 2 ^ Zpos k.
Proof.
  rewrite Pos2Nat.inj_iter, <- (positive_nat_Z k).
  induction (Pos.to_nat k) as [|n IH].
  - simpl. lia.
  - rewrite Nat2Z.inj_succ, Z.pow_succ_r by lia. cbn [Nat.iter nat_rect].
    rewrite Pos2Z.inj_xO, IH. lia.
Qed.

Lemma binary_round_aux_exact s mz ez :
  let K := Z.max 0 (fexp Float.prec Float.emax (Zdigits2 (Zpos mz) + ez) - ez) in
  Zpos mz mod 2 ^ K = 0 ->
  Zdigits2 (Zpos mz) + ez <= Float.emax ->
  ez + K <= Float.emax - Float.prec ->
  Float.is_inf (binary_round_aux Float.prec Float.emax s (Zpos mz) ez loc_Exact)
  = false.
Proof.
  intros K HK Hd He. unfold binary_round_aux.
  assert (E1 : shr_fexp Float.prec Float.emax (Zpos mz) ez loc_Exact
               = (Build_shr_record (Zpos mz / 2 ^ K) false false, ez + K)).
  { unfold shr_fexp. cbn [shr_record_of_loc]. apply shr_exact; [lia|exact HK]. }
  rewrite E1. cbn [loc_of_shr_record shr_m round_nearest_even].
  assert (P : 0 < 2 ^ K) by (apply Z.pow_pos_nonneg; lia).
  apply Z.mod_divide in HK; [|lia]. destruct HK as [c Hc].
  assert (Q : Zpos mz / 2 ^ K = c) by (rewrite Hc; apply Z.div_mul; lia).
  rewrite Q.
  destruct (shr_fexp _ _ c (ez + K) loc_Exact) as [mrs2 e2] eqn:E2.
  assert (Pc : 0 < c) by nia.
  apply shr_fexp_spec in E2; [|lia]. destruct E2 as (-> & _ & _).
  destruct (shr_m mrs2); try reflexivity.
  destruct c as [|pc|pc]; try lia.
  assert (D : Zdigits2 (Zpos pc) + K <= Zdigits2 (Zpos mz)).
  { pose proof (Zdigits2_lower pc) as L.
    pose proof (Zdigits2_upper (Zpos mz) ltac:(lia)) as U.
    assert (T : 2 ^ (Zdigits2 (Zpos pc) - 1 + K) < 2 ^ Zdigits2 (Zpos mz)).
    { rewrite Z.pow_add_r by (simpl; lia). nia. }
    apply Z.pow_lt_mono_r_iff in T; simpl; simpl in T; lia. }
  match goal with |- context [?a <=? ?b] => destruct (Z.leb_spec a b) as [|F] end;
    [reflexivity|].
  exfalso. revert F D Hd He. unfold fexp, emin, Float.emax, Float.prec.
  simpl Zdigits2. lia.
Qed.

Lemma fexp_eq d : 0 < d -> fexp Float.prec Float.emax d = d - 53.
Proof. unfold fexp, emin, Float.prec, Float.emax. lia. Qed.

Lemma binary_round_exact s p M E :
  0 < M < 2 ^ Float.prec -> 0 <= E <= Float.emax - Float.prec ->
  Zpos p = M * 2 ^ E ->
  Float.is_inf (binary_round Float.prec Float.emax s p 0) = false.
Proof.
  intros HM HE Hp.
  pose proof (digits2_pos_bounds p) as [L U].
  set (d := Zpos (digits2_pos p)) in *.
  assert (Hd : d <= 53 + E).
  { assert (T : 2 ^ (d - 1) < 2 ^ (53 + E)).
    { rewrite (Z.pow_add_r 2 53 E) by lia.
      assert (0 < 2 ^ E) by (apply Z.pow_pos_nonneg; lia).
      unfold Float.prec in HM. nia. }
    apply Z.pow_lt_mono_r_iff in T; lia. }
  unfold binary_round. fold d. rewrite Z.add_0_r, fexp_eq by (subst d; lia).
  unfold shl_align.
  destruct (d - 53 - 0) as [|k|k] eqn:Ek.
  - (* d = 53 *)
    apply binary_round_aux_exact; cbn [Zdigits2]; fold d;
      rewrite ?Z.add_0_r, ?fexp_eq by lia;
      replace (d - 53 - 0) with 0 by lia.
    + simpl. apply Z.mod_1_r.
    + unfold Float.emax, Float.prec in *. lia.
    + unfold Float.emax, Float.prec in *. lia.
  - (* 53 < d *)
    apply binary_round_aux_exact; cbn [Zdigits2]; fold d;
      rewrite ?Z.add_0_r, ?fexp_eq by lia;
      replace (Z.max 0 (d - 53 - 0)) with (d - 53) by lia.
    + apply Z.mod_divide; [apply Z.pow_nonzero; lia|].
      exists (M * 2 ^ (E - (d - 53))). rewrite Hp, <- Z.mul_assoc.
      rewrite <- Z.pow_add_r by lia. f_equal. f_equal. lia.
    + unfold Float.emax, Float.prec in *. lia.
    + unfold Float.emax, Float.prec in *. lia.
  - (* d < 53 *)
    assert (D : Zdigits2 (Zpos (Pos.iter xO p k)) = 53).
    { apply Zdigits2_unique. rewrite iter_xO.
      assert (0 < 2 ^ Zpos k) by (apply Z.pow_pos_nonneg; lia).
      replace (53 - 1) with (d - 1 + Zpos k) by lia.
      replace (2 ^ 53) with (2 ^ (d + Zpos k)) by (f_equal; lia).
      rewrite (Z.pow_add_r 2 (d - 1) (Zpos k)), (Z.pow_add_r 2 d (Zpos k)) by lia.
      nia. }
    apply binary_round_aux_exact; rewrite D;
      replace (53 + (d - 53)) with d by lia;
      rewrite ?fexp_eq by lia;
      replace (Z.max 0 (d - 53 - (d - 53))) with 0 by lia.
    + simpl. apply Z.mod_1_r.
    + unfold Float.emax. lia.
    + unfold Float.emax, Float.prec. lia.
Qed.

Lemma of_int_exact n M E :
  0 <= M < 2 ^ Float.prec -> 0 <= E <= Float.emax - Float.prec ->
  Z.abs n = M * 2 ^ E ->
  exists nf, Float.of_int n = Py.Ok nf.
Proof.
  intros HM HE Hn. unfold Float.of_int.
  assert (P : 0 < 2 ^ E) by (apply Z.pow_pos_nonneg; lia).
  destruct n as [|p|p]; cbn [binary_normalize Z.abs] in *.
  - eexists. reflexivity.
  - rewrite (binary_round_exact false p M E); [eexists; reflexivity| |lia|exact Hn].
    nia.
  - rewrite (binary_round_exact true p M E); [eexists; reflexivity| |lia|exact Hn].
    nia.
Qed.

Lemma div_half_even_bounds a b :
  0 <= a -> 2 <= b -> 0 <= Float.div_half_even a b <= a / 2 + 1.
Proof.
  intros Ha Hb. unfold Float.div_half_even.
  assert (Q : 0 <= a / b <= a / 2).
  { split; [apply Z.div_pos; lia|]. apply Z.div_le_compat_l; lia. }
  destruct (2 * (a mod b) ?= b); [destruct (Z.even _)| |]; lia.
Qed.

Lemma scaled_round_int m e :
  Zpos m < 2 ^ Float.prec -> e <= Float.emax - Float.prec ->
  exists M E, 0 <= M < 2 ^ Float.prec /\ 0 <= E <= Float.emax - Float.prec
              /\ Float.scaled_round m e 1 = M * 2 ^ E.
Proof.
  intros Hm He. unfold Float.scaled_round.
  destruct (Z.leb_spec 0 e).
  - exists (Zpos m), e. split; [lia|]. split; [lia|]. lia.
  - exists (Float.div_half_even (Zpos m * 1) (2 ^ (- e))), 0.
    assert (2 <= 2 ^ (- e)).
    { change 2 with (2 ^ 1) at 1. apply Z.pow_le_mono_r; lia. }
    pose proof (div_half_even_bounds (Zpos m * 1) (2 ^ (- e)) ltac:(lia) ltac:(lia)).
    assert (Zpos m * 1 / 2 + 1 < 2 ^ Float.prec).
    { unfold Float.prec in *.
      assert (Zpos m * 1 / 2 < 2 ^ 52); [|change (2 ^ 53) with (2 * 2 ^ 52); lia].
      apply Z.div_lt_upper_bound; [lia|]. change (2 * 2 ^ 52) with (2 ^ 53). lia. }
    split; [lia|]. split; [unfold Float.emax, Float.prec; lia|]. simpl. lia.
Qed.

Lemma round_of_int x :
  Float.is_finite x = true ->
  (forall s m e, x = S754_finite s m e ->
                 Zpos m < 2 ^ Float.prec /\ e <= Float.emax - Float.prec) ->
  exists n nf, Float.round x = Py.Ok n /\ Float.of_int n = Py.Ok nf.
Proof.
  intros Hf Hb. destruct x as [s|s| |s m e]; try discriminate.
  - exists 0. eexists. split; reflexivity.
  - destruct (Hb s m e eq_refl) as [Hm He].
    destruct (scaled_round_int m e Hm He) as (M & E & HM & HE & HS).
    cbn [Float.round]. eexists.
    destruct (of_int_exact (if s then - Float.scaled_round m e 1
                                 else Float.scaled_round m e 1) M E HM HE)
      as [nf Hnf].
    + destruct s; rewrite HS; [rewrite Z.abs_opp|]; apply Z.abs_eq;
        apply Z.mul_nonneg_nonneg; try lia; apply Z.pow_nonneg; lia.
    + exists nf. split; [reflexivity|exact Hnf].
Qed.

Lemma mul_round_of_int q r :
  Float.is_finite (Float.mul q r) = true ->
  exists n nf, Float.round (Float.mul q r) = Py.Ok n /\ Float.of_int n = Py.Ok nf.
Proof.
  intros H. apply round_of_int; [exact H|]. intros s m e. apply mul_bounds.
Qed.

End Binary64.

Lemma format_quantity_not_finite x :
  Float.is_finite x = false -> Py.raises (format_quantity x) = true.
Proof. destruct x; simpl; congruence. Qed.

Lemma format_quantity_rule x n nf :
  Float.round x = Py.Ok n -> Float.of_int n = Py.Ok nf ->
  format_quantity x
  = Py.Ok (if Float.ltb (Float.abs (Float.sub x nf)) Float.lit_1e_6
           then Str.of_int n
           else Str.rstrip_char "." (Str.rstrip_char "0" (Float.format_2f x))).
Proof.
  intros Hr Hf. unfold format_quantity. rewrite Hr. cbn [Py.bind].
  rewrite Hf. cbn [Py.bind]. now destruct (Float.ltb _ _).
Qed.

Lemma zero_fraction_line_unchanged num den rest ratio :
  num <> [] -> den <> [] ->
  forallb Str.isdigit num = true -> forallb Str.isdigit den = true ->
  digits_value den = 0 -> boundary_remainder rest = true ->
  let line := Str.of_chars (num ++ "/"%char :: den ++ rest) in
  Str.strip line = line ->
  _scale_ingredient_line line ratio = Py.Ok line.
Proof.
  intros Hn Hd Hnum Hden Hz Hrest line Hs.
  pose proof (fraction_match num den rest Hn Hd Hnum Hden Hrest) as Hm.
  fold line in Hm. rewrite <- Hs in Hm.
  rewrite (scale_caught line ratio _ Hm); [now rewrite Hs|].
  cbn [Re.group Nat.eqb]. rewrite strip_fraction by assumption.
  now rewrite fraction_zero_denominator.
Qed.

Lemma zero_mixed_line_unchanged a num den rest ratio :
  a <> [] -> num <> [] -> den <> [] ->
  forallb Str.isdigit a = true ->
  forallb Str.isdigit num = true -> forallb Str.isdigit den = true ->
  digits_value den = 0 -> boundary_remainder rest = true ->
  let line :=
    Str.of_chars (a ++ " "%char :: num ++ "/"%char :: den ++ rest) in
  Str.strip line = line ->
  _scale_ingredient_line line ratio = Py.Ok line.
Proof.
  intros Ha Hn Hd Hda Hnum Hden Hz Hrest line Hs.
  pose proof (mixed_match a num den rest Ha Hn Hd Hda Hnum Hden Hrest) as Hm.
  fold line in Hm. rewrite <- Hs in Hm.
  rewrite (scale_caught line ratio _ Hm); [now rewrite Hs|].
  cbn [Re.group Nat.eqb]. rewrite strip_mixed by assumption.
  now rewrite mixed_zero_denominator.
Qed.

Lemma integer_quantity ds :
  ds <> [] -> forallb Str.isdigit ds = true ->
  frac_to_float (Str.strip (Str.of_chars ds))
  = Py.Ok (Float.of_decimal false (digits_value ds) 0).
Proof.
  intros Hne H. rewrite strip_digits by assumption.
  unfold frac_to_float, Str.contains. rewrite chars_of_chars.
  rewrite !existsb_digits by (assumption || reflexivity).
  now apply float_of_digits.
Qed.

(* ================================================================== *)
(** * The claims *)

(** ** C1: the empty query *)

(** C1, counterexample: on the store that holds the one sample record,
    [search("")] returns that record and not the empty sequence. *)
Lemma search_empty_query_returns_rows :
  search "" clock0 one_recipe_db
  = Py.Ok [Recipe.Make (Some 1) "Pancakes" (Recipe.ingredients pancakes)
             (Recipe.instructions pancakes) (Recipe.tags pancakes) 4
             "2024-05-01T12:00:00"]
  /\ search "" clock0 one_recipe_db <> Py.Ok [].
Proof. split; [vm_compute; reflexivity | vm_compute; discriminate]. Qed.

(** C1 (amended): for every repository state, [search] with the empty
    string returns every record, the same sequence as [list_all] under the
    same readings of the clock: the pattern of the query is then [%%], which
    matches every title.  The routing of empty queries to [list_all] is done
    by the caller [_on_search], not by [search]. *)
Theorem search_empty_query_lists_all (clock : Clock) (db : Conn) :
  search "" clock db = list_all clock db.
Proof.
  unfold search, list_all. change ("%" +:+ "" +:+ "%") with "%%".
  change (Sqlite.max_like_pattern <? Sqlite.utf8_length "%%") with false.
  cbn iota. f_equal. f_equal. apply filter_all. intros r.
  unfold search_where, Sqlite.like_op. rewrite like_everything.
  destruct (Row.tags r), (Row.ingredients r); reflexivity.
Qed.

(** ** C2: unparsable servings on import *)

(** C2, counterexample: in a batch of three rows whose second row has the
    servings text [two], the import raises [ValueError]; only the first row
    is created, and no count is returned. *)
Lemma import_unparsable_servings_counterexample :
  import_csv clock0 [toast_row; soup_row; salad_row] empty_db
  = (fst (add toast empty_db), Py.Raise Py.ValueError)
  /\ length (table (fst (add toast empty_db))) = 1%nat.
Proof. split; vm_compute; reflexivity. Qed.

(** C2 (amended): when the rows [pre] are imported with a count, a next row
    that is not skipped (its title is not blank) and whose servings field is
    a non-empty text that [int] refuses makes the import raise
    [ValueError]: the rows of [pre] stay created, the row itself and the
    rows after it are not processed, and no count is returned.  A servings
    field that is [None] or empty defaults to 1. *)
Theorem import_unparsable_servings_aborts (clock : Clock)
  (pre post : list csv_row) (bad : csv_row) (db db' : Conn) (n : Z) :
  import_csv clock pre db = (db', Py.Ok n) ->
  servings_unparsable_row bad = true ->
  import_csv clock (pre ++ bad :: post) db = (db', Py.Raise Py.ValueError)
  /\ import_servings None = Py.Ok 1
  /\ import_servings (Some "") = Py.Ok 1.
Proof.
  unfold import_csv. intros Hpre Hbad. split; [|split; reflexivity].
  destruct (import_loop_count _ _ _ _ _ _ Hpre) as (k' & ->).
  rewrite (import_loop_app _ _ _ _ _ _ _ Hpre). cbn [import_loop].
  now rewrite unparsable_row_raises.
Qed.

Lemma import_unparsable_servings_aborts_witness :
  import_csv clock0 [toast_row] empty_db = (fst (add toast empty_db), Py.Ok 1)
  /\ servings_unparsable_row soup_row = true
  /\ import_csv clock0 ([toast_row] ++ soup_row :: [salad_row]) empty_db
     = (fst (add toast empty_db), Py.Raise Py.ValueError).
Proof.
  assert (H1 : import_csv clock0 [toast_row] empty_db
               = (fst (add toast empty_db), Py.Ok 1))
    by (vm_compute; reflexivity).
  assert (H2 : servings_unparsable_row soup_row = true)
    by (vm_compute; reflexivity).
  split; [exact H1|]. split; [exact H2|].
  exact (proj1 (import_unparsable_servings_aborts clock0 [toast_row]
                  [salad_row] soup_row empty_db _ 1 H1 H2)).
Defined.

(** ** C3: the word boundary after the quantity *)

(** C3, counterexample: the lines [2cups milk] and [2nd try] do not match,
    so no leading quantity is found and the line comes back unchanged; only
    [2 cups milk] yields the quantity 2. *)
Lemma quantity_glued_to_letters_unmatched :
  Re.rmatch quantity_pattern "2cups milk" = None
  /\ Re.rmatch quantity_pattern "2nd try" = None
  /\ _scale_ingredient_line "2cups milk" two = Py.Ok "2cups milk"
  /\ Re.rmatch quantity_pattern "2 cups milk"
     = Some [(2%nat, " cups milk"); (1%nat, "2")].
Proof. repeat split; vm_compute; reflexivity. Qed.

(** C3 (amended): the match needs a word boundary after the quantity.  For a
    trimmed line that starts with the digits [ds]: when a word character
    other than a digit (a letter, the underscore) follows the digits, there
    is no match at all; when the remainder is a plain one (it is empty or
    starts with a character that is not a word character, and no fraction,
    decimal part or mixed-number fraction follows), the first group is [ds],
    the second group is the whole remainder and the quantity is the value of
    [ds]. *)
Theorem quantity_needs_word_boundary (ds rest : list ascii) :
  ds <> [] -> forallb Str.isdigit ds = true ->
  (forall c tail, rest = c :: tail -> Str.isdigit c = false ->
                  Str.isword c = true ->
     Re.rmatch quantity_pattern (Str.of_chars (ds ++ rest)) = None)
  /\ (plain_remainder rest = true ->
      Re.rmatch quantity_pattern (Str.of_chars (ds ++ rest))
      = Some [(2%nat, Str.of_chars rest); (1%nat, Str.of_chars ds)]
      /\ frac_to_float (Str.strip (Str.of_chars ds))
         = Py.Ok (Float.of_decimal false (digits_value ds) 0)).
Proof.
  intros Hne Hds. split.
  - intros c tail -> Hc Hw. now apply no_boundary_no_match.
  - intros Hp. split; [now apply plain_remainder_match|].
    now apply integer_quantity.
Qed.

Lemma quantity_needs_word_boundary_witness :
  Re.rmatch quantity_pattern "2cups milk" = None
  /\ Re.rmatch quantity_pattern "2 cups milk"
     = Some [(2%nat, " cups milk"); (1%nat, "2")]
  /\ frac_to_float (Str.strip "2") = Py.Ok two.
Proof.
  assert (Hne : ["2"%char] <> []) by discriminate.
  assert (Hds : forallb Str.isdigit ["2"%char] = true) by reflexivity.
  split; [|split].
  - exact (proj1 (quantity_needs_word_boundary ["2"%char]
                    (Str.chars "cups milk") Hne Hds)
             "c"%char (Str.chars "ups milk") eq_refl eq_refl eq_refl).
  - exact (proj1 (proj2 (quantity_needs_word_boundary ["2"%char]
                           (Str.chars " cups milk") Hne Hds) eq_refl)).
  - exact (proj2 (proj2 (quantity_needs_word_boundary ["2"%char]
                           (Str.chars " cups milk") Hne Hds) eq_refl)).
Defined.

(** ** C4: the layout of the scaled line *)

(** C4, counterexample: scaling the line [2] by 2.0 yields [4] followed by
    a space. *)
Lemma scaled_line_trailing_space :
  _scale_ingredient_line "2" two = Py.Ok "4 "
  /\ _scale_ingredient_line "2" two <> Py.Ok "4".
Proof. split; [vm_compute; reflexivity | vm_compute; discriminate]. Qed.

(** C4 (amended): for every line with a parsed leading quantity whose
    scaled value is rendered as [f], the result is [f], one space and the
    trimmed remainder; when the remainder is empty the result is [f]
    followed by that space. *)
Theorem scaled_line_layout (line : string) (ratio : Float.float)
  (m : list (nat * string)) (q : Float.float) (f : string) :
  Re.rmatch quantity_pattern (Str.strip line) = Some m ->
  frac_to_float (Str.strip (Re.group 1 m)) = Py.Ok q ->
  format_quantity (Float.mul q ratio) = Py.Ok f ->
  _scale_ingredient_line line ratio
  = Py.Ok (f +:+ " " +:+ Str.strip (Re.group 2 m))
  /\ (Str.strip (Re.group 2 m) = "" ->
      _scale_ingredient_line line ratio = Py.Ok (f +:+ " ")).
Proof.
  intros Hm Hq Hf. pose proof (scale_rendered line ratio m q f Hm Hq Hf) as H.
  split; [exact H|]. intros E. now rewrite H, E.
Qed.

Lemma scaled_line_layout_witness :
  _scale_ingredient_line "2" two = Py.Ok ("4" +:+ " ").
Proof.
  refine (proj2 (scaled_line_layout "2" two [(2%nat, ""); (1%nat, "2")]
                   two "4" _ _ _) _);
    vm_compute; reflexivity.
Defined.

(** ** C5: servings on the read path *)

(** C5, counterexample: a stored row whose servings is the text [two] does
    not decode to servings 1: the decode raises [ValueError]. *)
Lemma decode_non_numeric_servings_raises :
  _row_to_recipe "2024-05-01T12:00:00" (Some soup_stored)
  = Py.Raise Py.ValueError.
Proof. vm_compute. reflexivity. Qed.

(** C5 (amended): on the read path, a servings value that is false for
    [or] (NULL, the integer or real zero, the empty text, the empty blob)
    is converted to the default 1 without raising, and a row that decodes
    then has servings 1; a non-empty servings text or blob that [int]
    refuses makes the decode of the row fail ([int] raises
    [ValueError]). *)
Theorem decode_servings_default_or_raise (now : string) (row : Row.t) :
  (servings_defaults (Row.servings row) = true ->
   decode_servings (Row.servings row) = Py.Ok 1
   /\ forall r, _row_to_recipe now (Some row) = Py.Ok r ->
                Recipe.servings r = 1)
  /\ (servings_unparsable (Row.servings row) = true ->
      decode_servings (Row.servings row) = Py.Raise Py.ValueError
      /\ Py.is_ok (_row_to_recipe now (Some row)) = false).
Proof.
  split.
  - intros H.
    assert (E : decode_servings (Row.servings row) = Py.Ok 1).
    { destruct (Row.servings row) as [|n|x|s|b]; simpl in *.
      - reflexivity.
      - now rewrite H.
      - now rewrite H.
      - apply negb_true_iff in H. now rewrite H.
      - now destruct b. }
    split; [exact E|]. unfold _row_to_recipe. rewrite E.
    destruct (decode_ingredients _); cbn [Py.bind]; try discriminate.
    intros r [= <-]. reflexivity.
  - intros H.
    assert (E : decode_servings (Row.servings row) = Py.Raise Py.ValueError).
    { destruct (Row.servings row) as [|n|x|s|b]; simpl in *;
        try discriminate.
      - apply andb_prop in H as [-> H].
        destruct (Str.to_int s) as [|[]|]; try discriminate. reflexivity.
      - destruct b as [|c b]; [discriminate|].
        destruct (int_of_bytes (c :: b)) as [|[]|]; try discriminate.
        reflexivity. }
    split; [exact E|]. unfold _row_to_recipe. rewrite E.
    destruct (decode_ingredients _); reflexivity.
Qed.

Lemma decode_servings_default_or_raise_witness :
  servings_defaults (Row.servings tea_stored) = true
  /\ decode_servings (Row.servings tea_stored) = Py.Ok 1
  /\ servings_unparsable (Row.servings soup_stored) = true
  /\ decode_servings (Row.servings soup_stored) = Py.Raise Py.ValueError.
Proof.
  split; [reflexivity|]. split.
  - exact (proj1 (proj1 (decode_servings_default_or_raise "" tea_stored)
                    eq_refl)).
  - split; [vm_compute; reflexivity|].
    refine (proj1 (proj2 (decode_servings_default_or_raise "" soup_stored) _)).
    vm_compute. reflexivity.
Defined.

(** ** C6: the rendering of the scaled quantity *)

(** C6, counterexample: the quantity of [big_line] is the finite float
    [1e308] and the ratio is 10.0, yet their product is infinite, [round]
    raises, and the line comes back as it was instead of a rendering of the
    product. *)
Lemma scaled_quantity_overflow_unrendered :
  exists m q,
    Re.rmatch quantity_pattern (Str.strip big_line) = Some m
    /\ frac_to_float (Str.strip (Re.group 1 m)) = Py.Ok q
    /\ Float.is_finite q = true
    /\ Float.mul q ten = SpecFloat.S754_infinity false
    /\ format_quantity (Float.mul q ten) = Py.Raise Py.OverflowError
    /\ _scale_ingredient_line big_line ten = Py.Ok big_line.
Proof.
  eexists. eexists. split; [vm_compute; reflexivity|].
  split; [vm_compute; reflexivity|]. vm_compute. auto.
Qed.

(** C6 (amended): for every line with a parsed leading quantity [q] and
    every ratio such that [q * ratio] is finite, the product has a nearest
    integer [n], and the quantity is rendered as the bare integer [n],
    without a decimal point, when [q * ratio] is within [1e-6] of [n], and
    otherwise with exactly two decimal places from which trailing zeros and
    a trailing point are stripped; in particular the two lines of the
    specification scale as stated.  When [q * ratio] is infinite or not a
    number, [round] raises inside the [try] block and the trimmed line comes
    back unchanged. *)
Theorem scaled_quantity_rendering :
  (forall (line : string) (ratio : Float.float) (m : list (nat * string))
          (q : Float.float),
      Re.rmatch quantity_pattern (Str.strip line) = Some m ->
      frac_to_float (Str.strip (Re.group 1 m)) = Py.Ok q ->
      (Float.is_finite (Float.mul q ratio) = true ->
       exists (n : Z) (nf : Float.float),
         Float.round (Float.mul q ratio) = Py.Ok n
         /\ Float.of_int n = Py.Ok nf
         /\ _scale_ingredient_line line ratio
            = Py.Ok ((if Float.ltb (Float.abs (Float.sub (Float.mul q ratio) nf))
                                   Float.lit_1e_6
                      then Str.of_int n
                      else Str.rstrip_char "." (Str.rstrip_char "0"
                             (Float.format_2f (Float.mul q ratio))))
                     +:+ " " +:+ Str.strip (Re.group 2 m))
         /\ Str.contains "." (Str.of_int n) = false
         /\ two_decimals (Float.format_2f (Float.mul q ratio)) = true)
      /\ (Float.is_finite (Float.mul q ratio) = false ->
          _scale_ingredient_line line ratio = Py.Ok (Str.strip line)))
  /\ _scale_ingredient_line "1/3 tsp salt" three = Py.Ok "1 tsp salt"
  /\ _scale_ingredient_line "2 cups milk" two = Py.Ok "4 cups milk".
Proof.
  split; [|split; vm_compute; reflexivity].
  intros line ratio m q Hm Hq. split.
  - intros Hfin.
    destruct (mul_round_of_int q ratio Hfin) as (n & nf & Hr & Hf).
    exists n, nf. repeat split; auto.
    + apply (scale_rendered line ratio m q); auto.
      now apply format_quantity_rule.
    + apply str_of_int_no_point.
    + now apply format_2f_shape.
  - intros Hinf. apply (scale_not_rendered line ratio m q); auto.
    now apply format_quantity_not_finite.
Qed.

Lemma scaled_quantity_rendering_witness :
  (exists n nf,
      Float.round (Float.mul (Float.of_decimal false 15 (-1)) three) = Py.Ok n
      /\ Float.of_int n = Py.Ok nf
      /\ _scale_ingredient_line "1 1/2 cups flour" three
         = Py.Ok ((if Float.ltb
                        (Float.abs
                           (Float.sub
                              (Float.mul (Float.of_decimal false 15 (-1)) three)
                              nf))
                        Float.lit_1e_6
                   then Str.of_int n
                   else Str.rstrip_char "." (Str.rstrip_char "0"
                          (Float.format_2f
                             (Float.mul (Float.of_decimal false 15 (-1))
                                        three))))
                  +:+ " " +:+ "cups flour"))
  /\ _scale_ingredient_line big_line ten = Py.Ok (Str.strip big_line).
Proof.
  split.
  - destruct (proj1 (proj1 scaled_quantity_rendering "1 1/2 cups flour" three
                       [(2%nat, " cups flour"); (1%nat, "1 1/2")]
                       (Float.of_decimal false 15 (-1))
                       ltac:(vm_compute; reflexivity)
                       ltac:(vm_compute; reflexivity))
                ltac:(vm_compute; reflexivity))
      as (n & nf & Hr & Hf & Hs & _).
    exists n, nf. split; [exact Hr|]. split; [exact Hf|]. exact Hs.
  - refine (proj2 (proj1 scaled_quantity_rendering big_line ten
                     [(2%nat, " cups"); (1%nat, Str.of_chars ("1"%char :: zeros 308))]
                     (Float.of_decimal false (10 ^ 308) 0) _ _) _);
      vm_compute; reflexivity.
Defined.

(** ** C7: export, then import *)




(** ** C8: legacy and structured ingredient texts *)

(** C8, counterexample: the one legacy line [[]] is a non-blank trimmed
    line, but the stored legacy text is then itself a JSON document: it
    decodes to the empty list, while the structured encoding of the same
    line decodes to the list holding that line. *)
Lemma legacy_text_that_is_json :
  forallb clean_line ["[]"] = true
  /\ decode_ingredients (Some (Str.join newline ["[]"])) = Py.Ok (PyList [])
  /\ Py.bind (Json.dumps (py_strs ["[]"]))
             (fun json => decode_ingredients (Some json))
     = Py.Ok (py_strs ["[]"])
  /\ PyList [] <> py_strs ["[]"].
Proof. repeat split; try (vm_compute; reflexivity). vm_compute. discriminate. Qed.

(** C8 (amended): for every sequence of non-blank trimmed lines, none of
    which contains a line boundary, such that the JSON decoder refuses
    their newline-separated text, a stored row holding that legacy text
    decodes to the same ordered ingredient sequence as the stored row
    holding the structured encoding written by [json.dumps]: both decode to
    the lines themselves. *)
Theorem legacy_lines_decode_like_structured (l : list string) (now : string)
  (row : Row.t) :
  forallb clean_line l = true ->
  Py.raises (Json.loads (Str.join newline l)) = true ->
  exists json,
    Json.dumps (py_strs l) = Py.Ok json
    /\ decode_ingredients (Some (Str.join newline l)) = Py.Ok (py_strs l)
    /\ decode_ingredients (Some json) = Py.Ok (py_strs l)
    /\ _row_to_recipe now
         (Some (with_ingredients row (Some (Str.join newline l))))
       = _row_to_recipe now (Some (with_ingredients row (Some json))).
Proof.
  intros Hl Hr. eexists. split; [apply dumps_strs|].
  pose proof (decode_legacy l Hl Hr) as H1.
  pose proof (decode_structured l _ (dumps_strs l)) as H2.
  repeat split; auto.
  unfold _row_to_recipe, with_ingredients. cbn [Row.ingredients].
  now rewrite H1, H2.
Qed.

Lemma legacy_lines_decode_like_structured_witness :
  forallb clean_line ["2 cups flour"; "1 egg"] = true
  /\ Py.raises (Json.loads (Str.join newline ["2 cups flour"; "1 egg"])) = true
  /\ decode_ingredients (Some (Str.join newline ["2 cups flour"; "1 egg"]))
     = Py.Ok (py_strs ["2 cups flour"; "1 egg"]).
Proof.
  assert (H1 : forallb clean_line ["2 cups flour"; "1 egg"] = true)
    by reflexivity.
  assert (H2 : Py.raises (Json.loads (Str.join newline
                                       ["2 cups flour"; "1 egg"])) = true)
    by (vm_compute; reflexivity).
  split; [exact H1|]. split; [exact H2|].
  destruct (legacy_lines_decode_like_structured ["2 cups flour"; "1 egg"]
              "" tea_stored H1 H2) as (json & _ & H & _).
  exact H.
Defined.

(** ** C9: the helper never raises *)

(** C9: [_scale_ingredient_line] returns a string for every line and every
    ratio.  Whenever the conversion of the quantity raises, the trimmed line
    comes back, as when no quantity is found; a fraction and a mixed number
    with a zero denominator raise [ZeroDivisionError] inside the helper, and
    a trimmed line that starts with one comes back unchanged. *)
Theorem scale_never_raises :
  (forall line ratio, exists out, _scale_ingredient_line line ratio = Py.Ok out)
  /\ (forall line ratio m,
        Re.rmatch quantity_pattern (Str.strip line) = Some m ->
        Py.raises (frac_to_float (Str.strip (Re.group 1 m))) = true ->
        _scale_ingredient_line line ratio = Py.Ok (Str.strip line))
  /\ (forall num den rest ratio,
        num <> [] -> den <> [] ->
        forallb Str.isdigit num = true -> forallb Str.isdigit den = true ->
        digits_value den = 0 -> boundary_remainder rest = true ->
        let line := Str.of_chars (num ++ "/"%char :: den ++ rest) in
        Str.strip line = line ->
        frac_to_float (Str.of_chars (num ++ "/"%char :: den))
        = Py.Raise Py.ZeroDivisionError
        /\ _scale_ingredient_line line ratio = Py.Ok line)
  /\ (forall a num den rest ratio,
        a <> [] -> num <> [] -> den <> [] ->
        forallb Str.isdigit a = true ->
        forallb Str.isdigit num = true -> forallb Str.isdigit den = true ->
        digits_value den = 0 -> boundary_remainder rest = true ->
        let line :=
          Str.of_chars (a ++ " "%char :: num ++ "/"%char :: den ++ rest) in
        Str.strip line = line ->
        frac_to_float (Str.of_chars (a ++ " "%char :: num ++ "/"%char :: den))
        = Py.Raise Py.ZeroDivisionError
        /\ _scale_ingredient_line line ratio = Py.Ok line).
Proof.
  split; [exact scale_total|]. split; [exact scale_caught|]. split.
  - intros. split; [now apply fraction_zero_denominator|].
    now apply zero_fraction_line_unchanged.
  - intros. split; [now apply mixed_zero_denominator|].
    now apply zero_mixed_line_unchanged.
Qed.

Lemma scale_never_raises_witness :
  frac_to_float "1/0" = Py.Raise Py.ZeroDivisionError
  /\ _scale_ingredient_line "1/0 cup" three = Py.Ok "1/0 cup"
  /\ _scale_ingredient_line "2 1/0 cup" three = Py.Ok "2 1/0 cup".
Proof.
  split; [|split].
  - refine (proj1 (proj1 (proj2 (proj2 scale_never_raises))
                     ["1"%char] ["0"%char] (Str.chars " cup") three
                     _ _ _ _ _ _ _));
      try discriminate; reflexivity.
  - refine (proj2 (proj1 (proj2 (proj2 scale_never_raises))
                     ["1"%char] ["0"%char] (Str.chars " cup") three
                     _ _ _ _ _ _ _));
      try discriminate; reflexivity.
  - refine (proj2 (proj2 (proj2 (proj2 scale_never_raises))
                     ["2"%char] ["1"%char] ["0"%char] (Str.chars " cup") three
                     _ _ _ _ _ _ _ _ _));
      try discriminate; reflexivity.
Defined.

(** ** C10: the case of the query *)

(** C10: for every repository state and any two queries that are equal up
    to the case of ASCII letters, [search] returns the same sequence of
    records (under the same readings of the clock): LIKE folds the case of
    ASCII letters, in the pattern as in the columns. *)
Theorem search_ascii_case_insensitive (q1 q2 : string) (clock : Clock)
  (db : Conn) :
  ascii_fold q1 = ascii_fold q2 ->
  search q1 clock db = search q2 clock db.
Proof.
  intros E. apply fold_pattern in E. unfold search.
  rewrite (utf8_length_fold _ _ E).
  destruct (_ <? _); [reflexivity|]. f_equal. f_equal.
  apply filter_ext. intros r. unfold search_where, Sqlite.like_op.
  rewrite (like_fold _ _ (Row.title r) E).
  destruct (Row.tags r) as [t|], (Row.ingredients r) as [i|];
    rewrite ?(like_fold _ _ t E), ?(like_fold _ _ i E); reflexivity.
Qed.

Lemma search_ascii_case_insensitive_witness :
  ascii_fold "pan" = ascii_fold "PAN"
  /\ search "pan" clock0 one_recipe_db = search "PAN" clock0 one_recipe_db.
Proof.
  split; [reflexivity|].
  exact (search_ascii_case_insensitive "pan" "PAN" clock0 one_recipe_db
           eq_refl).
Defined.

(* ================================================================== *)
(** * Further properties of the code *)

(** ** The store: reading a row back *)

Lemma max_id_bound row rows : In row rows -> Row.id row <= max_id rows.
Proof.
  induction rows as [|x rows IH]; simpl; [tauto|].
  intros [->|H]; [lia|]. specialize (IH H). lia.
Qed.

Lemma find_absent rid rows :
  (forall row, In row rows -> Row.id row <> rid) ->
  List.find (fun row => Row.id row =? rid) rows = None.
Proof.
  induction rows as [|x rows IH]; simpl; intros H; [reflexivity|].
  destruct (Z.eqb_spec (Row.id x) rid) as [E|_].
  - exfalso. apply (H x); auto.
  - apply IH. intros row Hr. apply H. auto.
Qed.

Lemma find_app_absent rid rows rest :
  (forall row, In row rows -> Row.id row <> rid) ->
  List.find (fun row => Row.id row =? rid) (rows ++ rest)
  = List.find (fun row => Row.id row =? rid) rest.
Proof.
  induction rows as [|x rows IH]; simpl; intros H; [reflexivity|].
  destruct (Z.eqb_spec (Row.id x) rid) as [E|_].
  - exfalso. apply (H x); auto.
  - apply IH. intros row Hr. apply H. auto.
Qed.

Lemma text_or_some s d : Str.truthy s = true -> text_or (Some s) d = s.
Proof. unfold text_or. now intros ->. Qed.

Lemma text_or_empty s : text_or (Some s) "" = s.
Proof. unfold text_or. destruct s; reflexivity. Qed.

(** What [add] does once the parameters are bound. *)
Lemma add_ok r db ing :
  Json.dumps (Recipe.ingredients r) = Py.Ok ing ->
  Sqlite.fits_int64 (Recipe.servings r) = true ->
  Sqlite.fits_int64 (next_id db) = true ->
  add r db
  = (MkConn (table db ++
             [Row.Make (next_id db) (Recipe.title r) (Some ing)
                (Some (Recipe.instructions r))
                (Some (Str.join "," (Recipe.tags r)))
                (Sqlite.Integer (Recipe.servings r))
                (Some (Recipe.created_at r))])
            (next_id db),
     Py.Ok (next_id db)).
Proof.
  intros Hd Hs Hn. unfold add, Recipe.to_db_tuple. rewrite Hd.
  cbn [Py.bind Recipe.db_servings Recipe.db_title Recipe.db_ingredients
       Recipe.db_instructions Recipe.db_tags Recipe.db_created_at].
  rewrite Hs. fold (next_id db). rewrite Hn. reflexivity.
Qed.

(** Conversely, a successful [add] appended one row. *)
Lemma add_inv r db db' rid :
  add r db = (db', Py.Ok rid) ->
  exists ing,
    Json.dumps (Recipe.ingredients r) = Py.Ok ing
    /\ Sqlite.fits_int64 (Recipe.servings r) = true
    /\ Sqlite.fits_int64 (next_id db) = true
    /\ rid = next_id db
    /\ db' = MkConn (table db ++
                     [Row.Make rid (Recipe.title r) (Some ing)
                        (Some (Recipe.instructions r))
                        (Some (Str.join "," (Recipe.tags r)))
                        (Sqlite.Integer (Recipe.servings r))
                        (Some (Recipe.created_at r))])
                    rid.
Proof.
  unfold add, Recipe.to_db_tuple.
  destruct (Json.dumps (Recipe.ingredients r)) as [ing|e|] eqn:Hd;
    cbn [Py.bind Recipe.db_servings Recipe.db_title Recipe.db_ingredients
         Recipe.db_instructions Recipe.db_tags Recipe.db_created_at];
    try discriminate.
  destruct (Sqlite.fits_int64 (Recipe.servings r)) eqn:Hs; try discriminate.
  fold (next_id db).
  destruct (Sqlite.fits_int64 (next_id db)) eqn:Hn; try discriminate.
  intros [= <- <-]. exists ing. auto.
Qed.

Lemma decode_new_row r ings rid json now :
  str_items (Recipe.ingredients r) = Some ings ->
  Json.dumps (Recipe.ingredients r) = Py.Ok json ->
  _row_to_recipe now
    (Some (Row.Make rid (Recipe.title r) (Some json)
             (Some (Recipe.instructions r))
             (Some (Str.join "," (Recipe.tags r)))
             (Sqlite.Integer (Recipe.servings r))
             (Some (Recipe.created_at r))))
  = Py.Ok (Recipe.Make (Some rid) (Recipe.title r) (Recipe.ingredients r)
             (Recipe.instructions r)
             (split_strip "," (Str.join "," (Recipe.tags r)))
             (if Recipe.servings r =? 0 then 1 else Recipe.servings r)
             (text_or (Some (Recipe.created_at r)) now)).
Proof.
  intros Hi Hd. apply str_items_spec in Hi. rewrite Hi in Hd.
  unfold _row_to_recipe. cbn [Row.ingredients Row.tags Row.servings Row.id
    Row.title Row.instructions Row.created_at].
  rewrite (decode_structured ings json Hd). cbn [Py.bind decode_servings].
  rewrite !text_or_empty, <- Hi. reflexivity.
Qed.

Lemma find_id_some rid rows row :
  List.find (fun row => Row.id row =? rid) rows = Some row ->
  In row rows /\ Row.id row = rid.
Proof.
  intros H. apply find_some in H as [H1 H2]. split; [exact H1|lia].
Qed.

(** X1 ([get]): for an identity within the 64-bit range, [get] returns
    [None] exactly when no row of the table has that identity; it does not
    raise for a missing record. *)
Theorem get_none_iff_absent (rid : Z) (clock : Clock) (db : Conn) :
  Sqlite.fits_int64 rid = true ->
  get rid clock db = Py.Ok None
  <-> (forall row, In row (table db) -> Row.id row <> rid).
Proof.
  intros Hf. unfold get. rewrite Hf. split.
  - intros H row Hin E.
    destruct (List.find _ (table db)) as [x|] eqn:F.
    + destruct (_row_to_recipe _ _); discriminate.
    + apply (find_none _ _ F) in Hin. lia.
  - intros H. now rewrite find_absent.
Qed.

Lemma get_none_iff_absent_witness :
  get 2 clock0 one_recipe_db = Py.Ok None.
Proof.
  apply (proj2 (get_none_iff_absent 2 clock0 one_recipe_db eq_refl)).
  intros row [<-|[]]. vm_compute. discriminate.
Defined.

Lemma fresh_id_absent db row : In row (table db) -> Row.id row <> next_id db.
Proof.
  intros H. apply max_id_bound in H. unfold next_id. lia.
Qed.

Lemma get_last rid clock rows seq row :
  Sqlite.fits_int64 rid = true ->
  (forall x, In x rows -> Row.id x <> rid) ->
  Row.id row = rid ->
  get rid clock (MkConn (rows ++ [row]) seq)
  = Py.bind (_row_to_recipe (clock 0%nat) (Some row)) (fun r => Py.Ok (Some r)).
Proof.
  intros Hf Ha Hr. unfold get. rewrite Hf. cbn [table].
  rewrite find_app_absent by assumption. cbn [List.find].
  rewrite Hr, Z.eqb_refl. reflexivity.
Qed.

Lemma stored_as_is_spec r :
  stored_as_is r = true ->
  exists ings,
    str_items (Recipe.ingredients r) = Some ings
    /\ forallb (clean_item ",") (Recipe.tags r) = true
    /\ Recipe.servings r <> 0
    /\ Sqlite.fits_int64 (Recipe.servings r) = true.
Proof.
  unfold stored_as_is. destruct (str_items _) as [ings|]; [|discriminate].
  intros H. apply andb_prop in H as [H H3]. apply andb_prop in H as [H1 H2].
  exists ings. repeat split; auto. apply negb_true_iff in H2. lia.
Qed.

(** X2 ([add], [get], [to_db_tuple], [_row_to_recipe]): a record whose
    ingredients are a list of strings, whose tags are non-empty, trimmed
    and free of commas, whose servings are not zero and fit 64 bits and
    whose creation time is not empty is stored by [add] (while a rowid
    within 64 bits is left) and read back by [get] under the new identity
    exactly as it was written. *)
Theorem add_then_get (r : Recipe.t) (clock : Clock) (db : Conn) :
  stored_as_is r = true ->
  Str.truthy (Recipe.created_at r) = true ->
  Sqlite.fits_int64 (next_id db) = true ->
  exists db' rid,
    add r db = (db', Py.Ok rid)
    /\ get rid clock db' = Py.Ok (Some (with_id r rid)).
Proof.
  intros Hs Hc Hn.
  destruct (stored_as_is_spec r Hs) as (ings & Hi & Ht & Hz & Hf).
  pose proof (str_items_spec _ _ Hi) as Hv.
  pose proof (dumps_strs ings) as Hd. rewrite <- Hv in Hd.
  eexists. exists (next_id db).
  split; [apply (add_ok r db _ Hd Hf Hn)|].
  rewrite get_last; auto using fresh_id_absent.
  rewrite (decode_new_row r ings _ _ _ Hi Hd). cbn [Py.bind].
  rewrite split_strip_join by assumption.
  rewrite text_or_some by assumption.
  destruct (Z.eqb_spec (Recipe.servings r) 0); [contradiction|]. reflexivity.
Qed.

Lemma add_then_get_witness :
  exists db' rid,
    add pancakes empty_db = (db', Py.Ok rid)
    /\ get rid clock0 db' = Py.Ok (Some (with_id pancakes rid)).
Proof.
  apply (add_then_get pancakes clock0 empty_db); reflexivity.
Defined.

(** X3 ([add], [get]): whatever the tags and the servings, a record with
    a list of strings as ingredients that [add] stored is read back with
    the same title, ingredients and instructions; its tags are trimmed and
    the empty ones dropped, servings 0 read back as 1, and an empty
    creation time is replaced by the reading of the clock. *)
Theorem add_then_get_normalises (r : Recipe.t) (clock : Clock) (db db' : Conn)
  (rid : Z) (ings : list string) :
  str_items (Recipe.ingredients r) = Some ings ->
  add r db = (db', Py.Ok rid) ->
  get rid clock db'
  = Py.Ok (Some (Recipe.Make (Some rid) (Recipe.title r)
                   (Recipe.ingredients r) (Recipe.instructions r)
                   (split_strip "," (Str.join "," (Recipe.tags r)))
                   (if Recipe.servings r =? 0 then 1 else Recipe.servings r)
                   (if Str.truthy (Recipe.created_at r)
                    then Recipe.created_at r else clock 0%nat))).
Proof.
  intros Hi Ha. apply add_inv in Ha as (ing & Hd & Hs & Hn & -> & ->).
  rewrite get_last; auto using fresh_id_absent.
  rewrite (decode_new_row r ings _ _ _ Hi Hd). reflexivity.
Qed.

Lemma add_then_get_normalises_witness :
  get 2 clock0 (fst (add untidy one_recipe_db))
  = Py.Ok (Some (Recipe.Make (Some 2) "Broth" (py_strs ["water"]) ""
                   ["clear"] 1 "2024-05-01T12:00:00")).
Proof.
  exact (add_then_get_normalises untidy clock0 one_recipe_db
           (fst (add untidy one_recipe_db)) 2 ["water"] eq_refl eq_refl).
Defined.

(** ** The store: update and delete *)

Lemma find_filter_other other rid rows :
  other <> rid ->
  List.find (fun row => Row.id row =? other)
    (List.filter (fun row => negb (Row.id row =? rid)) rows)
  = List.find (fun row => Row.id row =? other) rows.
Proof.
  intros Hne. induction rows as [|x rows IH]; simpl; [reflexivity|].
  destruct (Z.eqb_spec (Row.id x) rid) as [E|E]; simpl.
  - destruct (Z.eqb_spec (Row.id x) other); [lia|exact IH].
  - now rewrite IH.
Qed.

Lemma find_filter_same rid rows :
  List.find (fun row => Row.id row =? rid)
    (List.filter (fun row => negb (Row.id row =? rid)) rows) = None.
Proof.
  apply find_absent. intros row H. apply filter_In in H as [_ H].
  apply negb_true_iff in H. lia.
Qed.

Lemma find_map_update rid (g : Row.t -> Row.t) rows :
  (forall row, Row.id (g row) = Row.id row) ->
  List.find (fun row => Row.id row =? rid)
    (map (fun row => if Row.id row =? rid then g row else row) rows)
  = option_map g (List.find (fun row => Row.id row =? rid) rows).
Proof.
  intros Hg. induction rows as [|x rows IH]; simpl; [reflexivity|].
  destruct (Z.eqb_spec (Row.id x) rid) as [E|E].
  - rewrite Hg. destruct (Z.eqb_spec (Row.id x) rid); [reflexivity|lia].
  - destruct (Z.eqb_spec (Row.id x) rid); [lia|exact IH].
Qed.

Lemma find_map_other other rid (g : Row.t -> Row.t) rows :
  other <> rid ->
  (forall row, Row.id (g row) = Row.id row) ->
  List.find (fun row => Row.id row =? other)
    (map (fun row => if Row.id row =? rid then g row else row) rows)
  = List.find (fun row => Row.id row =? other) rows.
Proof.
  intros Hne Hg. induction rows as [|x rows IH]; simpl; [reflexivity|].
  destruct (Z.eqb_spec (Row.id x) rid) as [E|E].
  - rewrite Hg. destruct (Z.eqb_spec (Row.id x) other); [lia|exact IH].
  - now rewrite IH.
Qed.

Lemma map_update_absent rid (g : Row.t -> Row.t) rows :
  (forall row, In row rows -> Row.id row <> rid) ->
  map (fun row => if Row.id row =? rid then g row else row) rows = rows.
Proof.
  induction rows as [|x rows IH]; simpl; intros H; [reflexivity|].
  destruct (Z.eqb_spec (Row.id x) rid) as [E|E].
  - exfalso. apply (H x); auto.
  - f_equal. apply IH. auto.
Qed.

(** What [update] does once the parameters are bound. *)
Lemma update_ok r rid db ing :
  Recipe.id r = Some rid ->
  Json.dumps (Recipe.ingredients r) = Py.Ok ing ->
  Sqlite.fits_int64 (Recipe.servings r) = true ->
  Sqlite.fits_int64 rid = true ->
  update r db
  = (MkConn
       (map (fun row =>
               if Row.id row =? rid
               then updated_row row (Recipe.title r) ing
                      (Recipe.instructions r)
                      (Str.join "," (Recipe.tags r)) (Recipe.servings r)
               else row)
            (table db))
       (sequence db),
     Py.Ok tt).
Proof.
  intros Hi Hd Hs Hr. unfold update. now rewrite Hi, Hd, Hs, Hr.
Qed.

(** In every case the table after [update] is the table before with the
    rows of one identity rewritten by a function that keeps the identity
    and the creation time. *)
Lemma update_shape r db :
  fst (update r db) = db
  \/ exists rid g,
       Recipe.id r = Some rid
       /\ (forall row, Row.id (g row) = Row.id row
                       /\ Row.created_at (g row) = Row.created_at row)
       /\ fst (update r db)
          = MkConn (map (fun row => if Row.id row =? rid then g row else row)
                        (table db))
                   (sequence db).
Proof.
  unfold update. destruct (Recipe.id r) as [rid|]; [|now left].
  destruct (Json.dumps _) as [ing|e|]; [|now left|now left].
  destruct (_ && _); [|now left].
  right. exists rid. eexists (fun row => updated_row row _ _ _ _ _).
  split; [reflexivity|]. split; [|reflexivity]. intros row. split; reflexivity.
Qed.

Lemma update_frame r db :
  map Row.id (table (fst (update r db))) = map Row.id (table db)
  /\ map Row.created_at (table (fst (update r db)))
     = map Row.created_at (table db)
  /\ sequence (fst (update r db)) = sequence db.
Proof.
  destruct (update_shape r db) as [->|(rid & g & _ & Hg & ->)]; [auto|].
  cbn [table sequence]. repeat split.
  - rewrite map_map. apply map_ext. intros row.
    destruct (Row.id row =? rid); [apply Hg|reflexivity].
  - rewrite map_map. apply map_ext. intros row.
    destruct (Row.id row =? rid); [apply Hg|reflexivity].
Qed.

(** X4 ([delete], [get]): after [delete] of an identity, [get] of that
    identity returns [None], whether or not a row had it, and [get] of
    every other identity returns what it returned before. *)
Theorem delete_then_get (rid : Z) (clock : Clock) (db : Conn) :
  Sqlite.fits_int64 rid = true ->
  exists db',
    delete rid db = (db', Py.Ok tt)
    /\ get rid clock db' = Py.Ok None
    /\ (forall other, other <> rid -> get other clock db' = get other clock db).
Proof.
  intros Hf. unfold delete. rewrite Hf. eexists. split; [reflexivity|]. split.
  - unfold get. rewrite Hf. cbn [table]. now rewrite find_filter_same.
  - intros other Hne. unfold get. cbn [table].
    now rewrite find_filter_other.
Qed.

Lemma delete_then_get_witness :
  exists db',
    delete 1 one_recipe_db = (db', Py.Ok tt)
    /\ get 1 clock0 db' = Py.Ok None
    /\ (forall other, other <> 1 -> get other clock0 db' = get other clock0 one_recipe_db).
Proof. apply (delete_then_get 1 clock0 one_recipe_db). reflexivity. Defined.

(** X5 ([update], [get]): after [update] with a record that has the
    identity of a stored row (ingredients a list of strings, clean tags,
    servings not zero, servings and identity within 64 bits), [get]
    returns the title, ingredients, instructions,
    tags and servings of that record, with the creation time of the stored
    row: the creation time of the record passed to [update] is ignored. *)
Theorem update_then_get (r : Recipe.t) (rid : Z) (clock : Clock) (db : Conn)
  (old : Row.t) :
  Recipe.id r = Some rid ->
  stored_as_is r = true ->
  Sqlite.fits_int64 rid = true ->
  List.find (fun row => Row.id row =? rid) (table db) = Some old ->
  exists db',
    update r db = (db', Py.Ok tt)
    /\ get rid clock db'
       = Py.Ok (Some (Recipe.Make (Some rid) (Recipe.title r)
                        (Recipe.ingredients r) (Recipe.instructions r)
                        (Recipe.tags r) (Recipe.servings r)
                        (text_or (Row.created_at old) (clock 0%nat)))).
Proof.
  intros Hid Hs Hf Hold.
  destruct (stored_as_is_spec r Hs) as (ings & Hi & Ht & Hz & Hfs).
  pose proof (str_items_spec _ _ Hi) as Hv.
  pose proof (dumps_strs ings) as Hd. rewrite <- Hv in Hd.
  eexists. split; [apply (update_ok r rid db _ Hid Hd Hfs Hf)|].
  unfold get. rewrite Hf. cbn [table].
  rewrite find_map_update by reflexivity. rewrite Hold. cbn [option_map].
  apply find_id_some in Hold as [_ Hold].
  unfold _row_to_recipe, updated_row.
  cbn [Row.ingredients Row.tags Row.servings Row.id Row.title
       Row.instructions Row.created_at].
  rewrite Hv in Hd. rewrite (decode_structured ings _ Hd).
  cbn [Py.bind decode_servings]. rewrite !text_or_empty.
  rewrite split_strip_join by assumption. rewrite Hold, <- Hv.
  destruct (Z.eqb_spec (Recipe.servings r) 0); [contradiction|]. reflexivity.
Qed.

Lemma update_then_get_witness :
  exists db',
    update toast_edited two_recipe_db = (db', Py.Ok tt)
    /\ get 2 clock0 db'
       = Py.Ok (Some (Recipe.Make (Some 2) "French toast"
                        (py_strs ["bread"; "egg"]) "Fry." ["quick"] 3
                        "2024-05-01T12:00:00")).
Proof.
  exact (update_then_get toast_edited 2 clock0 two_recipe_db
           (nth 1 (table two_recipe_db) tea_stored)
           eq_refl eq_refl eq_refl eq_refl).
Defined.

(** X6 ([update]): whatever its outcome, [update] keeps the identities,
    the creation times and the order of the rows and hands out no rowid;
    every record with another identity is read back as before; a record
    without identity is refused with [ValueError] and the store is not
    touched.  For a record with an identity and serialisable ingredients
    the only error is [OverflowError], raised exactly when the servings or
    the identity do not fit 64 bits, whether or not a row has the identity;
    an identity that no row has leaves the table as it was, and then,
    servings and identity fitting, [update] returns without raising and
    without any change. *)
Theorem update_keeps_rest (r : Recipe.t) (db : Conn) :
  map Row.id (table (fst (update r db))) = map Row.id (table db)
  /\ map Row.created_at (table (fst (update r db)))
     = map Row.created_at (table db)
  /\ sequence (fst (update r db)) = sequence db
  /\ (forall other clock,
        Recipe.id r <> Some other ->
        get other clock (fst (update r db)) = get other clock db)
  /\ (Recipe.id r = None -> update r db = (db, Py.Raise Py.ValueError))
  /\ (forall rid json,
        Recipe.id r = Some rid ->
        Json.dumps (Recipe.ingredients r) = Py.Ok json ->
        snd (update r db)
        = if Sqlite.fits_int64 (Recipe.servings r) && Sqlite.fits_int64 rid
          then Py.Ok tt else Py.Raise Py.OverflowError)
  /\ (forall rid,
        Recipe.id r = Some rid ->
        (forall row, In row (table db) -> Row.id row <> rid) ->
        table (fst (update r db)) = table db
        /\ (forall json,
              Json.dumps (Recipe.ingredients r) = Py.Ok json ->
              Sqlite.fits_int64 (Recipe.servings r) = true ->
              Sqlite.fits_int64 rid = true ->
              update r db = (db, Py.Ok tt))).
Proof.
  assert (Hres : forall rid json,
             Recipe.id r = Some rid ->
             Json.dumps (Recipe.ingredients r) = Py.Ok json ->
             snd (update r db)
             = if Sqlite.fits_int64 (Recipe.servings r)
                  && Sqlite.fits_int64 rid
               then Py.Ok tt else Py.Raise Py.OverflowError).
  { intros rid json Hid Hd. unfold update. rewrite Hid, Hd.
    now destruct (_ && _). }
  assert (Habs : forall rid,
             Recipe.id r = Some rid ->
             (forall row, In row (table db) -> Row.id row <> rid) ->
             table (fst (update r db)) = table db).
  { intros rid Hid Ha.
    destruct (update_shape r db) as [->|(rid' & g & Hid' & _ & ->)];
      [reflexivity|].
    assert (rid' = rid) as -> by congruence.
    cbn [table]. now apply map_update_absent. }
  destruct (update_frame r db) as (Hi & Hc & Hs).
  split; [exact Hi|]. split; [exact Hc|]. split; [exact Hs|].
  split; [|split; [|split; [exact Hres|]]].
  - intros other clock Hne.
    destruct (update_shape r db) as [->|(rid & g & Hid & Hg & ->)];
      [reflexivity|].
    unfold get. cbn [table].
    rewrite (find_map_other other rid g);
      [reflexivity|congruence|apply Hg].
  - unfold update. intros ->. reflexivity.
  - intros rid Hid Ha. split; [now apply (Habs rid)|].
    intros json Hd Hfs Hfr.
    pose proof (Hres rid json Hid Hd) as Hsnd. rewrite Hfs, Hfr in Hsnd.
    specialize (Habs rid Hid Ha).
    destruct (update r db) as [db' res] eqn:E. cbn [fst snd] in *.
    subst res. f_equal.
    destruct db as [t q], db' as [t' q']. cbn [table sequence] in *.
    congruence.
Qed.

Lemma update_keeps_rest_witness :
  update syrup one_recipe_db = (one_recipe_db, Py.Ok tt)
  /\ snd (update syrup_vat one_recipe_db) = Py.Raise Py.OverflowError.
Proof.
  assert (Hd : exists json,
             Json.dumps (py_strs ["sugar, 1 tbsp"; "water"]) = Py.Ok json)
    by (eexists; vm_compute; reflexivity).
  destruct Hd as [json Hd].
  split.
  - destruct (update_keeps_rest syrup one_recipe_db)
      as (_ & _ & _ & _ & _ & _ & H).
    destruct (H 7 eq_refl) as [_ H'].
    + intros row Hin. vm_compute in Hin. destruct Hin as [<-|[]].
      vm_compute. discriminate.
    + apply (H' json Hd); vm_compute; reflexivity.
  - destruct (update_keeps_rest syrup_vat one_recipe_db)
      as (_ & _ & _ & _ & _ & H & _).
    rewrite (H 7 json eq_refl Hd). vm_compute. reflexivity.
Defined.

(** ** The store: identities *)

Lemma add_shape r db :
  (fst (add r db) = db /\ forall rid, snd (add r db) <> Py.Ok rid)
  \/ exists row,
       Row.id row = next_id db
       /\ add r db = (MkConn (table db ++ [row]) (next_id db),
                      Py.Ok (next_id db)).
Proof.
  unfold add. fold (next_id db).
  destruct (Recipe.to_db_tuple r) as [t|e|]; [|left; split; [reflexivity|discriminate]..].
  destruct (Sqlite.fits_int64 (Recipe.db_servings t));
    [|left; split; [reflexivity|discriminate]].
  destruct (Sqlite.fits_int64 (next_id db));
    [|left; split; [reflexivity|discriminate]].
  right. eexists. split; [|reflexivity]. reflexivity.
Qed.

(** A property of the store that [add] keeps is kept by the import loop. *)
Lemma import_loop_keeps (P : Conn -> Prop) clock :
  (forall r db, P db -> P (fst (add r db))) ->
  forall rows k db, P db -> P (fst (import_loop clock rows k db)).
Proof.
  intros Hadd. induction rows as [|row rows IH]; intros k db HP; simpl.
  - exact HP.
  - destruct (import_row (clock k) row) as [[recipe|]|e|]; simpl; auto.
    pose proof (Hadd recipe db HP) as H.
    destruct (add recipe db) as [db' [rid|e|]]; simpl in *; auto.
Qed.

Lemma add_sequence r db : sequence db <= sequence (fst (add r db)).
Proof.
  destruct (add_shape r db) as [[-> _]|(row & _ & ->)]; [lia|].
  unfold next_id. simpl. lia.
Qed.

Lemma step_sequence db db' : step db db' -> sequence db <= sequence db'.
Proof.
  intros [r d|r d|rid d|clock rows d].
  - apply add_sequence.
  - destruct (update_frame r d) as (_ & _ & ->). lia.
  - unfold delete. destruct (Sqlite.fits_int64 rid); simpl; lia.
  - unfold import_csv.
    apply (import_loop_keeps (fun x => sequence d <= sequence x)); [|lia].
    intros r x H. pose proof (add_sequence r x). lia.
Qed.

Lemma steps_sequence db db' : rtc step db db' -> sequence db <= sequence db'.
Proof.
  induction 1 as [|x y z Hxy _ IH]; [lia|].
  apply step_sequence in Hxy. lia.
Qed.

Lemma NoDup_ids_filter (p : Row.t -> bool) rows :
  NoDup (map Row.id rows) -> NoDup (map Row.id (List.filter p rows)).
Proof.
  induction rows as [|x rows IH]; simpl; intros H; [constructor|].
  apply NoDup_cons in H as [Hx H].
  destruct (p x); simpl; auto.
  apply NoDup_cons. split; auto.
  intros Hin. apply Hx. apply list_elem_of_In in Hin.
  apply list_elem_of_In. apply in_map_iff in Hin as (y & Hy & Hin).
  apply in_map_iff. exists y. split; auto.
  apply filter_In in Hin. tauto.
Qed.

Lemma add_ids r db : NoDup (ids db) -> NoDup (ids (fst (add r db))).
Proof.
  intros H. destruct (add_shape r db) as [[-> _]|(row & Hr & ->)]; [exact H|].
  unfold ids in *. cbn [fst table]. rewrite map_app. cbn [map].
  apply NoDup_app. split; [exact H|]. split; [|apply NoDup_singleton].
  intros x Hx Hin. apply list_elem_of_singleton in Hin. subst x.
  apply list_elem_of_In, in_map_iff in Hx as (y & Hy & Hin).
  apply fresh_id_absent in Hin. congruence.
Qed.

Lemma step_ids db db' : step db db' -> NoDup (ids db) -> NoDup (ids db').
Proof.
  intros [r d|r d|rid d|clock rows d] H.
  - now apply add_ids.
  - unfold ids. destruct (update_frame r d) as (-> & _). exact H.
  - unfold delete, ids. destruct (Sqlite.fits_int64 rid); simpl; auto.
    now apply NoDup_ids_filter.
  - unfold import_csv.
    apply (import_loop_keeps (fun x => NoDup (ids x))); auto.
    intros r x. apply add_ids.
Qed.

(** X7 ([add], [update], [delete], [import_csv]): the identities of the
    rows stay pairwise distinct under every sequence of repository
    operations. *)
Theorem ids_stay_distinct (db db' : Conn) :
  NoDup (ids db) -> rtc step db db' -> NoDup (ids db').
Proof.
  intros H R. induction R as [|x y z Hxy _ IH]; [exact H|].
  apply IH. now apply (step_ids x).
Qed.

Lemma ids_stay_distinct_witness :
  NoDup (ids (fst (delete 1 (fst (add toast one_recipe_db))))).
Proof.
  apply (ids_stay_distinct empty_db).
  - constructor.
  - eapply rtc_l; [apply (step_add pancakes)|].
    eapply rtc_l; [apply (step_add toast)|].
    eapply rtc_l; [apply (step_delete 1)|]. apply rtc_refl.
Defined.

(** X8 ([add], [delete]): the identity returned by [add] is larger than
    every identity in the table, and after any later operations, deletions
    included, a further [add] returns a strictly larger identity: an
    identity is never handed out twice. *)
Theorem add_never_reuses_id (r1 r2 : Recipe.t) (db db1 db2 db3 : Conn)
  (i1 i2 : Z) :
  add r1 db = (db1, Py.Ok i1) ->
  rtc step db1 db2 ->
  add r2 db2 = (db3, Py.Ok i2) ->
  i1 < i2
  /\ (forall row, In row (table db) -> Row.id row < i1)
  /\ (forall row, In row (table db2) -> Row.id row < i2).
Proof.
  intros H1 R H2.
  apply add_inv in H1 as (ing1 & _ & _ & _ & E1 & D1).
  apply add_inv in H2 as (ing2 & _ & _ & _ & E2 & _).
  apply steps_sequence in R. subst db1 i1 i2. cbn [sequence] in R.
  split; [unfold next_id at 2; lia|].
  split; intros row Hin; apply max_id_bound in Hin; unfold next_id; lia.
Qed.

Lemma add_never_reuses_id_witness :
  exists db1 db3,
    add pancakes empty_db = (db1, Py.Ok 1)
    /\ add toast (fst (delete 1 db1)) = (db3, Py.Ok 2)
    /\ 1 < 2.
Proof.
  pose (db1 := fst (add pancakes empty_db)).
  pose (db2 := fst (delete 1 db1)).
  assert (H1 : add pancakes empty_db = (db1, Py.Ok 1)) by reflexivity.
  assert (H2 : add toast db2 = (fst (add toast db2), Py.Ok 2)) by reflexivity.
  exists db1, (fst (add toast db2)).
  split; [exact H1|]. split; [exact H2|].
  refine (proj1 (add_never_reuses_id pancakes toast empty_db db1 db2 _ 1 2
                   H1 _ H2)).
  eapply rtc_l; [apply (step_delete 1)|]. apply rtc_refl.
Defined.

(** ** The order of the listing *)

Lemma compare_chars_opp a :
  forall b, Sqlite.compare_chars b a = CompOpp (Sqlite.compare_chars a b).
Proof.
  induction a as [|x a IH]; intros [|y b]; simpl; auto.
  rewrite (N.compare_antisym (Str.code x) (Str.code y)).
  destruct (Str.code x ?= Str.code y)%N; simpl; auto.
Qed.

Lemma compare_chars_trans a :
  forall b c,
    Sqlite.compare_chars a b <> Lt -> Sqlite.compare_chars b c <> Lt ->
    Sqlite.compare_chars a c <> Lt.
Proof.
  induction a as [|x a IH]; intros [|y b] [|z c]; simpl; try congruence.
  destruct (N.compare_spec (Str.code x) (Str.code y)) as [E1|E1|E1];
    destruct (N.compare_spec (Str.code y) (Str.code z)) as [E2|E2|E2];
    try congruence;
    destruct (N.compare_spec (Str.code x) (Str.code z)) as [E3|E3|E3];
    try congruence; try lia; intros; eauto.
Qed.

Lemma not_gt_not_before a b :
  Sqlite.compare_text a b <> Gt -> not_before b a.
Proof.
  unfold not_before. destruct a as [x|], b as [y|]; simpl; try congruence.
  rewrite (compare_chars_opp (Str.chars x) (Str.chars y)).
  destruct (Sqlite.compare_chars _ _); simpl; congruence.
Qed.

Lemma not_before_trans a b c :
  not_before a b -> not_before b c -> not_before a c.
Proof.
  unfold not_before. destruct a as [x|], b as [y|], c as [z|]; simpl;
    try congruence.
  apply compare_chars_trans.
Qed.

Lemma insert_desc_perm r l : Permutation (insert_desc r l) (r :: l).
Proof.
  induction l as [|y l IH]; simpl; [reflexivity|].
  destruct (Sqlite.compare_text _ _); try reflexivity.
  rewrite IH. apply perm_swap.
Qed.

Lemma order_perm rows : Permutation (order_by_created_at_desc rows) rows.
Proof.
  induction rows as [|r rows IH]; simpl; [reflexivity|].
  unfold order_by_created_at_desc in *. simpl.
  rewrite insert_desc_perm. now constructor.
Qed.

Lemma insert_desc_sorted r l :
  StronglySorted rows_desc l -> StronglySorted rows_desc (insert_desc r l).
Proof.
  induction 1 as [|y l Hs IH Hy]; simpl.
  - repeat constructor.
  - destruct (Sqlite.compare_text (Row.created_at y) (Row.created_at r)) eqn:E.
    + assert (Hr : rows_desc r y).
      { apply not_gt_not_before. congruence. }
      constructor; [now constructor|]. constructor; [exact Hr|].
      eapply Forall_impl; [exact Hy|]. intros z Hz.
      eapply not_before_trans; eauto.
    + assert (Hr : rows_desc r y).
      { apply not_gt_not_before. congruence. }
      constructor; [now constructor|]. constructor; [exact Hr|].
      eapply Forall_impl; [exact Hy|]. intros z Hz.
      eapply not_before_trans; eauto.
    + constructor; [exact IH|].
      rewrite (insert_desc_perm r l).
      constructor; [|exact Hy]. unfold rows_desc, not_before. congruence.
Qed.

Lemma order_sorted rows : StronglySorted rows_desc (order_by_created_at_desc rows).
Proof.
  induction rows as [|r rows IH]; [constructor|].
  unfold order_by_created_at_desc in *. simpl. now apply insert_desc_sorted.
Qed.

Lemma sorted_by_key {A} (f : A -> option string) (l : list A) :
  StronglySorted (fun a b => not_before (f a) (f b)) l
  <-> StronglySorted not_before (map f l).
Proof.
  induction l as [|x l IH]; simpl.
  - split; constructor.
  - split; intros H; apply StronglySorted_inv in H as [H1 H2];
      (constructor; [now apply IH|]).
    + apply List.Forall_forall. intros y Hy.
      apply in_map_iff in Hy as (z & <- & Hz).
      rewrite List.Forall_forall in H2. now apply H2.
    + apply List.Forall_forall. intros y Hy. rewrite List.Forall_forall in H2.
      apply H2. now apply in_map.
Qed.

Lemma decode_rows_ids clock rows :
  forall k rs,
    decode_rows clock k rows = Py.Ok rs ->
    map Recipe.id rs = map (fun row => Some (Row.id row)) rows.
Proof.
  induction rows as [|row rows IH]; intros k rs; simpl.
  - now intros [= <-].
  - unfold _row_to_recipe.
    destruct (decode_ingredients _) as [i|e|]; try discriminate.
    cbn [Py.bind].
    destruct (decode_servings _) as [s|e|]; try discriminate.
    cbn [Py.bind].
    destruct (decode_rows clock _ rows) as [xs|e|] eqn:E; try discriminate.
    cbn [Py.bind]. intros [= <-]. simpl. f_equal. eapply IH, E.
Qed.

Lemma decode_rows_created_at clock rows :
  forall k rs,
    forallb has_created_at rows = true ->
    decode_rows clock k rows = Py.Ok rs ->
    map (fun r => Some (Recipe.created_at r)) rs = map Row.created_at rows.
Proof.
  induction rows as [|row rows IH]; intros k rs Hc; simpl.
  - now intros [= <-].
  - simpl in Hc. apply andb_prop in Hc as [Hrow Hc].
    unfold _row_to_recipe.
    destruct (decode_ingredients _) as [i|e|]; try discriminate.
    cbn [Py.bind].
    destruct (decode_servings _) as [s|e|]; try discriminate.
    cbn [Py.bind].
    destruct (decode_rows clock _ rows) as [xs|e|] eqn:E; try discriminate.
    cbn [Py.bind]. intros [= <-]. simpl. f_equal; [|eapply IH; eauto].
    unfold has_created_at, is_falsy in Hrow.
    destruct (Row.created_at row) as [c|]; [|discriminate].
    simpl. rewrite negb_involutive in Hrow. now rewrite Hrow.
Qed.

(** X9 ([list_all]): when [list_all] returns, it returns one record per
    row of the table (the identities of the records are a permutation of
    those of the rows), and if every row has a creation time the records
    come in descending order of creation time. *)
Theorem list_all_ordered (clock : Clock) (db : Conn) (rs : list Recipe.t) :
  list_all clock db = Py.Ok rs ->
  Permutation (map Recipe.id rs) (map (fun row => Some (Row.id row)) (table db))
  /\ (forallb has_created_at (table db) = true ->
      StronglySorted recipes_desc rs).
Proof.
  unfold list_all. intros H. split.
  - rewrite (decode_rows_ids _ _ _ _ H).
    apply Permutation_map, order_perm.
  - intros Hc. apply (sorted_by_key (fun r => Some (Recipe.created_at r))).
    assert (Hc' : forallb has_created_at
                    (order_by_created_at_desc (table db)) = true).
    { apply forallb_forall. intros row Hin.
      rewrite forallb_forall in Hc. apply Hc.
      eapply Permutation_in; [apply order_perm|exact Hin]. }
    rewrite (decode_rows_created_at _ _ _ _ Hc' H).
    apply (proj1 (sorted_by_key Row.created_at _)), order_sorted.
Qed.

Lemma list_all_ordered_witness :
  exists rs,
    list_all clock0 (fst (add syrup one_recipe_db)) = Py.Ok rs
    /\ StronglySorted recipes_desc rs.
Proof.
  eexists. split; [vm_compute; reflexivity|].
  refine (proj2 (list_all_ordered clock0 (fst (add syrup one_recipe_db)) _ _) _);
    vm_compute; reflexivity.
Defined.

(** ** Search *)

Lemma not_before_not_gt a b :
  not_before a b -> Sqlite.compare_text b a <> Gt.
Proof.
  unfold not_before. destruct a as [x|], b as [y|]; simpl; try congruence.
  rewrite (compare_chars_opp (Str.chars x) (Str.chars y)).
  destruct (Sqlite.compare_chars _ _); simpl; congruence.
Qed.

Lemma insert_desc_head r l :
  Forall (fun z => rows_desc r z) l -> insert_desc r l = r :: l.
Proof.
  destruct l as [|y l]; [reflexivity|]. intros H.
  apply Forall_inv in H. apply not_before_not_gt in H. simpl.
  destruct (Sqlite.compare_text _ _); congruence.
Qed.

Lemma insert_desc_filter (P : Row.t -> bool) r l :
  StronglySorted rows_desc l ->
  List.filter P (insert_desc r l)
  = if P r then insert_desc r (List.filter P l) else List.filter P l.
Proof.
  induction 1 as [|y l Hs IH Hy]; simpl.
  - now destruct (P r).
  - destruct (Sqlite.compare_text (Row.created_at y) (Row.created_at r)) eqn:E.
    1,2: simpl; destruct (P r) eqn:Pr, (P y) eqn:Py; simpl;
         rewrite ?E; try reflexivity;
         symmetry; apply insert_desc_head;
         apply List.Forall_forall; intros z Hz;
         apply filter_In in Hz as [Hz _];
         rewrite List.Forall_forall in Hy; specialize (Hy z Hz);
         eapply not_before_trans; [|exact Hy];
         apply not_gt_not_before; congruence.
    simpl. rewrite IH. destruct (P r) eqn:Pr, (P y) eqn:Py; simpl;
      rewrite ?E; reflexivity.
Qed.

Lemma order_filter (P : Row.t -> bool) rows :
  order_by_created_at_desc (List.filter P rows)
  = List.filter P (order_by_created_at_desc rows).
Proof.
  induction rows as [|r rows IH]; [reflexivity|].
  unfold order_by_created_at_desc in *. simpl.
  rewrite insert_desc_filter by apply order_sorted.
  destruct (P r); simpl; now rewrite IH.
Qed.

Lemma row_to_recipe_now now now' row :
  has_created_at row = true ->
  _row_to_recipe now (Some row) = _row_to_recipe now' (Some row).
Proof.
  unfold has_created_at, is_falsy, _row_to_recipe.
  destruct (Row.created_at row) as [c|]; [|discriminate].
  rewrite negb_involutive. intros H. unfold text_or at 3 6. now rewrite H.
Qed.

Lemma decode_rows_filter (P : Row.t -> bool) clock rows :
  forall k all,
    forallb has_created_at rows = true ->
    decode_rows clock k rows = Py.Ok all ->
    exists rs, decode_rows clock k (List.filter P rows) = Py.Ok rs
               /\ sublist rs all.
Proof.
  induction rows as [|row rows IH]; intros k all H; cbn [decode_rows List.filter].
  - intros [= <-]. exists []. split; [reflexivity|constructor].
  - simpl in H. apply andb_prop in H as [Hr H].
    assert (F : is_falsy (Row.created_at row) = false).
    { unfold has_created_at in Hr. now apply negb_true_iff in Hr. }
    rewrite F.
    destruct (_row_to_recipe (clock k) (Some row)) as [x|e|] eqn:Ex;
      try discriminate. cbn [Py.bind].
    destruct (decode_rows clock k rows) as [xs|e|] eqn:Exs; try discriminate.
    cbn [Py.bind]. intros [= <-].
    destruct (IH k xs H Exs) as (rs & Hrs & Hsub).
    destruct (P row); cbn [decode_rows].
    + rewrite Ex, F. cbn [Py.bind]. rewrite Hrs. cbn [Py.bind].
      eexists. split; [reflexivity|]. now constructor.
    + exists rs. split; [exact Hrs|]. now constructor.
Qed.

(** X10 ([search], [list_all]): on a store whose rows all have a creation
    time and that [list_all] can decode, [search] with a query of
    admissible length returns a subsequence of the result of [list_all]:
    the same records in the same relative order. *)
Theorem search_within_list_all (q : string) (clock : Clock) (db : Conn)
  (all : list Recipe.t) :
  forallb has_created_at (table db) = true ->
  Sqlite.utf8_length ("%" +:+ q +:+ "%") <= Sqlite.max_like_pattern ->
  list_all clock db = Py.Ok all ->
  exists rs, search q clock db = Py.Ok rs /\ sublist rs all.
Proof.
  intros Hc Hlen Hall. unfold search, list_all in *.
  destruct (Z.ltb_spec Sqlite.max_like_pattern
              (Sqlite.utf8_length ("%" +:+ q +:+ "%"))); [lia|].
  rewrite order_filter. apply decode_rows_filter; [|exact Hall].
  apply forallb_forall. intros row Hin.
  rewrite forallb_forall in Hc. apply Hc.
  eapply Permutation_in; [apply order_perm|exact Hin].
Qed.

Lemma search_within_list_all_witness :
  exists all rs,
    list_all clock0 two_recipe_db = Py.Ok all
    /\ search "toast" clock0 two_recipe_db = Py.Ok rs /\ sublist rs all.
Proof.
  eexists.
  assert (H : list_all clock0 two_recipe_db
              = Py.Ok [with_id pancakes 1; with_id toast 2])
    by (vm_compute; reflexivity).
  destruct (search_within_list_all "toast" clock0 two_recipe_db _
              ltac:(vm_compute; reflexivity) ltac:(vm_compute; discriminate) H)
    as (rs & Hs & Hsub).
  exists rs. split; [exact H|]. split; [exact Hs|exact Hsub].
Defined.

Lemma c_str_app (a b : list ascii) :
  forallb (fun c => negb (Str.code c =? 0)%N) a = true ->
  Sqlite.c_str (a ++ b) = a ++ Sqlite.c_str b.
Proof.
  induction a as [|c a IH]; simpl; [reflexivity|].
  intros H. apply andb_prop in H as [Hc H]. apply negb_true_iff in Hc.
  rewrite Hc. now rewrite IH.
Qed.

Lemma like_skip p (a t : list ascii) :
  Sqlite.like_chars p t = true ->
  Sqlite.like_chars ("%"%char :: p) (a ++ t) = true.
Proof.
  intros H. induction a as [|c a IH]; simpl app.
  - rewrite like_percent_eq, H. reflexivity.
  - rewrite like_percent_eq, IH. apply orb_true_r.
Qed.

Lemma lower_refl c : Ascii.eqb (Sqlite.lower c) (Sqlite.lower c) = true.
Proof. apply Ascii.eqb_refl. Qed.

Lemma like_prefix (q b : list ascii) :
  Sqlite.like_chars (q ++ ["%"%char]) (q ++ b) = true.
Proof.
  induction q as [|c q IH]; [apply like_percent|].
  destruct (Str.code c =? 37)%N eqn:E.
  - assert (c = "%"%char) as ->.
    { apply N.eqb_eq in E. unfold Str.code in E.
      rewrite <- (ascii_N_embedding c), E. reflexivity. }
    apply (like_skip (q ++ ["%"%char]) ["%"%char] (q ++ b)), IH.
  - cbn [app Sqlite.like_chars]. rewrite E, lower_refl, orb_true_r. exact IH.
Qed.

Lemma like_substring q a b :
  no_nul a = true -> no_nul q = true ->
  Sqlite.like ("%" +:+ q +:+ "%") (a +:+ q +:+ b) = true.
Proof.
  intros Ha Hq. unfold Sqlite.like, no_nul in *.
  rewrite !chars_app. change (Str.chars "%") with ["%"%char].
  cbn [app Sqlite.c_str]. change (Str.code "%" =? 0)%N with false. cbn iota.
  rewrite !c_str_app by assumption.
  change (Sqlite.c_str ["%"%char]) with ["%"%char].
  apply like_skip, like_prefix.
Qed.

Lemma decode_rows_in clock rows :
  forall k rs row,
    decode_rows clock k rows = Py.Ok rs -> In row rows ->
    exists r, In r rs /\ Recipe.id r = Some (Row.id row).
Proof.
  intros k rs row H Hin. apply decode_rows_ids in H.
  assert (Hi : In (Some (Row.id row)) (map Recipe.id rs)).
  { rewrite H. now apply (in_map (fun x => Some (Row.id x))). }
  apply in_map_iff in Hi as (r & Hr & Hi). eauto.
Qed.

(** X11 ([search]): when the title, the stored tags or the stored
    ingredients of a row contain the query up to the case of ASCII letters
    (the part before and the occurrence itself holding no NUL), every
    successful [search] with that query returns a record with the identity
    of the row; wildcard characters in the query do not prevent it. *)
Theorem search_finds_substring (q q' a b : string) (clock : Clock) (db : Conn)
  (rs : list Recipe.t) (row : Row.t) :
  search q clock db = Py.Ok rs ->
  In row (table db) ->
  In (Some (a +:+ q' +:+ b))
     [Some (Row.title row); Row.tags row; Row.ingredients row] ->
  ascii_fold q' = ascii_fold q ->
  no_nul a = true -> no_nul q' = true ->
  exists r, In r rs /\ Recipe.id r = Some (Row.id row).
Proof.
  intros Hs Hin Hcol Hfold Ha Hq. unfold search in Hs.
  destruct (_ <? _); [discriminate|].
  apply (decode_rows_in _ _ _ _ _ Hs).
  eapply Permutation_in; [symmetry; apply order_perm|].
  apply filter_In. split; [exact Hin|].
  assert (L : Sqlite.like ("%" +:+ q +:+ "%") (a +:+ q' +:+ b) = true).
  { rewrite <- (like_fold _ _ _ (fold_pattern q' q Hfold)).
    now apply like_substring. }
  unfold search_where, Sqlite.like_op.
  destruct Hcol as [E|[E|[E|[]]]].
  - injection E as E. rewrite E, L.
    destruct (Row.tags row), (Row.ingredients row);
      simpl; repeat (destruct (Sqlite.like _ _)); reflexivity.
  - rewrite E, L. destruct (Row.ingredients row);
      simpl; repeat (destruct (Sqlite.like _ _)); reflexivity.
  - rewrite E, L. destruct (Row.tags row);
      simpl; repeat (destruct (Sqlite.like _ _)); reflexivity.
Qed.

Lemma search_finds_substring_witness :
  exists rs,
    search "CAKE" clock0 one_recipe_db = Py.Ok rs
    /\ exists r, In r rs /\ Recipe.id r = Some 1.
Proof.
  pose (row := hd tea_stored (table one_recipe_db)).
  pose (rs := [with_id pancakes 1]).
  assert (Hs : search "CAKE" clock0 one_recipe_db = Py.Ok rs)
    by (vm_compute; reflexivity).
  assert (Hin : In row (table one_recipe_db)) by (left; reflexivity).
  assert (Hcol : In (Some ("Pan" +:+ "cake" +:+ "s"))
                    [Some (Row.title row); Row.tags row; Row.ingredients row])
    by (left; reflexivity).
  exists rs. split; [exact Hs|].
  exact (search_finds_substring "CAKE" "cake" "Pan" "s" clock0 one_recipe_db
           rs row Hs Hin Hcol eq_refl eq_refl eq_refl).
Defined.

(** ** Splitting and trimming *)

Lemma drop_while_head p (l : list ascii) : stops p (Str.drop_while p l).
Proof.
  induction l as [|c l IH]; simpl; [exact I|].
  destruct (p c) eqn:E; [exact IH|exact E].
Qed.

Lemma drop_while_suffix p (l : list ascii) :
  exists pre, l = pre ++ Str.drop_while p l.
Proof.
  induction l as [|c l [pre IH]]; simpl; [now exists []|].
  destruct (p c); [|now exists []].
  exists (c :: pre). simpl. now f_equal.
Qed.

Lemma drop_while_in p (l : list ascii) c :
  In c (Str.drop_while p l) -> In c l.
Proof.
  destruct (drop_while_suffix p l) as [pre E]. intros H.
  rewrite E. apply in_or_app. now right.
Qed.

Lemma strip_chars_in p (l : list ascii) c :
  In c (Str.lstrip_by p (Str.rstrip_by p l)) -> In c l.
Proof.
  unfold Str.lstrip_by, Str.rstrip_by. intros H.
  now apply drop_while_in, in_rev, drop_while_in, in_rev in H.
Qed.

Lemma strip_chars_idem p (l : list ascii) :
  let s := Str.lstrip_by p (Str.rstrip_by p l) in
  Str.lstrip_by p (Str.rstrip_by p s) = s.
Proof.
  intros s. subst s. unfold Str.lstrip_by, Str.rstrip_by.
  set (r := rev (Str.drop_while p (rev l))).
  set (s := Str.drop_while p r).
  assert (Hrev : stops p (rev s)).
  { destruct (drop_while_suffix p r) as [pre E]. fold s in E.
    assert (Hr : stops p (rev r)).
    { subst r. rewrite rev_involutive. apply drop_while_head. }
    rewrite E, rev_app_distr in Hr.
    destruct (rev s) as [|x t]; [exact I|exact Hr]. }
  rewrite (drop_while_stops p (rev s) Hrev), rev_involutive.
  apply drop_while_stops, drop_while_head.
Qed.

Lemma strip_idem x : Str.strip (Str.strip x) = Str.strip x.
Proof.
  unfold Str.strip. rewrite chars_of_chars. f_equal. apply strip_chars_idem.
Qed.

Lemma strip_in x c : In c (Str.chars (Str.strip x)) -> In c (Str.chars x).
Proof.
  unfold Str.strip. rewrite chars_of_chars. apply strip_chars_in.
Qed.

Lemma split_chars_no_sep sep l :
  forall cur piece c,
    ~ In sep cur ->
    In piece (Str.split_chars sep cur l) -> In c piece -> c <> sep.
Proof.
  induction l as [|x l IH]; intros cur piece c Hcur; simpl.
  - intros [<-|[]] Hc E. subst c. apply Hcur. now apply in_rev.
  - destruct (Ascii.eqb_spec x sep) as [->|Hx].
    + intros [<-|H] Hc.
      * intros ->. apply Hcur. now apply in_rev.
      * apply (IH [] piece c); auto.
    + apply IH. intros [E|H]; [congruence|auto].
Qed.

Lemma split_strip_clean sep s :
  forallb (clean_item sep) (split_strip sep s) = true.
Proof.
  unfold split_strip. apply forallb_forall. intros y Hy.
  apply in_map_iff in Hy as (x & <- & Hx).
  apply filter_In in Hx as [Hx Ht].
  unfold clean_item. rewrite strip_idem, String.eqb_refl, Ht. simpl.
  apply negb_true_iff. unfold Str.contains.
  destruct (existsb _ _) eqn:E; [|reflexivity]. exfalso.
  apply existsb_exists in E as (c & Hc & Ec).
  apply Ascii.eqb_eq in Ec. subst c. apply strip_in in Hc.
  unfold Str.split in Hx. apply in_map_iff in Hx as (piece & <- & Hp).
  rewrite chars_of_chars in Hc.
  now apply (split_chars_no_sep sep _ [] piece sep (fun H => H) Hp Hc).
Qed.

Lemma str_items_strs l : str_items (py_strs l) = Some l.
Proof.
  unfold str_items, py_strs. induction l as [|x l IH]; [reflexivity|].
  simpl. now rewrite IH.
Qed.

(** X12 ([_row_to_recipe]): whatever text the tags column holds, every
    tag of a decoded record is non-empty, trimmed and free of commas. *)
Theorem decoded_tags_are_clean (now : string) (row : Row.t) (r : Recipe.t) :
  _row_to_recipe now (Some row) = Py.Ok r ->
  forallb (clean_item ",") (Recipe.tags r) = true.
Proof.
  unfold _row_to_recipe.
  destruct (decode_ingredients _) as [i|e|]; try discriminate. cbn [Py.bind].
  destruct (decode_servings _) as [s|e|]; try discriminate. cbn [Py.bind].
  intros [= <-]. apply split_strip_clean.
Qed.

Lemma decoded_tags_are_clean_witness :
  exists r,
    _row_to_recipe "now" (Some blank_tags_row) = Py.Ok r
    /\ Recipe.tags r = ["slow"; "winter"]
    /\ forallb (clean_item ",") (Recipe.tags r) = true.
Proof.
  eexists. split; [vm_compute; reflexivity|]. split; [vm_compute; reflexivity|].
  refine (decoded_tags_are_clean "now" blank_tags_row _ _).
  vm_compute. reflexivity.
Defined.

Lemma import_row_inv now row r :
  import_row now row = Py.Ok (Some r) ->
  exists t ing ins tg sv,
    row_get row "title" "" = Some t
    /\ row_get row "ingredients" "" = Some ing
    /\ row_get row "instructions" "" = Some ins
    /\ row_get row "tags" "" = Some tg
    /\ import_servings (row_get row "servings" "1") = Py.Ok sv
    /\ Str.truthy (Str.strip t) = true
    /\ r = Recipe.Make None (Str.strip t) (py_strs (split_strip "|" ing))
             (Str.strip ins) (split_strip "," tg) sv now.
Proof.
  unfold import_row.
  destruct (row_get row "title" "") as [t|]; [|discriminate].
  cbn [strip_field Py.bind].
  destruct (Str.truthy (Str.strip t)) eqn:Ht; [|discriminate]. cbn [negb].
  destruct (row_get row "ingredients" "") as [ing|]; [|discriminate].
  cbn [split_field Py.bind].
  destruct (row_get row "instructions" "") as [ins|]; [|discriminate].
  cbn [strip_field Py.bind].
  destruct (row_get row "tags" "") as [tg|]; [|discriminate].
  cbn [split_field Py.bind].
  destruct (import_servings _) as [sv|e|]; try discriminate.
  cbn [Py.bind]. intros [= <-].
  exists t, ing, ins, tg, sv. repeat split; auto.
Qed.

Lemma imported_exportable now row r :
  import_row now row = Py.Ok (Some r) -> exportable r = true.
Proof.
  intros H. apply import_row_inv in H
    as (t & ing & ins & tg & sv & _ & _ & _ & _ & _ & Ht & ->).
  unfold exportable. cbn [Recipe.ingredients Recipe.title Recipe.tags
                          Recipe.instructions].
  rewrite str_items_strs. unfold trimmed.
  rewrite !strip_idem, !String.eqb_refl, Ht, !split_strip_clean. reflexivity.
Qed.

(** X13 ([import_csv], [export_csv]): every record built by the import
    of a row is in the normal form that the bulk format carries without
    loss, so exporting it and importing the exported row gives the same
    title, ingredients, instructions, tags and servings again. *)
Theorem reimport_is_identity (now now' : string) (row : csv_row)
  (r : Recipe.t) :
  import_row now row = Py.Ok (Some r) ->
  exportable r = true
  /\ exists row',
       export_row r = Py.Ok row'
       /\ import_row now' (read_back_row row') = Py.Ok (Some (imported r now')).
Proof.
  intros H. apply imported_exportable in H. split; [exact H|].
  now apply export_import_row.
Qed.

Lemma reimport_is_identity_witness :
  exists r row',
    import_row "t0" toast_row = Py.Ok (Some r)
    /\ export_row r = Py.Ok row'
    /\ import_row "t1" (read_back_row row') = Py.Ok (Some (imported r "t1")).
Proof.
  pose (r := Recipe.Make None "Toast" (py_strs ["bread"; "butter"])
               "Toast the bread." ["quick"] 2 "t0").
  assert (H : import_row "t0" toast_row = Py.Ok (Some r))
    by (vm_compute; reflexivity).
  destruct (proj2 (reimport_is_identity "t0" "t1" toast_row r H))
    as (row' & He & Hi).
  exists r, row'. auto.
Defined.

Lemma to_int_raises s e : Str.to_int s = Py.Raise e -> e = Py.ValueError.
Proof.
  unfold Str.to_int. destruct (Str.sign _) as [neg l].
  destruct (Str.digitpart l) as [[ds [|c rest]]|]; congruence.
Qed.

Lemma int_of_bytes_raises b e :
  int_of_bytes b = Py.Raise e -> e = Py.ValueError.
Proof.
  unfold int_of_bytes. destruct (Str.sign _) as [neg l].
  destruct (Str.digitpart l) as [[ds [|c rest]]|]; congruence.
Qed.

(** X14 ([_row_to_recipe]): for a row whose columns of TEXT affinity hold
    NULL or a text, the decode raises only because of the servings column:
    [ValueError] when it holds a non-empty text or blob that [int] refuses
    or a NaN, [OverflowError] when it holds an infinite real; no content of
    the ingredients, tags, instructions or creation time makes it raise. *)
Theorem decode_fails_only_on_servings (now : string) (row : Row.t)
  (e : Py.exn) :
  _row_to_recipe now (Some row) = Py.Raise e ->
  (e = Py.ValueError
   /\ (servings_unparsable (Row.servings row) = true
       \/ Row.servings row = Sqlite.Real SpecFloat.S754_nan))
  \/ (e = Py.OverflowError
      /\ exists s, Row.servings row = Sqlite.Real (SpecFloat.S754_infinity s)).
Proof.
  unfold _row_to_recipe.
  pose proof (decode_ingredients_no_raise (Row.ingredients row)) as Hi.
  destruct (decode_ingredients _) as [i|e'|]; try discriminate. cbn [Py.bind].
  unfold decode_servings, servings_unparsable.
  destruct (Row.servings row) as [|n|x|s|b]; cbn [Py.bind]; try discriminate.
  - destruct x as [sg|sg| |sg m ex]; cbn [Float.is_zero int_of_float Py.bind];
      try discriminate; intros [= <-].
    + right. split; [reflexivity|]. now exists sg.
    + left. split; [reflexivity|]. now right.
  - destruct (Str.truthy s); cbn [Py.bind]; try discriminate.
    destruct (Str.to_int s) as [n|e'|] eqn:E; cbn [Py.bind]; try discriminate.
    intros [= <-]. apply to_int_raises in E. subst e'.
    left. split; [reflexivity|]. now left.
  - destruct b as [|c b]; cbn [Py.bind]; try discriminate.
    destruct (int_of_bytes (c :: b)) as [n|e'|] eqn:E; cbn [Py.bind];
      try discriminate.
    intros [= <-]. apply int_of_bytes_raises in E. subst e'.
    left. split; [reflexivity|]. now left.
Qed.

Lemma decode_fails_only_on_servings_witness :
  (Py.ValueError = Py.ValueError
   /\ (servings_unparsable (Row.servings soup_stored) = true
       \/ Row.servings soup_stored = Sqlite.Real SpecFloat.S754_nan))
  \/ (Py.ValueError = Py.OverflowError
      /\ exists s,
           Row.servings soup_stored = Sqlite.Real (SpecFloat.S754_infinity s)).
Proof.
  refine (decode_fails_only_on_servings "now" soup_stored Py.ValueError _).
  vm_compute. reflexivity.
Defined.

(** ** Bulk import *)

Lemma import_loop_appends clock rows :
  forall k db,
  exists new,
    table (fst (import_loop clock rows k db)) = table db ++ new
    /\ (forall n, snd (import_loop clock rows k db) = Py.Ok n ->
                  n = Z.of_nat (k + length new))
    /\ (length new <= length rows)%nat.
Proof.
  induction rows as [|row rows IH]; intros k db; cbn [import_loop].
  - exists []. rewrite app_nil_r. repeat split; auto.
    simpl. intros n [= <-]. f_equal. lia.
  - destruct (import_row (clock k) row) as [[recipe|]|e|].
    + destruct (add_shape recipe db) as [[E N]|(x & Hx & E)].
      * destruct (add recipe db) as [db' [rid|e|]]; simpl in E; subst db'.
        -- exfalso. now apply (N rid).
        -- exists []. rewrite app_nil_r. simpl. repeat split; auto;
             [discriminate|lia].
        -- exists []. rewrite app_nil_r. simpl. repeat split; auto;
             [discriminate|lia].
      * rewrite E.
        destruct (IH (S k) (MkConn (table db ++ [x]) (next_id db)))
          as (new & Ht & Hn & Hl).
        exists (x :: new). cbn [table] in Ht. rewrite Ht, <- app_assoc.
        split; [reflexivity|]. split.
        -- intros n Hs. rewrite (Hn n Hs). simpl. f_equal. lia.
        -- simpl. lia.
    + destruct (IH k db) as (new & Ht & Hn & Hl).
      exists new. repeat split; auto. simpl. lia.
    + exists []. rewrite app_nil_r. simpl. repeat split; auto;
        [discriminate|lia].
    + exists []. rewrite app_nil_r. simpl. repeat split; auto;
        [discriminate|lia].
Qed.

(** X15 ([import_csv]): whatever its outcome, [import_csv] only appends
    rows to the table, at most one per row read, and a returned count is
    the number of rows appended. *)
Theorem import_only_appends (clock : Clock) (rows : list csv_row) (db : Conn) :
  exists new,
    table (fst (import_csv clock rows db)) = table db ++ new
    /\ (forall n, snd (import_csv clock rows db) = Py.Ok n ->
                  n = Z.of_nat (length new))
    /\ (length new <= length rows)%nat.
Proof. apply (import_loop_appends clock rows 0 db). Qed.

(** X16 ([import_csv]): when every row has a blank title, or the file has
    no title column at all, nothing is created and the count is 0. *)
Theorem import_skips_blank_titles (clock : Clock) (rows : list csv_row)
  (db : Conn) :
  (forall row, In row rows ->
     exists t, row_get row "title" "" = Some t /\ Str.strip t = "") ->
  import_csv clock rows db = (db, Py.Ok 0).
Proof.
  intros H. unfold import_csv.
  assert (G : forall k, import_loop clock rows k db = (db, Py.Ok (Z.of_nat k))).
  { induction rows as [|row rows IH]; intros k; [reflexivity|].
    cbn [import_loop]. destruct (H row (or_introl eq_refl)) as (t & Ht & Hs).
    unfold import_row. rewrite Ht. cbn [strip_field Py.bind]. rewrite Hs.
    cbn [Str.truthy negb]. apply IH. intros r Hr. apply H. now right. }
  apply G.
Qed.

Lemma import_skips_blank_titles_witness :
  import_csv clock0
    [make_csv_row "  " "water" "Boil." "" "1";
     list_to_map [("ingredients", Some "salt")]] one_recipe_db
  = (one_recipe_db, Py.Ok 0).
Proof.
  apply import_skips_blank_titles.
  intros row [<-|[<-|[]]].
  - exists "  ". split; reflexivity.
  - exists "". split; reflexivity.
Defined.

(** X17 ([import_csv]): for a row with a non-blank title, columns that the
    file does not have take their defaults (no ingredients, empty
    instructions, no tags, servings 1, also for a servings field that is
    [None]), whereas an ingredients, instructions or tags field that is
    [None], as in a row shorter than the header, raises
    [AttributeError]. *)
Theorem import_missing_fields (now t : string) (row : csv_row) :
  row !! "title" = Some (Some t) ->
  Str.truthy (Str.strip t) = true ->
  (row !! "ingredients" = None -> row !! "instructions" = None ->
   row !! "tags" = None ->
   (row !! "servings" = None \/ row !! "servings" = Some None) ->
   import_row now row
   = Py.Ok (Some (Recipe.Make None (Str.strip t) (PyList []) "" [] 1 now)))
  /\ (row !! "ingredients" = Some None ->
      import_row now row = Py.Raise Py.AttributeError)
  /\ (forall ing, row !! "ingredients" = Some (Some ing) ->
      row !! "instructions" = Some None ->
      import_row now row = Py.Raise Py.AttributeError)
  /\ (forall ing ins, row !! "ingredients" = Some (Some ing) ->
      row !! "instructions" = Some (Some ins) ->
      row !! "tags" = Some None ->
      import_row now row = Py.Raise Py.AttributeError).
Proof.
  intros Ht Hs. unfold import_row, row_get. rewrite Ht.
  cbn [strip_field Py.bind]. rewrite Hs. cbn [negb].
  split; [|split; [|split]].
  - intros -> -> -> [->| ->]; reflexivity.
  - intros ->. reflexivity.
  - intros ing -> ->. reflexivity.
  - intros ing ins -> -> ->. reflexivity.
Qed.

Lemma import_missing_fields_witness :
  import_row "now" (list_to_map [("title", Some " Tea ")])
  = Py.Ok (Some (Recipe.Make None "Tea" (PyList []) "" [] 1 "now"))
  /\ import_row "now" (list_to_map [("title", Some "Tea");
                                     ("ingredients", None)])
     = Py.Raise Py.AttributeError.
Proof.
  split.
  - refine (proj1 (import_missing_fields "now" " Tea "
                     (list_to_map [("title", Some " Tea ")]) _ _) _ _ _ _);
      try (vm_compute; reflexivity).
    left. vm_compute. reflexivity.
  - refine (proj1 (proj2 (import_missing_fields "now" "Tea"
                     (list_to_map [("title", Some "Tea"); ("ingredients", None)])
                     _ _)) _);
      vm_compute; reflexivity.
Defined.









(** ** Quantities of the scaling helper *)

Lemma rmatch_no_digit s :
  stops Str.isdigit (Str.chars s) -> Re.rmatch quantity_pattern s = None.
Proof.
  intros H. unfold Re.rmatch, quantity_pattern.
  set (d := Re.Plus Re.digit). set (sp := Re.Plus Re.space).
  cbn [Re.run Re.before Re.after Re.groups]. subst d sp.
  now rewrite !plus_stop.
Qed.

(** X19 ([_scale_ingredient_line]): a line that, once trimmed, is empty
    or does not start with a digit comes back trimmed and otherwise
    unchanged, for every ratio. *)
Theorem scale_without_leading_digit (line : string) (ratio : Float.float) :
  stops Str.isdigit (Str.chars (Str.strip line)) ->
  _scale_ingredient_line line ratio = Py.Ok (Str.strip line).
Proof.
  intros H. unfold _scale_ingredient_line. now rewrite rmatch_no_digit.
Qed.

Lemma scale_without_leading_digit_witness :
  _scale_ingredient_line "  a pinch of salt " two = Py.Ok "a pinch of salt".
Proof.
  apply (scale_without_leading_digit "  a pinch of salt " two). reflexivity.
Defined.

Lemma fraction_quantity num den :
  num <> [] -> den <> [] ->
  forallb Str.isdigit num = true -> forallb Str.isdigit den = true ->
  frac_to_float (Str.of_chars (num ++ "/"%char :: den))
  = Float.truediv (Float.of_decimal false (digits_value num) 0)
                  (Float.of_decimal false (digits_value den) 0).
Proof.
  intros Hn Hd Hnum Hden. unfold frac_to_float, Str.contains.
  rewrite chars_of_chars, !existsb_app. simpl existsb.
  rewrite !existsb_digits by (assumption || reflexivity). simpl.
  now apply fraction_value.
Qed.

Lemma mixed_quantity a num den :
  a <> [] -> num <> [] -> den <> [] ->
  forallb Str.isdigit a = true ->
  forallb Str.isdigit num = true -> forallb Str.isdigit den = true ->
  frac_to_float (Str.of_chars (a ++ " "%char :: num ++ "/"%char :: den))
  = Py.bind (Float.truediv (Float.of_decimal false (digits_value num) 0)
                           (Float.of_decimal false (digits_value den) 0))
      (fun y => Py.Ok (Float.add (Float.of_decimal false (digits_value a) 0) y)).
Proof.
  intros Ha Hn Hd Hda Hnum Hden. unfold frac_to_float, Str.contains.
  rewrite chars_of_chars, existsb_app. simpl existsb.
  rewrite orb_true_r. unfold Str.split_ws. rewrite chars_of_chars.
  rewrite words_chars_word by assumption. simpl Str.words_chars.
  rewrite app_nil_r.
  destruct (rev a) as [|x ra] eqn:Era.
  { apply (f_equal (@rev ascii)) in Era. rewrite rev_involutive in Era.
    simpl in Era. congruence. }
  rewrite digits_or_slash_word.
  2:{ rewrite forallb_app. cbn [forallb].
      apply andb_true_intro; split;
        [ | apply andb_true_intro; split; [reflexivity|] ];
        rewrite forallb_forall in *;
        intros y Hy; apply orb_true_intro; left; auto. }
  change (rev [] ++ num ++ "/"%char :: den) with (num ++ "/"%char :: den).
  change (rev ra ++ [x]) with (rev (x :: ra)).
  rewrite <- Era, rev_involutive.
  destruct (num ++ "/"%char :: den) as [|y l] eqn:E.
  { destruct num; discriminate. }
  rewrite <- E.
  cbn [map]. rewrite float_of_digits by assumption.
  cbn [Py.bind]. change (String.string_of_list_ascii (num ++ "/"%char :: den))
    with (Str.of_chars (num ++ "/"%char :: den)).
  now rewrite fraction_value by assumption.
Qed.

(** X20 ([_scale_ingredient_line], [_frac_str_to_float]): for a trimmed
    line that starts with a fraction [num/den] followed by a word
    boundary, the quantity is the float quotient of [num] and [den], and
    the line becomes the rendering of the scaled quantity, one space and
    the trimmed remainder. *)
Theorem fraction_line_scaled (num den rest : list ascii)
  (ratio q : Float.float) (f : string) :
  num <> [] -> den <> [] ->
  forallb Str.isdigit num = true -> forallb Str.isdigit den = true ->
  boundary_remainder rest = true ->
  let line := Str.of_chars (num ++ "/"%char :: den ++ rest) in
  Str.strip line = line ->
  Float.truediv (Float.of_decimal false (digits_value num) 0)
                (Float.of_decimal false (digits_value den) 0) = Py.Ok q ->
  format_quantity (Float.mul q ratio) = Py.Ok f ->
  _scale_ingredient_line line ratio
  = Py.Ok (f +:+ " " +:+ Str.strip (Str.of_chars rest)).
Proof.
  intros Hn Hd Hnum Hden Hrest line Hs Hq Hf.
  pose proof (fraction_match num den rest Hn Hd Hnum Hden Hrest) as Hm.
  fold line in Hm. rewrite <- Hs in Hm.
  apply (scale_rendered line ratio _ q f Hm); [|exact Hf].
  cbn [Re.group Nat.eqb]. rewrite strip_fraction by assumption.
  now rewrite fraction_quantity.
Qed.

Lemma fraction_line_scaled_witness :
  _scale_ingredient_line "1/2 cup sugar" three = Py.Ok "1.5 cup sugar".
Proof.
  refine (fraction_line_scaled ["1"%char] ["2"%char] (Str.chars " cup sugar")
            three (Float.of_decimal false 5 (-1)) "1.5" _ _ _ _ _ _ _ _);
    try discriminate; vm_compute; reflexivity.
Defined.

(** X21 ([_scale_ingredient_line], [frac_to_float]): for a trimmed line
    that starts with a mixed number [a num/den] followed by a word
    boundary, the quantity is the float sum of [a] and of the quotient of
    [num] and [den], and the line becomes the rendering of the scaled
    quantity, one space and the trimmed remainder. *)
Theorem mixed_line_scaled (a num den rest : list ascii)
  (ratio q : Float.float) (f : string) :
  a <> [] -> num <> [] -> den <> [] ->
  forallb Str.isdigit a = true ->
  forallb Str.isdigit num = true -> forallb Str.isdigit den = true ->
  boundary_remainder rest = true ->
  let line :=
    Str.of_chars (a ++ " "%char :: num ++ "/"%char :: den ++ rest) in
  Str.strip line = line ->
  Float.truediv (Float.of_decimal false (digits_value num) 0)
                (Float.of_decimal false (digits_value den) 0) = Py.Ok q ->
  format_quantity
    (Float.mul (Float.add (Float.of_decimal false (digits_value a) 0) q) ratio)
  = Py.Ok f ->
  _scale_ingredient_line line ratio
  = Py.Ok (f +:+ " " +:+ Str.strip (Str.of_chars rest)).
Proof.
  intros Ha Hn Hd Hda Hnum Hden Hrest line Hs Hq Hf.
  pose proof (mixed_match a num den rest Ha Hn Hd Hda Hnum Hden Hrest) as Hm.
  fold line in Hm. rewrite <- Hs in Hm.
  apply (scale_rendered line ratio _
           (Float.add (Float.of_decimal false (digits_value a) 0) q) f Hm);
    [|exact Hf].
  cbn [Re.group Nat.eqb]. rewrite strip_mixed by assumption.
  rewrite mixed_quantity by assumption. now rewrite Hq.
Qed.

Lemma mixed_line_scaled_witness :
  _scale_ingredient_line "1 1/4 cups milk" two = Py.Ok "2.5 cups milk".
Proof.
  refine (mixed_line_scaled ["1"%char] ["1"%char] ["4"%char]
            (Str.chars " cups milk")
            two (Float.of_decimal false 25 (-2)) "2.5" _ _ _ _ _ _ _ _ _ _);
    try discriminate; vm_compute; reflexivity.
Defined.

Lemma decimal_match ds fs rest :
  ds <> [] -> fs <> [] ->
  forallb Str.isdigit ds = true -> forallb Str.isdigit fs = true ->
  boundary_remainder rest = true ->
  Re.rmatch quantity_pattern (Str.of_chars (ds ++ "."%char :: fs ++ rest))
  = Some [(2%nat, Str.of_chars rest);
          (1%nat, Str.of_chars (ds ++ "."%char :: fs))].
Proof.
  intros Hn Hd Hds Hfs Hrest.
  apply andb_prop in Hrest as [Hword Hdot]. apply negb_true_iff in Hword.
  unfold Re.rmatch, quantity_pattern. rewrite chars_of_chars.
  set (d := Re.Plus Re.digit). set (sp := Re.Plus Re.space).
  cbn [Re.run Re.before Re.after Re.groups]. subst d sp.
  rewrite plus_fail; [ | exact Hds | reflexivity | ].
  2:{ intros pre suf E _. apply plus_stop. simpl.
      apply (stops_app _ Str.isdigit);
        eauto using digit_not_space, digits_tail. reflexivity. }
  rewrite plus_fail; [ | exact Hds | reflexivity | ].
  2:{ intros pre suf E _. simpl.
      destruct suf as [|x suf]; simpl; [reflexivity|].
      pose proof (digits_tail _ _ _ Hds E) as Hx. simpl in Hx.
      apply andb_prop in Hx as [Hx _].
      now rewrite word_not_slash by now apply digit_is_word. }
  apply plus_greedy; [exact Hds | exact Hn | reflexivity | ].
  cbn [Re.before Re.after Re.groups]. cbn [Ascii.eqb Bool.eqb]. cbn iota.
  erewrite plus_greedy;
    [ reflexivity | exact Hfs | exact Hd | now apply not_word_stops | ].
  cbn [Re.before Re.after Re.groups].
  rewrite at_word_rev_digits by assumption. rewrite Hword. cbn [xorb].
  apply star_all; [exact Hdot|]. cbn [Re.at_eol].
  f_equal. f_equal.
  - f_equal. rewrite (consumed_app _ _ _ rest). reflexivity.
  - f_equal. f_equal.
    replace (rev fs ++ "."%char :: rev ds ++ [])
      with (rev (ds ++ "."%char :: fs) ++ []).
    + apply (consumed_app [] _ []).
    + rewrite rev_app_distr. simpl. now rewrite <- !app_assoc, !app_nil_r.
Qed.

Lemma strip_decimal ds fs :
  ds <> [] -> fs <> [] ->
  forallb Str.isdigit ds = true -> forallb Str.isdigit fs = true ->
  Str.strip (Str.of_chars (ds ++ "."%char :: fs))
  = Str.of_chars (ds ++ "."%char :: fs).
Proof.
  intros Hn Hd Hds Hfs.
  destruct ds as [|d1 ds]; [congruence|].
  destruct (last_digit fs Hd Hfs) as (init & d2 & -> & H2).
  simpl in Hds. apply andb_prop in Hds as [H1 _].
  apply (strip_digit_ends _ d1 d2 (ds ++ "."%char :: init)); auto.
  simpl. now rewrite <- app_assoc.
Qed.

Lemma digitpart_from_stop ds c rest :
  forall acc,
    forallb Str.isdigit ds = true ->
    Str.isdigit c = false -> (Str.code c =? 95)%N = false ->
    Str.digitpart_from acc (ds ++ c :: rest)
    = Some (rev acc ++ map Str.digit_val ds, c :: rest).
Proof.
  induction ds as [|d ds IH]; intros acc H Hc Hu; simpl in *.
  - rewrite Hc, Hu. now rewrite app_nil_r.
  - apply andb_prop in H as [Hd H]. rewrite Hd, IH by assumption.
    simpl. now rewrite <- app_assoc.
Qed.

Lemma point_or_digit_not_space c :
  Str.isdigit c || Ascii.eqb c "." = true -> Str.isspace_num c = false.
Proof.
  intros H. apply orb_prop in H as [H|H]; [now apply digit_not_space_num|].
  apply Ascii.eqb_eq in H. now subst.
Qed.

Lemma float_of_decimal_text ds fs :
  ds <> [] -> fs <> [] ->
  forallb Str.isdigit ds = true -> forallb Str.isdigit fs = true ->
  Float.of_str (Str.of_chars (ds ++ "."%char :: fs))
  = Py.Ok (Float.of_decimal false (digits_value (ds ++ fs))
                            (- Z.of_nat (length fs))).
Proof.
  intros Hn Hd Hds Hfs. unfold Float.of_str. rewrite chars_of_chars.
  unfold Str.strip_num.
  rewrite (strip_by_fixed _ (fun c => Str.isdigit c || Ascii.eqb c "."));
    [ | | exact point_or_digit_not_space ].
  2:{ rewrite forallb_app. cbn [forallb].
      apply andb_true_intro; split;
        [ | apply andb_true_intro; split; [reflexivity|] ];
        rewrite forallb_forall in *;
        intros y Hy; apply orb_true_intro; left; auto. }
  destruct ds as [|d ds]; [congruence|].
  pose proof Hds as H'. simpl in H'. apply andb_prop in H' as [Hd1 Hds'].
  cbn [app]. unfold Str.sign. destruct (digit_not_sign d Hd1) as [-> ->].
  unfold Float.is_word. simpl map.
  rewrite (digit_lower d Hd1). destruct (digit_not_i d Hd1) as [Hi Hni].
  unfold Str.of_chars. simpl string_of_list_ascii.
  simpl String.eqb. rewrite Hi, Hni. simpl orb. cbn iota.
  unfold Float.mantissa, Str.digitpart. rewrite Hd1.
  change (d :: ds ++ "."%char :: fs) with ((d :: ds) ++ "."%char :: fs).
  rewrite digitpart_from_stop by (assumption || reflexivity).
  change (Str.code "." =? 46)%N with true. cbn iota.
  destruct fs as [|f fs]; [congruence|].
  pose proof Hfs as H''. simpl in H''. apply andb_prop in H'' as [Hf1 _].
  rewrite Hf1. rewrite digitpart_from_digits by assumption.
  cbn [Float.exponent rev app].
  unfold digits_value.
  change (d :: ds ++ f :: fs) with ((d :: ds) ++ f :: fs).
  rewrite map_app, length_map, Z.sub_0_l. reflexivity.
Qed.

(** X22 ([_scale_ingredient_line], [frac_to_float]): for a trimmed line
    that starts with a decimal number [ds.fs] followed by a word boundary,
    the quantity is the float nearest to that decimal, and the line becomes
    the rendering of the scaled quantity, one space and the trimmed
    remainder. *)
Theorem decimal_line_scaled (ds fs rest : list ascii) (ratio : Float.float)
  (f : string) :
  ds <> [] -> fs <> [] ->
  forallb Str.isdigit ds = true -> forallb Str.isdigit fs = true ->
  boundary_remainder rest = true ->
  let line := Str.of_chars (ds ++ "."%char :: fs ++ rest) in
  Str.strip line = line ->
  format_quantity
    (Float.mul (Float.of_decimal false (digits_value (ds ++ fs))
                                 (- Z.of_nat (length fs))) ratio)
  = Py.Ok f ->
  _scale_ingredient_line line ratio
  = Py.Ok (f +:+ " " +:+ Str.strip (Str.of_chars rest)).
Proof.
  intros Hn Hd Hds Hfs Hrest line Hs Hf.
  pose proof (decimal_match ds fs rest Hn Hd Hds Hfs Hrest) as Hm.
  fold line in Hm. rewrite <- Hs in Hm.
  apply (scale_rendered line ratio _
           (Float.of_decimal false (digits_value (ds ++ fs))
                             (- Z.of_nat (length fs))) f Hm); [|exact Hf].
  cbn [Re.group Nat.eqb]. rewrite strip_decimal by assumption.
  unfold frac_to_float, Str.contains.
  rewrite chars_of_chars, !existsb_app. simpl existsb.
  rewrite !existsb_digits by (assumption || reflexivity). simpl.
  now apply float_of_decimal_text.
Qed.

Lemma decimal_line_scaled_witness :
  _scale_ingredient_line "0.75 tsp salt" two = Py.Ok "1.5 tsp salt".
Proof.
  refine (decimal_line_scaled ["0"%char] ["7"%char; "5"%char]
            (Str.chars " tsp salt") two "1.5" _ _ _ _ _ _ _);
    try discriminate; vm_compute; reflexivity.
Defined.

Lemma decimal_glued_match ds fs c tail :
  ds <> [] ->
  forallb Str.isdigit ds = true -> forallb Str.isdigit fs = true ->
  Str.isdigit c = false -> Str.isword c = true ->
  forallb Re.dot (fs ++ c :: tail) = true ->
  Re.rmatch quantity_pattern
    (Str.of_chars (ds ++ "."%char :: fs ++ c :: tail))
  = Some [(2%nat, Str.of_chars ("."%char :: fs ++ c :: tail));
          (1%nat, Str.of_chars ds)].
Proof.
  intros Hn Hds Hfs Hc Hw Hdot.
  unfold Re.rmatch, quantity_pattern. rewrite chars_of_chars.
  set (d := Re.Plus Re.digit). set (sp := Re.Plus Re.space).
  cbn [Re.run Re.before Re.after Re.groups]. subst d sp.
  rewrite plus_fail; [ | exact Hds | reflexivity | ].
  2:{ intros pre suf E _. apply plus_stop. simpl.
      apply (stops_app _ Str.isdigit);
        eauto using digit_not_space, digits_tail. reflexivity. }
  rewrite plus_fail; [ | exact Hds | reflexivity | ].
  2:{ intros pre suf E _. simpl.
      destruct suf as [|x suf]; simpl; [reflexivity|].
      pose proof (digits_tail _ _ _ Hds E) as Hx. simpl in Hx.
      apply andb_prop in Hx as [Hx _].
      now rewrite word_not_slash by now apply digit_is_word. }
  apply plus_greedy; [exact Hds | exact Hn | reflexivity | ].
  cbn [Re.before Re.after Re.groups]. cbn [Ascii.eqb Bool.eqb]. cbn iota.
  rewrite plus_fail; [ | exact Hfs | exact Hc | ].
  2:{ intros pre suf E Hne. cbn [Re.before Re.after Re.groups].
      rewrite at_word_rev_digits;
        [ | exact Hne | ].
      2:{ rewrite E, forallb_app in Hfs. apply andb_prop in Hfs. tauto. }
      assert (Hw' : Re.at_word (suf ++ c :: tail) = true).
      { destruct suf as [|x suf]; simpl; [exact Hw|].
        pose proof (digits_tail _ _ _ Hfs E) as Hx. simpl in Hx.
        apply andb_prop in Hx as [Hx _]. now apply digit_is_word. }
      now rewrite Hw'. }
  rewrite at_word_rev_digits by assumption.
  cbn [Re.at_word]. change (Str.isword ".") with false. cbn [xorb].
  apply star_all; [exact Hdot|]. cbn [Re.at_eol].
  f_equal. f_equal.
  - f_equal.
    rewrite (consumed_app _ _ _ ("."%char :: fs ++ c :: tail)). reflexivity.
  - f_equal. f_equal. apply (consumed_app [] _ []).
Qed.

(** X23 ([_scale_ingredient_line]): when the digits after the decimal
    point are directly followed by a letter (or another word character),
    the decimal part is not taken: the quantity is the integer before the
    point, and the point and everything after it are the remainder, so
    that scaling [1.5cups milk] by 2 gives [2 .5cups milk]. *)
Theorem decimal_glued_to_letters (ds fs : list ascii) (c : ascii)
  (tail : list ascii) (ratio : Float.float) (f : string) :
  ds <> [] ->
  forallb Str.isdigit ds = true -> forallb Str.isdigit fs = true ->
  Str.isdigit c = false -> Str.isword c = true ->
  forallb Re.dot (fs ++ c :: tail) = true ->
  let line := Str.of_chars (ds ++ "."%char :: fs ++ c :: tail) in
  Str.strip line = line ->
  format_quantity
    (Float.mul (Float.of_decimal false (digits_value ds) 0) ratio) = Py.Ok f ->
  _scale_ingredient_line line ratio
  = Py.Ok (f +:+ " "
           +:+ Str.strip (Str.of_chars ("."%char :: fs ++ c :: tail))).
Proof.
  intros Hn Hds Hfs Hc Hw Hdot line Hs Hf.
  pose proof (decimal_glued_match ds fs c tail Hn Hds Hfs Hc Hw Hdot) as Hm.
  fold line in Hm. rewrite <- Hs in Hm.
  apply (scale_rendered line ratio _
           (Float.of_decimal false (digits_value ds) 0) f Hm); [|exact Hf].
  cbn [Re.group Nat.eqb]. now apply integer_quantity.
Qed.

Lemma decimal_glued_to_letters_witness :
  _scale_ingredient_line "1.5cups milk" two = Py.Ok "2 .5cups milk".
Proof.
  refine (decimal_glued_to_letters ["1"%char] ["5"%char] "c"%char
            (Str.chars "ups milk") two "2" _ _ _ _ _ _ _ _);
    try discriminate; vm_compute; reflexivity.
Defined.

(** ** The editor *)

Lemma validate_ok f :
  _validate f = Py.Ok (true, None) ->
  Str.truthy (Str.strip (title_var f)) = true
  /\ exists s, Str.to_int (servings_var f) = Py.Ok s /\ 1 <= s.
Proof.
  unfold _validate. destruct (Str.truthy _); [|discriminate]. cbn [negb].
  destruct (Str.to_int _) as [s|[]|]; try discriminate.
  destruct (Z.ltb_spec s 1); [discriminate|]. intros _. eauto.
Qed.

Lemma validate_cases f v :
  _validate f = Py.Ok v -> fst v = true -> v = (true, None).
Proof.
  unfold _validate. destruct (Str.truthy _); cbn [negb].
  - destruct (Str.to_int _) as [s|[]|]; try discriminate;
      [destruct (s <? 1)|]; intros [= <-]; simpl; congruence.
  - intros [= <-]. simpl. congruence.
Qed.

Lemma split_strip_twice sep s :
  split_strip sep (Str.join (String sep EmptyString) (split_strip sep s))
  = split_strip sep s.
Proof. apply split_strip_join, split_strip_clean. Qed.

(** X24 ([RecipeEditor._on_save], [_validate], [add], [get]): when the
    editor reports a new record as added, the title was not blank, the
    servings entry was an integer of at least 1, the table has changed,
    and [get] returns under the new identity exactly the fields that the
    editor built: the trimmed title, the non-blank trimmed lines of the
    ingredients box, the trimmed instructions, the trimmed non-empty tags
    and the servings. *)
Theorem editor_save_then_get (f : editor_form) (now : string) (clock : Clock)
  (db db' : Conn) :
  _on_save None f now db = Py.Ok (db', ShowInfo "Saved" "Recipe added.", true) ->
  Str.truthy now = true ->
  exists rid s,
    Str.to_int (servings_var f) = Py.Ok s /\ 1 <= s
    /\ Str.truthy (Str.strip (title_var f)) = true
    /\ table db' <> table db
    /\ get rid clock db'
       = Py.Ok (Some (Recipe.Make (Some rid) (Str.strip (title_var f))
                        (py_strs (lines_strip (ing_text f)))
                        (Str.strip (inst_text f))
                        (split_strip "," (tags_var f)) s now)).
Proof.
  unfold _on_save. intros H Hnow.
  destruct (_validate f) as [v| |] eqn:Hv; try discriminate. cbn [Py.bind] in H.
  destruct (fst v) eqn:Hfst; cbn [negb] in H; [|discriminate].
  rewrite (validate_cases f v Hv Hfst) in Hv.
  destruct (validate_ok f Hv) as (Ht & s & Hs & Hge).
  rewrite Hs in H. cbn [Py.bind] in H.
  set (new := Recipe.Make _ _ _ _ _ _ _) in H.
  destruct (add new db) as [db1 [rid|e|]] eqn:Ha; cbn [saved Py.bind] in H;
    try discriminate.
  injection H as <-. exists rid, s.
  split; [exact Hs|]. split; [exact Hge|]. split; [exact Ht|].
  pose proof Ha as Hinv. apply add_inv in Hinv as (ing & Hd & _ & Hn & -> & ->).
  split.
  - cbn [table]. intros E. apply (f_equal (@length _)) in E.
    rewrite length_app in E. simpl in E. lia.
  - rewrite get_last; auto using fresh_id_absent.
    rewrite (decode_new_row new (lines_strip (ing_text f)) _ _ _
               (str_items_strs _) Hd).
    cbn [Py.bind]. subst new.
    cbn [Recipe.title Recipe.ingredients Recipe.instructions Recipe.tags
         Recipe.servings Recipe.created_at].
    rewrite split_strip_twice, text_or_some by assumption.
    destruct (Z.eqb_spec s 0); [lia|]. reflexivity.
Qed.

Lemma editor_save_then_get_witness :
  exists rid s,
    Str.to_int "2" = Py.Ok s /\ 1 <= s
    /\ get rid clock0
         (fst (add (Recipe.Make None "Tea" (py_strs ["1 tsp tea"; "water"])
                      "Steep." ["hot"; "quick"] 2 "2024-06-01T08:00:00")
                   one_recipe_db))
       = Py.Ok (Some (Recipe.Make (Some rid) "Tea"
                        (py_strs ["1 tsp tea"; "water"]) "Steep."
                        ["hot"; "quick"] s "2024-06-01T08:00:00")).
Proof.
  destruct (editor_save_then_get
              (Form " Tea " "2" "hot, quick,"
                    (String "1" (String " " ("tsp tea" +:+ newline +:+ newline
                                             +:+ " water" +:+ newline)))
                    ("Steep." +:+ newline))
              "2024-06-01T08:00:00" clock0 one_recipe_db
              (fst (add (Recipe.Make None "Tea"
                           (py_strs ["1 tsp tea"; "water"])
                           "Steep." ["hot"; "quick"] 2 "2024-06-01T08:00:00")
                        one_recipe_db)))
    as (rid & s & Hs & Hge & _ & _ & Hg).
  - vm_compute. reflexivity.
  - reflexivity.
  - exists rid, s. split; [exact Hs|]. split; [exact Hge|]. exact Hg.
Defined.

(** X25 ([RecipeEditor._on_save], [_validate]): with a blank title, a
    servings entry that is not an integer, or servings below 1, saving
    shows a validation error, leaves the store untouched and keeps the
    window open, for a new record as for an edited one. *)
Theorem editor_rejects_invalid (recipe : option Recipe.t) (f : editor_form)
  (now : string) (db : Conn) :
  (Str.strip (title_var f) = ""
   \/ Str.to_int (servings_var f) = Py.Raise Py.ValueError
   \/ exists s, Str.to_int (servings_var f) = Py.Ok s /\ s < 1) ->
  exists message,
    _on_save recipe f now db
    = Py.Ok (db, ShowError "Validation error" message, false).
Proof.
  unfold _on_save, _validate. intros [H|[H|(s & H & Hs)]].
  - rewrite H. cbn. eauto.
  - destruct (Str.truthy _); cbn [negb Py.bind fst snd]; [|eauto].
    rewrite H. cbn. eauto.
  - destruct (Str.truthy _); cbn [negb Py.bind fst snd]; [|eauto].
    rewrite H. destruct (Z.ltb_spec s 1); [|lia]. cbn. eauto.
Qed.

Lemma editor_rejects_invalid_witness :
  exists message,
    _on_save None (Form "Tea" "two" "" "" "") "now" one_recipe_db
    = Py.Ok (one_recipe_db, ShowError "Validation error" message, false).
Proof.
  apply editor_rejects_invalid. right. left. reflexivity.
Defined.

(** ** Listing after update and delete; export *)

Lemma insert_desc_map (g : Row.t -> Row.t) r l :
  (forall row, Row.created_at (g row) = Row.created_at row) ->
  insert_desc (g r) (map g l) = map g (insert_desc r l).
Proof.
  intros Hg. induction l as [|y l IH]; simpl; [reflexivity|].
  rewrite !Hg. destruct (Sqlite.compare_text _ _); simpl; try reflexivity.
  now rewrite IH.
Qed.

Lemma order_map (g : Row.t -> Row.t) rows :
  (forall row, Row.created_at (g row) = Row.created_at row) ->
  order_by_created_at_desc (map g rows)
  = map g (order_by_created_at_desc rows).
Proof.
  intros Hg. induction rows as [|r rows IH]; [reflexivity|].
  unfold order_by_created_at_desc in *. simpl.
  now rewrite IH, insert_desc_map.
Qed.

(** X26 ([update], [list_all]): [update] does not reorder the listing:
    the identities returned by [list_all] after an [update] are those
    returned before, in the same order. *)
Theorem update_keeps_order (r : Recipe.t) (clock : Clock) (db : Conn)
  (before after : list Recipe.t) :
  list_all clock db = Py.Ok before ->
  list_all clock (fst (update r db)) = Py.Ok after ->
  map Recipe.id after = map Recipe.id before.
Proof.
  unfold list_all. intros Hb Ha.
  apply decode_rows_ids in Hb, Ha. rewrite Hb, Ha.
  destruct (update_shape r db) as [->|(rid & g & _ & Hg & ->)]; [reflexivity|].
  cbn [table].
  rewrite (order_map (fun row => if Row.id row =? rid then g row else row)).
  - rewrite map_map. apply map_ext. intros row.
    destruct (Row.id row =? rid); [|reflexivity]. f_equal. apply Hg.
  - intros row. destruct (Row.id row =? rid); [apply Hg|reflexivity].
Qed.

Lemma update_keeps_order_witness :
  exists before after,
    list_all clock0 two_recipe_db = Py.Ok before
    /\ list_all clock0 (fst (update toast_edited two_recipe_db)) = Py.Ok after
    /\ map Recipe.id after = map Recipe.id before.
Proof.
  eexists. eexists.
  assert (Hb : list_all clock0 two_recipe_db
               = Py.Ok [with_id pancakes 1; with_id toast 2])
    by (vm_compute; reflexivity).
  assert (Ha : list_all clock0 (fst (update toast_edited two_recipe_db))
               = Py.Ok [with_id pancakes 1;
                        Recipe.Make (Some 2) "French toast"
                          (py_strs ["bread"; "egg"]) "Fry." ["quick"] 3
                          "2024-05-01T12:00:00"])
    by (vm_compute; reflexivity).
  split; [exact Hb|]. split; [exact Ha|].
  exact (update_keeps_order toast_edited clock0 two_recipe_db _ _ Hb Ha).
Defined.

Lemma map_filter_ids (rid : Z) rows :
  map (fun row => Some (Row.id row))
      (List.filter (fun row => negb (Row.id row =? rid)) rows)
  = List.filter (fun i => match i with
                          | Some n => negb (n =? rid)
                          | None => true
                          end)
      (map (fun row => Some (Row.id row)) rows).
Proof.
  induction rows as [|x rows IH]; simpl; [reflexivity|].
  destruct (Row.id x =? rid); simpl; now rewrite IH.
Qed.

(** X27 ([delete], [list_all]): after [delete] the listing is the listing
    before without the records of the deleted identity, the others keeping
    their order. *)
Theorem delete_then_list_all (rid : Z) (clock : Clock) (db : Conn)
  (before after : list Recipe.t) :
  Sqlite.fits_int64 rid = true ->
  list_all clock db = Py.Ok before ->
  list_all clock (fst (delete rid db)) = Py.Ok after ->
  map Recipe.id after
  = List.filter (fun i => match i with
                          | Some n => negb (n =? rid)
                          | None => true
                          end)
      (map Recipe.id before).
Proof.
  unfold list_all, delete. intros Hf Hb Ha. rewrite Hf in Ha. cbn [fst table] in Ha.
  apply decode_rows_ids in Hb, Ha. rewrite Hb, Ha.
  rewrite order_filter. apply map_filter_ids.
Qed.

Lemma delete_then_list_all_witness :
  exists before after,
    list_all clock0 two_recipe_db = Py.Ok before
    /\ list_all clock0 (fst (delete 1 two_recipe_db)) = Py.Ok after
    /\ map Recipe.id after = [Some 2].
Proof.
  eexists. eexists.
  assert (Hb : list_all clock0 two_recipe_db
               = Py.Ok [with_id pancakes 1; with_id toast 2])
    by (vm_compute; reflexivity).
  assert (Ha : list_all clock0 (fst (delete 1 two_recipe_db))
               = Py.Ok [with_id toast 2])
    by (vm_compute; reflexivity).
  split; [exact Hb|]. split; [exact Ha|].
  exact (delete_then_list_all 1 clock0 two_recipe_db _ _ eq_refl Hb Ha).
Defined.

Lemma join_value_raises sep v e :
  join_value sep v = Py.Raise e -> e = Py.TypeError /\ str_items v = None.
Proof.
  destruct v as [| | | | |l|]; simpl; try (intros [= <-]; auto; fail);
    try discriminate.
  assert (G : forall l,
            (exists xs, (fix go (l : list pyval) : Py.result (list string) :=
                 match l with
                 | [] => Py.Ok []
                 | PyStr s :: l' => b <- go l' ;; Py.Ok (s :: b)
                 | _ :: _ => Py.Raise Py.TypeError
                 end) l = Py.Ok xs /\ str_items_of l = Some xs)
            \/ ((fix go (l : list pyval) : Py.result (list string) :=
                 match l with
                 | [] => Py.Ok []
                 | PyStr s :: l' => b <- go l' ;; Py.Ok (s :: b)
                 | _ :: _ => Py.Raise Py.TypeError
                 end) l = Py.Raise Py.TypeError /\ str_items_of l = None)).
  { clear. induction l as [|x l IH]; [left; eauto|].
    destruct x; try (right; split; reflexivity).
    destruct IH as [(xs & -> & E)|[-> E]].
    - left. exists (s :: xs). simpl. now rewrite E.
    - right. simpl. now rewrite E. }
  destruct (G l) as [(xs & -> & E)|[-> E]]; cbn [Py.bind].
  - discriminate.
  - intros [= <-]. auto.
Qed.

(** X28 ([export_csv]): [export_csv] raises only [TypeError], and only
    when one of the records has ingredients that are not a list of strings
    (as a decoded row can have); on lists of strings it never fails. *)
Theorem export_fails_only_on_ingredients (rs : list Recipe.t) (e : Py.exn) :
  export_csv rs = Py.Raise e ->
  e = Py.TypeError
  /\ exists r, In r rs /\ str_items (Recipe.ingredients r) = None.
Proof.
  induction rs as [|r rs IH]; cbn [export_csv]; [discriminate|].
  unfold export_row at 1.
  destruct (join_value "|" (Recipe.ingredients r)) as [ing|e'|] eqn:E;
    cbn [Py.bind]; try discriminate.
  - destruct (export_csv rs) as [xs|e'|]; cbn [Py.bind]; try discriminate.
    intros [= <-]. destruct (IH eq_refl) as (He & x & Hx & Hi).
    split; [exact He|]. exists x. split; [now right|exact Hi].
  - intros [= <-]. apply join_value_raises in E as [-> E].
    split; [reflexivity|]. exists r. split; [now left|exact E].
Qed.

Lemma export_fails_only_on_ingredients_witness :
  export_csv [syrup; odd_record] = Py.Raise Py.TypeError
  /\ exists r, In r [syrup; odd_record]
               /\ str_items (Recipe.ingredients r) = None.
Proof.
  assert (H : export_csv [syrup; odd_record] = Py.Raise Py.TypeError)
    by reflexivity.
  split; [exact H|].
  exact (proj2 (export_fails_only_on_ingredients [syrup; odd_record]
                  Py.TypeError H)).
Defined.

(** ** The legacy encoding of the ingredients *)

Lemma lines_chars_no_break n :
  forall l cur piece c,
    (length l <= n)%nat ->
    (forall x, In x cur -> Str.islinebreak x = false) ->
    In piece (Str.lines_chars cur l) -> In c piece ->
    Str.islinebreak c = false.
Proof.
  induction n as [|n IH]; intros l cur piece c Hl Hcur.
  - destruct l; [|simpl in Hl; lia]. simpl.
    destruct cur; [intros []|]. intros [<-|[]] Hc.
    apply Hcur. now apply in_rev.
  - destruct l as [|x l]; simpl.
    + destruct cur; [intros []|]. intros [<-|[]] Hc.
      apply Hcur. now apply in_rev.
    + simpl in Hl. destruct (Str.islinebreak x) eqn:Ex.
      * destruct l as [|y l].
        -- intros [<-|[]] Hc. apply Hcur. now apply in_rev.
        -- destruct (_ && _).
           ++ intros [<-|H] Hc; [apply Hcur; now apply in_rev|].
              apply (IH l [] piece c); auto; [simpl in Hl; lia|intros ? []].
           ++ intros [<-|H] Hc; [apply Hcur; now apply in_rev|].
              apply (IH (y :: l) [] piece c); auto; [lia|intros ? []].
      * apply IH; [lia|]. intros z [<-|Hz]; auto.
Qed.

Lemma lines_strip_clean s : forallb clean_line (lines_strip s) = true.
Proof.
  unfold lines_strip. apply forallb_forall. intros y Hy.
  apply in_map_iff in Hy as (x & <- & Hx).
  apply filter_In in Hx as [Hx Ht].
  unfold clean_line. rewrite strip_idem, String.eqb_refl, Ht. simpl.
  apply forallb_forall. intros c Hc. apply negb_true_iff.
  apply strip_in in Hc.
  unfold Str.splitlines in Hx. apply in_map_iff in Hx as (piece & <- & Hp).
  rewrite chars_of_chars in Hc.
  apply (lines_chars_no_break (length (Str.chars s)) (Str.chars s) [] piece c);
    auto. intros ? [].
Qed.

(** X29 ([_row_to_recipe]): when the stored ingredients text is not a
    JSON document, the decoded ingredients are its lines, trimmed, without
    the blank ones; each of them is non-empty, trimmed and free of line
    boundaries.  Splitting the text of these lines joined by line feeds
    gives the same lines again, and a row that stores the joined text
    decodes to them whenever the JSON decoder refuses the joined text as
    well (it need not: the one line [12] is a JSON document). *)
Theorem legacy_fallback_lines (stored : string) :
  Str.truthy stored = true ->
  Py.raises (Json.loads stored) = true ->
  decode_ingredients (Some stored) = Py.Ok (py_strs (lines_strip stored))
  /\ forallb clean_line (lines_strip stored) = true
  /\ lines_strip (Str.join newline (lines_strip stored)) = lines_strip stored
  /\ (Py.raises (Json.loads (Str.join newline (lines_strip stored))) = true ->
      decode_ingredients (Some (Str.join newline (lines_strip stored)))
      = Py.Ok (py_strs (lines_strip stored))).
Proof.
  intros Ht Hr. split; [|split; [|split]].
  - unfold decode_ingredients. rewrite text_or_some by assumption.
    destruct (Json.loads stored); try discriminate. reflexivity.
  - apply lines_strip_clean.
  - apply lines_strip_join, lines_strip_clean.
  - apply decode_legacy, lines_strip_clean.
Qed.

Lemma legacy_fallback_lines_witness :
  decode_ingredients
    (Some ("  2 cups flour " +:+ newline +:+ newline +:+ "1 egg" +:+ newline))
  = Py.Ok (py_strs ["2 cups flour"; "1 egg"])
  /\ decode_ingredients (Some ("2 cups flour" +:+ newline +:+ "1 egg"))
     = Py.Ok (py_strs ["2 cups flour"; "1 egg"]).
Proof.
  pose (stored := "  2 cups flour " +:+ newline +:+ newline +:+ "1 egg"
                  +:+ newline).
  assert (Ht : Str.truthy stored = true) by reflexivity.
  assert (Hr : Py.raises (Json.loads stored) = true)
    by (vm_compute; reflexivity).
  destruct (legacy_fallback_lines stored Ht Hr) as (H1 & _ & _ & H4).
  split; [exact H1|]. apply H4. vm_compute. reflexivity.
Defined.
